(** * EagleEye dashboard: the scoped search client and the statistics pipeline

    A shallow embedding of [core/connectors/elasticsearch_connector.py],
    [core/config.py] and [core/stats.py], and the properties of the
    statistics pipeline that the specification states about them. *)

From Stdlib Require Import ZArith List String Ascii Bool QArith Lia DecimalString.
Import ListNotations.

Open Scope string_scope.
Open Scope Z_scope.

(** * Python values and the operations the code applies to them *)

Module Py.

(** Values decoded from a JSON document by [response.json()].  Numbers are
    integers: the counts and severity levels the reductions read are
    integral, and floating-point numbers are outside this development. *)
#[warnings="-register-all"]
Inductive json : Type :=
| JNull
| JBool (b : bool)
| JInt (n : Z)
| JStr (s : string)
| JList (xs : list json)
| JDict (kvs : list (string * json)).

(** A Python [dict] with string keys, in insertion order. *)
Definition dict := list (string * json).

(** The exception classes the reductions can meet; all derive from
    [Exception]. *)
Inductive exn := AttributeError | KeyError | IndexError | TypeError | ValueError.

(** A computation that returns a value or raises. *)
Definition result (A : Type) : Type := (exn + A)%type.

Definition ret {A} (a : A) : result A := inr a.
Definition raise {A} (e : exn) : result A := inl e.
Definition bind {A B} (m : result A) (k : A -> result B) : result B :=
  match m with
  | inl e => inl e
  | inr a => k a
  end.

Declare Scope py_scope.
Delimit Scope py_scope with py.
Notation "x <- m ;; k" := (bind m (fun x => k))
  (at level 61, m at next level, right associativity) : py_scope.

(** [try: ... except Exception: ...] around a computation. *)
Definition try_except {A} (m : result A) (handler : exn -> A) : A :=
  match m with
  | inl e => handler e
  | inr a => a
  end.

(** [[f(x) for x in xs]]: the first exception aborts the comprehension. *)
Fixpoint comprehension {A B} (f : A -> result B) (xs : list A) : result (list B) :=
  match xs with
  | [] => ret []
  | x :: xs' =>
      match f x with
      | inl e => inl e
      | inr y =>
          match comprehension f xs' with
          | inl e => inl e
          | inr ys => inr (y :: ys)
          end
      end
  end.

(** [[f(x) for x in xs if keep(x)]]: the condition is evaluated first. *)
Fixpoint comprehension_if {A B} (keep : A -> result bool) (f : A -> result B)
    (xs : list A) : result (list B) :=
  match xs with
  | [] => ret []
  | x :: xs' =>
      match keep x with
      | inl e => inl e
      | inr false => comprehension_if keep f xs'
      | inr true =>
          match f x with
          | inl e => inl e
          | inr y =>
              match comprehension_if keep f xs' with
              | inl e => inl e
              | inr ys => inr (y :: ys)
              end
          end
      end
  end.

(** [for x in xs: acc = body(acc, x)]. *)
Fixpoint for_each {A S} (body : S -> A -> result S) (xs : list A) (acc : S) : result S :=
  match xs with
  | [] => ret acc
  | x :: xs' =>
      match body acc x with
      | inl e => inl e
      | inr acc' => for_each body xs' acc'
      end
  end.

(** ** Dictionaries *)

Fixpoint lookup (k : string) (d : dict) : option json :=
  match d with
  | [] => None
  | (k', v) :: d' => if String.eqb k k' then Some v else lookup k d'
  end.

(** [d[k] = v]: an existing key keeps its position. *)
Fixpoint setitem (k : string) (v : json) (d : dict) : dict :=
  match d with
  | [] => [(k, v)]
  | (k', v') :: d' =>
      if String.eqb k k' then (k, v) :: d' else (k', v') :: setitem k v d'
  end.

(** [d.update(other)]. *)
Definition update (d other : dict) : dict :=
  fold_left (fun acc kv => setitem (fst kv) (snd kv) acc) other d.

(** [d.get(k, default)] on a known dictionary. *)
Definition dict_get (d : dict) (k : string) (default : json) : json :=
  match lookup k d with
  | Some v => v
  | None => default
  end.

(** [x.get(k, default)] on an arbitrary value: only a dictionary has the
    method. *)
Definition get (x : json) (k : string) (default : json) : result json :=
  match x with
  | JDict d => ret (dict_get d k default)
  | _ => raise AttributeError
  end.

(** [x[k]] with a string key. *)
Definition getitem (x : json) (k : string) : result json :=
  match x with
  | JDict d =>
      match lookup k d with
      | Some v => ret v
      | None => raise KeyError
      end
  | _ => raise TypeError
  end.

(** [x[0]]. *)
Definition getitem0 (x : json) : result json :=
  match x with
  | JList (v :: _) => ret v
  | JList [] => raise IndexError
  | JStr (String c _) => ret (JStr (String c EmptyString))
  | JStr EmptyString => raise IndexError
  | JDict _ => raise KeyError
  | _ => raise TypeError
  end.

(** [x.values()]. *)
Definition values (x : json) : result (list json) :=
  match x with
  | JDict d => ret (map snd d)
  | _ => raise AttributeError
  end.

(** The sequence a [for] loop or a comprehension walks over. *)
Definition iter (x : json) : result (list json) :=
  match x with
  | JList xs => ret xs
  | JStr s => ret (map (fun c => JStr (String c EmptyString)) (list_ascii_of_string s))
  | JDict d => ret (map (fun kv => JStr (fst kv)) d)
  | _ => raise TypeError
  end.

(** Truth value of an object in a condition. *)
Definition truthy (x : json) : bool :=
  match x with
  | JNull => false
  | JBool b => b
  | JInt n => negb (n =? 0)
  | JStr s => negb (String.eqb s "")
  | JList xs => match xs with [] => false | _ => true end
  | JDict d => match d with [] => false | _ => true end
  end.

(** Truth value of an [Optional[str]]. *)
Definition truthy_str (x : option string) : bool :=
  match x with
  | None => false
  | Some s => negb (String.eqb s "")
  end.

(** ** Numbers *)

(** The integer a value counts as in arithmetic, when it has one. *)
Definition as_number (x : json) : option Z :=
  match x with
  | JInt n => Some n
  | JBool b => Some (if b then 1 else 0)
  | _ => None
  end.

(** [a + b]. *)
Definition add (a b : json) : result json :=
  match a, b with
  | JStr s, JStr t => ret (JStr (s ++ t))
  | JList xs, JList ys => ret (JList (xs ++ ys))
  | _, _ =>
      match as_number a, as_number b with
      | Some m, Some n => ret (JInt (m + n))
      | _, _ => raise TypeError
      end
  end.

(** [x >= n] for an integer literal [n]. *)
Definition ge_int (x : json) (n : Z) : result bool :=
  match as_number x with
  | Some m => ret (m >=? n)
  | None => raise TypeError
  end.

(** [sum(xs)]: addition from the left, starting at 0. *)
Definition sum (xs : list json) : result json :=
  for_each add xs (JInt 0).

(** [int(x)].  What [int] makes of a string is left to [int_of_str]. *)
Definition int (int_of_str : string -> option Z) (x : json) : result Z :=
  match x with
  | JInt n => ret n
  | JBool b => ret (if b then 1 else 0)
  | JStr s =>
      match int_of_str s with
      | Some n => ret n
      | None => raise ValueError
      end
  | _ => raise TypeError
  end.

(** ** Strings *)

(** [x == s] for a string literal [s]. *)
Definition eq_str (x : json) (s : string) : bool :=
  match x with
  | JStr t => String.eqb t s
  | _ => false
  end.

(** [x in (s1, s2, ...)] for string literals. *)
Definition in_strs (x : json) (ss : list string) : bool :=
  existsb (eq_str x) ss.

Definition lower_ascii (c : ascii) : ascii :=
  let n := nat_of_ascii c in
  if (Nat.leb 65 n && Nat.leb n 90)%bool then ascii_of_nat (n + 32) else c.

Fixpoint lower_str (s : string) : string :=
  match s with
  | EmptyString => EmptyString
  | String c s' => String (lower_ascii c) (lower_str s')
  end.

(** [x.lower()]. *)
Definition lower (x : json) : result json :=
  match x with
  | JStr s => ret (JStr (lower_str s))
  | _ => raise AttributeError
  end.

(** [s.startswith(p)]. *)
Definition startswith (s p : string) : bool := String.prefix p s.

(** [needle in s]. *)
Fixpoint contains (needle s : string) : bool :=
  (String.prefix needle s ||
   match s with
   | EmptyString => false
   | String _ s' => contains needle s'
   end)%bool.

(** [s.replace(old, "")] for a non-empty [old]: occurrences are removed
    from left to right; [skip] counts the characters of a match still to
    be dropped. *)
Fixpoint remove_from (old : string) (skip : nat) (s : string) : string :=
  match s with
  | EmptyString => EmptyString
  | String c s' =>
      match skip with
      | S k => remove_from old k s'
      | O =>
          if String.prefix old s
          then remove_from old (Nat.pred (String.length old)) s'
          else String c (remove_from old O s')
      end
  end.

Definition remove (s old : string) : string := remove_from old O s.

(** [s.rstrip("/")]. *)
Fixpoint rstrip_slash (s : string) : string :=
  match s with
  | EmptyString => EmptyString
  | String c s' =>
      match rstrip_slash s' with
      | EmptyString => if Ascii.eqb c "/"%char then EmptyString else String c EmptyString
      | t => String c t
      end
  end.

(** [str(n)] for an integer. *)
Definition str_of_int (n : Z) : string := NilZero.string_of_int (Z.to_int n).

(** ** Membership and type tests *)

(** [needle in x] for a string [needle]: a substring of a string, an
    element of a list, a key of a dictionary. *)
Definition in_value (needle : string) (x : json) : result bool :=
  match x with
  | JStr s => ret (contains needle s)
  | JList xs => ret (existsb (fun v => eq_str v needle) xs)
  | JDict d => ret (existsb (fun kv => String.eqb (fst kv) needle) d)
  | _ => raise TypeError
  end.

(** [isinstance(x, dict)]. *)
Definition is_dict (x : json) : bool :=
  match x with
  | JDict _ => true
  | _ => false
  end.

(** [list(x.keys())]. *)
Definition keys (x : json) : result (list string) :=
  match x with
  | JDict d => ret (map fst d)
  | _ => raise AttributeError
  end.

(** ** Instances used to run the examples *)

Definition digit_of_ascii (c : ascii) : option Z :=
  let n := nat_of_ascii c in
  if (Nat.leb 48 n && Nat.leb n 57)%bool then Some (Z.of_nat (n - 48)) else None.

Fixpoint digits_value (acc : Z) (s : string) : option Z :=
  match s with
  | EmptyString => Some acc
  | String c s' =>
      match digit_of_ascii c with
      | Some d => digits_value (10 * acc + d) s'
      | None => None
      end
  end.

(** [int] on a plain decimal literal: an optional sign and ASCII digits.
    Python accepts more (blanks around the literal, underscores between
    digits, digits of other scripts). *)
Definition int_of_decimal (s : string) : option Z :=
  match s with
  | EmptyString => None
  | String "-" (String c s') => option_map Z.opp (digits_value 0 (String c s'))
  | String "+" (String c s') => digits_value 0 (String c s')
  | _ => digits_value 0 s
  end.

(** The class name standing for the message of an exception. *)
Definition exn_name (e : exn) : string :=
  match e with
  | AttributeError => "AttributeError"
  | KeyError => "KeyError"
  | IndexError => "IndexError"
  | TypeError => "TypeError"
  | ValueError => "ValueError"
  end.

(** A text standing for [str] of a value; for a string, the string. *)
Definition plain_text (x : json) : string :=
  match x with
  | JNull => "None"
  | JBool true => "True"
  | JBool false => "False"
  | JInt n => str_of_int n
  | JStr s => s
  | JList _ => "[...]"
  | JDict _ => "{...}"
  end.

End Py.

Import Py.
Open Scope py_scope.

(** * Configuration ([core/config.py]) *)

(** The entries of [Config.env] that the connection parameters read. *)
Record Config := {
  dashboard_host : string;
  dashboard_port : Z;
  dashboard_user : option string;
  dashboard_pass : option string;
  env_verify_ssl : bool
}.

(** The dictionary returned by [get_elasticsearch_config]. *)
Record EsConfig := {
  cfg_host : string;
  cfg_port : Z;
  cfg_scheme : string;
  cfg_username : option string;
  cfg_password : option string;
  cfg_verify_ssl : bool
}.

Definition get_elasticsearch_config (self : Config) (client_name : option string) : EsConfig :=
  let dashboard_host := dashboard_host self in
  let '(scheme, host) :=
    if startswith dashboard_host "https://" then
      ("https", rstrip_slash (remove (remove dashboard_host "https://") "http://"))
    else if startswith dashboard_host "http://" then
      ("http", rstrip_slash (remove dashboard_host "http://"))
    else
      (if contains "https" dashboard_host then "https" else "http",
       rstrip_slash dashboard_host) in
  {| cfg_host := host;
     cfg_port := dashboard_port self;
     cfg_scheme := scheme;
     cfg_username := dashboard_user self;
     cfg_password := dashboard_pass self;
     cfg_verify_ssl := env_verify_ssl self |}.

(** * The scoped search client ([core/connectors/elasticsearch_connector.py]) *)

Record ElasticsearchConnector := {
  client_name : option string;
  host : string;
  port : Z;
  scheme : string;
  username : option string;
  password : option string;
  verify_ssl : bool;
  indexer_url : string;
  timeout : Q * Q;
  max_retries : nat;
  retry_backoff : Q
}.

(** [ElasticsearchConnector.__init__]; [config] is the module-level
    configuration the fallback branch reads. *)
Definition ElasticsearchConnector_init (config : Config)
    (es_config : option EsConfig) (client_name : option string) : ElasticsearchConnector :=
  let '(host, port, scheme, username, password, verify_ssl) :=
    match es_config with
    | Some c =>
        (cfg_host c, cfg_port c, cfg_scheme c, cfg_username c, cfg_password c,
         cfg_verify_ssl c)
    | None =>
        (remove (remove (dashboard_host config) "https://") "http://",
         dashboard_port config,
         if startswith (dashboard_host config) "https" then "https" else "http",
         dashboard_user config, dashboard_pass config, env_verify_ssl config)
    end in
  {| client_name := client_name;
     host := host;
     port := port;
     scheme := scheme;
     username := username;
     password := password;
     verify_ssl := verify_ssl;
     indexer_url := scheme ++ "://" ++ host ++ ":" ++ str_of_int port;
     timeout := (5, 20)%Q;
     max_retries := 2;
     retry_backoff := (3 # 2)%Q |}.

Definition _scope_index (self : ElasticsearchConnector) (index : string) : string :=
  if negb (truthy_str (client_name self)) then index
  else if contains ":" index then index
  else match client_name self with
       | Some c => c ++ ":" ++ index
       | None => "None:" ++ index
       end.

(** ** The transport *)

(** The arguments of one [requests.post] call. *)
Record request := {
  url : string;
  json_body : json;
  auth : option (string * string);
  verify : bool;
  req_timeout : Q * Q
}.

(** What a [requests.post] call comes to: a response, with its status code
    and its body decoded as JSON when it is JSON, or a
    [requests.exceptions.RequestException]. *)
Inductive outcome :=
| Response (status_code : Z) (body : option json)
| RequestException.

(** The search engine is outside the repository.  Its behaviour is an
    oracle: what the n-th attempt of a request comes to. *)
Definition transport := request -> nat -> outcome.

(** The effects of the client on the outside, in order. *)
Inductive effect :=
| Post (r : request)
| Sleep (seconds : Q).

(** A computation with effects: its value and the effects it performed. *)
Definition io (A : Type) : Type := (A * list effect)%type.

Definition io_ret {A} (a : A) : io A := (a, []).
Definition io_bind {A B} (m : io A) (k : A -> io B) : io B :=
  let '(a, l1) := m in
  let '(b, l2) := k a in
  (b, (l1 ++ l2)%list).
Definition perform (e : effect) : io unit := (tt, [e]).
Definition run {A} (m : io A) : A := fst m.
Definition effects {A} (m : io A) : list effect := snd m.

Declare Scope io_scope.
Delimit Scope io_scope with io.
Notation "x <~ m ;; k" := (io_bind m (fun x => k))
  (at level 61, m at next level, right associativity) : io_scope.
Open Scope io_scope.

(** The body of the [try] in [_execute_search_request] for one response:
    the value returned, or [None] when a [RequestException] is raised.
    [response.json()] on a body that is not JSON raises
    [requests.exceptions.JSONDecodeError], a [RequestException]. *)
Definition attempt_result (o : outcome) : option json :=
  match o with
  | Response status_code body =>
      if status_code =? 200 then body else Some (JDict [])
  | RequestException => None
  end.

(** The [for attempt in range(self.max_retries + 1)] loop. *)
Fixpoint attempt_loop (net : transport) (self : ElasticsearchConnector)
    (req : request) (attempts : list nat) : io json :=
  match attempts with
  | [] => io_ret (JDict [])
  | attempt :: rest =>
      _ <~ perform (Post req) ;;
      match attempt_result (net req attempt) with
      | Some r => io_ret r
      | None =>
          if (attempt <? max_retries self)%nat then
            _ <~ perform (Sleep (retry_backoff self * inject_Z (Z.of_nat (attempt + 1)))) ;;
            attempt_loop net self req rest
          else io_ret (JDict [])
      end
  end.

Definition search_request (self : ElasticsearchConnector) (search_url : string)
    (query : json) : request :=
  {| url := search_url;
     json_body := query;
     auth := if (truthy_str (username self) && truthy_str (password self))%bool
             then match username self, password self with
                  | Some u, Some p => Some (u, p)
                  | _, _ => None
                  end
             else None;
     verify := verify_ssl self;
     req_timeout := timeout self |}.

Definition _execute_search_request (net : transport) (self : ElasticsearchConnector)
    (search_url : string) (query : json) (description : string) : io json :=
  attempt_loop net self (search_request self search_url query)
    (seq 0 (max_retries self + 1)).

Definition search (net : transport) (self : ElasticsearchConnector)
    (index : string) (body : json) : io json :=
  let scoped_index := _scope_index self index in
  let search_url := indexer_url self ++ "/" ++ scoped_index ++ "/_search" in
  _execute_search_request net self search_url body ("search " ++ scoped_index).

(** * The aggregation pipeline ([core/stats.py]) *)

(** [result.get("aggregations", {}).get(name, {}).get("buckets", [])]. *)
Definition aggregation_buckets (result : json) (name : string) : Py.result json :=
  aggregations <- get result "aggregations" (JDict []) ;;
  aggregation <- get aggregations name (JDict []) ;;
  get aggregation "buckets" (JList []).

(** The [range] filter on the event time that five of the queries share. *)
Definition timestamp_range (es_time_range : string) : json :=
  JDict [("range", JDict [("@timestamp",
     JDict [("gte", JStr es_time_range); ("lte", JStr "now")])])].

(** ** Alerts over time *)

Definition alerts_per_hour_query (es_time_range interval : string) : json :=
  JDict [("query", timestamp_range es_time_range);
         ("size", JInt 0);
         ("aggs", JDict [("alerts_per_hour", JDict [("date_histogram",
            JDict [("field", JStr "@timestamp");
                   ("calendar_interval", JStr interval);
                   ("format", JStr "yyyy-MM-dd HH:mm:ss")])])])].

(** The body of the [try] of [_get_alerts_per_hour] after the search. *)
Definition alerts_per_hour_reduce (result : json) : Py.result dict :=
  buckets <- aggregation_buckets result "alerts_per_hour" ;;
  buckets <- iter buckets ;;
  alerts_per_hour <- comprehension (fun bucket =>
      timestamp <- getitem bucket "key_as_string" ;;
      count <- getitem bucket "doc_count" ;;
      ret (JDict [("timestamp", timestamp); ("count", count)])) buckets ;;
  ret [("alerts_per_hour", JList alerts_per_hour)].

Definition _get_alerts_per_hour (net : transport) (es_connector : ElasticsearchConnector)
    (index es_time_range interval : string) : io dict :=
  let query := alerts_per_hour_query es_time_range interval in
  result <~ search net es_connector index query ;;
  io_ret (try_except (alerts_per_hour_reduce result)
            (fun e => [("alerts_per_hour", JList [])])).

(** ** Severity breakdown *)

Definition severity_query (es_time_range : string) : json :=
  JDict [("size", JInt 0);
         ("query", timestamp_range es_time_range);
         ("aggs", JDict [("severity_breakdown", JDict [("terms",
            JDict [("field", JStr "rule.level"); ("size", JInt 20)])])])].

(** [d[k] += v]. *)
Definition iadd_item (d : dict) (k : string) (v : json) : Py.result dict :=
  match lookup k d with
  | Some current => s <- add current v ;; ret (setitem k s d)
  | None => raise KeyError
  end.

(** One turn of the loop that sorts the entries of [severity_data] into
    bands. *)
Definition severity_band_step (severity_summary : dict) (b : json) : Py.result dict :=
  level <- getitem b "level" ;;
  cnt <- get b "count" (JInt 0) ;;
  critical <- ge_int level 15 ;;
  if critical then iadd_item severity_summary "critical" cnt
  else
    high <- ge_int level 12 ;;
    if high then iadd_item severity_summary "high" cnt
    else
      medium <- ge_int level 7 ;;
      if medium then iadd_item severity_summary "medium" cnt
      else iadd_item severity_summary "low" cnt.

Section Pipeline.

(** Python's [int] on a string: the integer it denotes, or [None] where
    [int] raises [ValueError]. *)
Variable int_of_str : string -> option Z.

(** Python's [str] on an exception: its message. *)
Variable str_of_exn : exn -> string.

(** The body of the [try] of [_get_severity_breakdown] after the search. *)
Definition severity_reduce (result : json) : Py.result dict :=
  buckets <- aggregation_buckets result "severity_breakdown" ;;
  buckets <- iter buckets ;;
  severity_data <- comprehension (fun bucket =>
      key <- getitem bucket "key" ;;
      level <- int int_of_str key ;;
      count <- getitem bucket "doc_count" ;;
      ret (JDict [("level", JInt level); ("count", count)])) buckets ;;
  let severity_summary :=
    [("critical", JInt 0); ("high", JInt 0); ("medium", JInt 0); ("low", JInt 0)] in
  severity_summary <- for_each severity_band_step severity_data severity_summary ;;
  ret [("severity_breakdown", JList severity_data);
       ("severity_summary", JDict severity_summary)].

Definition _get_severity_breakdown (net : transport) (es_connector : ElasticsearchConnector)
    (index es_time_range : string) : io dict :=
  let query := severity_query es_time_range in
  result <~ search net es_connector index query ;;
  io_ret (try_except (severity_reduce result)
            (fun e => [("severity_breakdown", JList []); ("severity_summary", JDict [])])).

(** ** Top rules and top agents *)

Definition top_rules_query (es_time_range : string) : json :=
  JDict [("size", JInt 0);
         ("query", timestamp_range es_time_range);
         ("aggs", JDict [("top_rules", JDict [("terms",
            JDict [("field", JStr "rule.description"); ("size", JInt 10)])])])].

Definition top_rules_reduce (result : json) : Py.result dict :=
  buckets <- aggregation_buckets result "top_rules" ;;
  buckets <- iter buckets ;;
  top_rules <- comprehension (fun bucket =>
      description <- getitem bucket "key" ;;
      count <- getitem bucket "doc_count" ;;
      ret (JDict [("description", description); ("count", count)])) buckets ;;
  ret [("top_rules", JList top_rules)].

Definition _get_top_rules (net : transport) (es_connector : ElasticsearchConnector)
    (index es_time_range : string) : io dict :=
  let query := top_rules_query es_time_range in
  result <~ search net es_connector index query ;;
  io_ret (try_except (top_rules_reduce result) (fun e => [("top_rules", JList [])])).

Definition top_agents_query : json :=
  JDict [("query", JDict [("match_all", JDict [])]);
         ("size", JInt 0);
         ("aggs", JDict [("top_agents", JDict [("terms",
            JDict [("field", JStr "agent.name"); ("size", JInt 10)])])])].

Definition top_agents_reduce (result : json) : Py.result dict :=
  buckets <- aggregation_buckets result "top_agents" ;;
  buckets <- iter buckets ;;
  top_agents <- comprehension (fun bucket =>
      agent_name <- getitem bucket "key" ;;
      count <- getitem bucket "doc_count" ;;
      ret (JDict [("agent_name", agent_name); ("count", count)])) buckets ;;
  ret [("top_agents", JList top_agents)].

Definition _get_top_agents (net : transport) (es_connector : ElasticsearchConnector)
    (index : string) : io dict :=
  let query := top_agents_query in
  result <~ search net es_connector index query ;;
  io_ret (try_except (top_agents_reduce result) (fun e => [("top_agents", JList [])])).

(** ** Top source addresses *)

Definition top_source_ips_query (es_time_range : string) : json :=
  JDict [("query", timestamp_range es_time_range);
         ("size", JInt 0);
         ("aggs", JDict [("top_source_ips",
            JDict [("terms", JDict [("field", JStr "data.office365.ClientIP");
                                    ("size", JInt 10)]);
                   ("aggs", JDict [("country", JDict [("terms",
                      JDict [("field", JStr "GeoLocation.country_name");
                             ("size", JInt 1)])])])])])].

(** [bucket["key"] not in ["", "0.0.0.0"]]. *)
Definition source_ip_kept (bucket : json) : Py.result bool :=
  key <- getitem bucket "key" ;;
  ret (negb (in_strs key [""; "0.0.0.0"])).

(** [bucket.get("country", {}).get("buckets", [{}])[0].get("key", "Unknown")]. *)
Definition source_ip_country (bucket : json) : Py.result json :=
  country <- get bucket "country" (JDict []) ;;
  buckets <- get country "buckets" (JList [JDict []]) ;;
  first <- getitem0 buckets ;;
  get first "key" (JStr "Unknown").

Definition source_ip_entry (bucket : json) : Py.result json :=
  ip <- getitem bucket "key" ;;
  count <- getitem bucket "doc_count" ;;
  country <- source_ip_country bucket ;;
  ret (JDict [("ip", ip); ("count", count); ("country", country)]).

Definition top_source_ips_reduce (result : json) : Py.result dict :=
  buckets <- aggregation_buckets result "top_source_ips" ;;
  buckets <- iter buckets ;;
  top_ips <- comprehension_if source_ip_kept source_ip_entry buckets ;;
  ret [("top_source_ips", JList top_ips)].

Definition _get_top_source_ips (net : transport) (es_connector : ElasticsearchConnector)
    (index es_time_range : string) : io dict :=
  let query := top_source_ips_query es_time_range in
  result <~ search net es_connector index query ;;
  io_ret (try_except (top_source_ips_reduce result)
            (fun e => [("top_source_ips", JList [])])).

(** ** Alert trends *)

Definition alert_trends_query (es_time_range : string) : json :=
  JDict [("size", JInt 0);
         ("query", timestamp_range es_time_range);
         ("aggs", JDict [("daily_trends", JDict [("date_histogram",
            JDict [("field", JStr "@timestamp");
                   ("calendar_interval", JStr "day");
                   ("format", JStr "yyyy-MM-dd")])])])].

Definition alert_trends_reduce (result : json) : Py.result dict :=
  buckets <- aggregation_buckets result "daily_trends" ;;
  buckets <- iter buckets ;;
  trends <- comprehension (fun bucket =>
      date <- getitem bucket "key_as_string" ;;
      count <- getitem bucket "doc_count" ;;
      ret (JDict [("date", date); ("count", count)])) buckets ;;
  ret [("alert_trends", JList trends)].

Definition _get_alert_trends (net : transport) (es_connector : ElasticsearchConnector)
    (index es_time_range : string) : io dict :=
  let query := alert_trends_query es_time_range in
  result <~ search net es_connector index query ;;
  io_ret (try_except (alert_trends_reduce result) (fun e => [("alert_trends", JList [])])).

(** ** Agent health *)

Definition agent_status_query : json :=
  JDict [("size", JInt 0);
         ("query", JDict [("bool",
            JDict [("must", JList [JDict [("range", JDict [("timestamp",
                      JDict [("gte", JStr "now-2h")])])]]);
                   ("must_not", JList [JDict [("term",
                      JDict [("id", JStr "000")])]])])]);
         ("aggs", JDict [("agents",
            JDict [("terms", JDict [("field", JStr "id"); ("size", JInt 1000)]);
                   ("aggs", JDict [("latest", JDict [("top_hits",
                      JDict [("size", JInt 1);
                             ("sort", JList [JDict [("timestamp", JStr "desc")]]);
                             ("_source", JList [JStr "status"; JStr "name"])])])])])])].

(** One turn of the loop over the agent buckets; the state is the pair
    [(online, offline)]. *)
Definition agent_status_step (counts : Z * Z) (bucket : json) : Py.result (Z * Z) :=
  let '(online, offline) := counts in
  latest <- get bucket "latest" (JDict []) ;;
  hits <- get latest "hits" (JDict []) ;;
  latest_hits <- get hits "hits" (JList []) ;;
  if truthy latest_hits then
    hit <- getitem0 latest_hits ;;
    source <- get hit "_source" (JDict []) ;;
    status <- get source "status" (JStr "") ;;
    status <- lower status ;;
    if in_strs status ["active"; "connected"]
    then ret (online + 1, offline)
    else ret (online, offline + 1)
  else ret (online, offline).

Definition agent_health (online offline : Z) : dict :=
  [("agent_health",
    JDict [("total", JInt (online + offline));
           ("online", JInt online);
           ("offline", JInt offline)])].

Definition agent_status_reduce (result : json) : Py.result dict :=
  buckets <- aggregation_buckets result "agents" ;;
  buckets <- iter buckets ;;
  counts <- for_each agent_status_step buckets (0, 0) ;;
  ret (agent_health (fst counts) (snd counts)).

Definition _get_agent_status (net : transport) (es_connector : ElasticsearchConnector)
    (index : string) : io dict :=
  let query := agent_status_query in
  result <~ search net es_connector index query ;;
  io_ret (try_except (agent_status_reduce result)
            (fun e => [("agent_health",
               JDict [("total", JInt 0); ("online", JInt 0); ("offline", JInt 0)])])).

(** ** The statistics of one tenant *)

(** [m.get(k, default)] on a table of strings. *)
Fixpoint table_get (m : list (string * string)) (k default : string) : string :=
  match m with
  | [] => default
  | (k', v) :: m' => if String.eqb k k' then v else table_get m' k default
  end.

(** An [Optional[str]] inside an f-string. *)
Definition format_optional (x : option string) : string :=
  match x with
  | Some s => s
  | None => "None"
  end.

(** The object returned by the [except] branch of
    [get_dashboard_statistics]. *)
Definition pipeline_failure (error : string) : dict :=
  [("error", JStr error);
   ("alerts_per_hour", JList []);
   ("severity_breakdown", JList []);
   ("severity_summary", JDict []);
   ("top_rules", JList []);
   ("top_agents", JList []);
   ("top_source_ips", JList []);
   ("alert_trends", JList []);
   ("agent_health", JDict [("total", JInt 0); ("online", JInt 0); ("offline", JInt 0)])].

Definition alert_index_of (client_name : option string) : string :=
  if truthy_str client_name
  then format_optional client_name ++ ":wazuh-alerts-*"
  else "wazuh-alerts-*".

Definition monitoring_index_of (client_name : option string) : string :=
  if truthy_str client_name
  then format_optional client_name ++ ":wazuh-monitoring-*"
  else "wazuh-monitoring-*".

Definition time_map : list (string * string) :=
  [("24h", "now-24h"); ("7d", "now-7d"); ("30d", "now-30d")].

Definition interval_map : list (string * string) :=
  [("24h", "1h"); ("7d", "6h"); ("30d", "1d")].

(** The convenience totals added at the end of the [try]. *)
Definition add_totals (stats : dict) : Py.result dict :=
  let summary := dict_get stats "severity_summary" (JDict []) in
  critical_alerts <- get summary "critical" (JInt 0) ;;
  let stats := setitem "critical_alerts" critical_alerts stats in
  total_alerts <- (if truthy summary
                   then vs <- values summary ;; sum vs
                   else ret (JInt 0)) ;;
  ret (setitem "total_alerts" total_alerts stats).

(** The body of the [try] of [get_dashboard_statistics]; [config] is the
    module-level configuration. *)
Definition statistics_body (net : transport) (config : Config)
    (client_name : option string) (time_range : string) : io (Py.result dict) :=
  let es_config := get_elasticsearch_config config client_name in
  let es_connector := ElasticsearchConnector_init config (Some es_config) client_name in
  let stats : dict := [] in
  let alert_index := alert_index_of client_name in
  let monitoring_index := monitoring_index_of client_name in
  let es_time_range := table_get time_map time_range "now-24h" in
  let histogram_interval := table_get interval_map time_range "1h" in
  fragment <~ _get_alerts_per_hour net es_connector alert_index es_time_range
                histogram_interval ;;
  let stats := update stats fragment in
  sev_result <~ _get_severity_breakdown net es_connector alert_index es_time_range ;;
  let stats := update stats
    [("severity_breakdown", dict_get sev_result "severity_breakdown" (JList []))] in
  let stats := update stats
    [("severity_summary", dict_get sev_result "severity_summary" (JDict []))] in
  fragment <~ _get_top_rules net es_connector alert_index es_time_range ;;
  let stats := update stats fragment in
  fragment <~ _get_top_agents net es_connector alert_index ;;
  let stats := update stats fragment in
  fragment <~ _get_top_source_ips net es_connector alert_index es_time_range ;;
  let stats := update stats fragment in
  fragment <~ _get_alert_trends net es_connector alert_index es_time_range ;;
  let stats := update stats fragment in
  fragment <~ _get_agent_status net es_connector monitoring_index ;;
  let stats := update stats fragment in
  io_ret (add_totals stats).

Definition get_dashboard_statistics (net : transport) (config : Config)
    (client_name : option string) (time_range : string) : io dict :=
  outcome <~ statistics_body net config client_name time_range ;;
  io_ret (try_except outcome (fun e => pipeline_failure (str_of_exn e))).

(** * Definitions used to state the properties *)

(** The address [search] posts to. *)
Definition search_url_of (self : ElasticsearchConnector) (index : string) : string :=
  indexer_url self ++ "/" ++ _scope_index self index ++ "/_search".

(** The scoping rule in the words of the specification: no tenant, a
    pattern that has the delimiter, otherwise the prefixed pattern. *)
Definition scope_index_spec (tenant_id : option string) (pattern : string) : string :=
  match tenant_id with
  | None => pattern
  | Some t => if contains ":" pattern then pattern else t ++ ":" ++ pattern
  end.

Definition is_post (e : effect) : bool :=
  match e with
  | Post _ => true
  | Sleep _ => false
  end.

(** ** Sample data *)

Definition sample_config : Config :=
  {| dashboard_host := "https://indexer.example/";
     dashboard_port := 9200;
     dashboard_user := Some "reader";
     dashboard_pass := Some "secret";
     env_verify_ssl := true |}.

(** The connector [get_dashboard_statistics] builds for a tenant. *)
Definition connector_for (config : Config) (client_name : option string) : ElasticsearchConnector :=
  ElasticsearchConnector_init config
    (Some (get_elasticsearch_config config client_name)) client_name.

Definition lab_connector : ElasticsearchConnector := connector_for sample_config (Some "lab").

(** An engine that cannot be reached. *)
Definition unreachable : transport := fun _ _ => RequestException.

(** An engine that cannot be reached for the first attempts and then
    refuses with a status. *)
Definition failing_then (failures : nat) (status_code : Z) : transport :=
  fun _ attempt =>
    if (attempt <? failures)%nat then RequestException else Response status_code None.

(** ** The fragments of one statistics call *)

Inductive fragment :=
| AlertsPerHour | Severity | TopRules | TopAgents | TopSourceIps | AlertTrends | AgentHealth.

Definition es_time_range_of (time_range : string) : string :=
  table_get time_map time_range "now-24h".

Definition histogram_interval_of (time_range : string) : string :=
  table_get interval_map time_range "1h".

(** The index pattern a fragment is searched in. *)
Definition fragment_index (client_name : option string) (f : fragment) : string :=
  match f with
  | AgentHealth => monitoring_index_of client_name
  | _ => alert_index_of client_name
  end.

(** The query a fragment sends. *)
Definition fragment_query (time_range : string) (f : fragment) : json :=
  match f with
  | AlertsPerHour =>
      alerts_per_hour_query (es_time_range_of time_range) (histogram_interval_of time_range)
  | Severity => severity_query (es_time_range_of time_range)
  | TopRules => top_rules_query (es_time_range_of time_range)
  | TopAgents => top_agents_query
  | TopSourceIps => top_source_ips_query (es_time_range_of time_range)
  | AlertTrends => alert_trends_query (es_time_range_of time_range)
  | AgentHealth => agent_status_query
  end.

(** The request of a fragment, as [search] posts it. *)
Definition fragment_request (config : Config) (client_name : option string)
    (time_range : string) (f : fragment) : request :=
  let es_connector := connector_for config client_name in
  search_request es_connector
    (search_url_of es_connector (fragment_index client_name f))
    (fragment_query time_range f).

(** The response [search] hands to a fragment. *)
Definition fragment_response (net : transport) (config : Config)
    (client_name : option string) (time_range : string) (f : fragment) : json :=
  run (search net (connector_for config client_name) (fragment_index client_name f)
         (fragment_query time_range f)).

(** The reduction of a fragment. *)
Definition fragment_reduce (f : fragment) : json -> Py.result dict :=
  match f with
  | AlertsPerHour => alerts_per_hour_reduce
  | Severity => severity_reduce
  | TopRules => top_rules_reduce
  | TopAgents => top_agents_reduce
  | TopSourceIps => top_source_ips_reduce
  | AlertTrends => alert_trends_reduce
  | AgentHealth => agent_status_reduce
  end.

(** The function of [stats.py] that computes a fragment, as
    [get_dashboard_statistics] calls it. *)
Definition fragment_call (net : transport) (config : Config)
    (client_name : option string) (time_range : string) (f : fragment) : io dict :=
  let es_connector := connector_for config client_name in
  let alert_index := alert_index_of client_name in
  let es_time_range := es_time_range_of time_range in
  match f with
  | AlertsPerHour =>
      _get_alerts_per_hour net es_connector alert_index es_time_range
        (histogram_interval_of time_range)
  | Severity => _get_severity_breakdown net es_connector alert_index es_time_range
  | TopRules => _get_top_rules net es_connector alert_index es_time_range
  | TopAgents => _get_top_agents net es_connector alert_index
  | TopSourceIps => _get_top_source_ips net es_connector alert_index es_time_range
  | AlertTrends => _get_alert_trends net es_connector alert_index es_time_range
  | AgentHealth => _get_agent_status net es_connector (monitoring_index_of client_name)
  end.

(** The keys of the statistics object that a fragment decides; the two
    totals are derived from the severity summary. *)
Definition fragment_keys (f : fragment) : list string :=
  match f with
  | AlertsPerHour => ["alerts_per_hour"]
  | Severity => ["severity_breakdown"; "severity_summary"; "critical_alerts"; "total_alerts"]
  | TopRules => ["top_rules"]
  | TopAgents => ["top_agents"]
  | TopSourceIps => ["top_source_ips"]
  | AlertTrends => ["alert_trends"]
  | AgentHealth => ["agent_health"]
  end.

(** The four bands of a severity summary. *)
Definition summary_of (critical high medium low : Z) : dict :=
  [("critical", JInt critical); ("high", JInt high);
   ("medium", JInt medium); ("low", JInt low)].

Definition health_of (total online offline : Z) : json :=
  JDict [("total", JInt total); ("online", JInt online); ("offline", JInt offline)].

(** The value of the handler of a fragment function. *)
Definition fragment_failed (f : fragment) : dict :=
  match f with
  | AlertsPerHour => [("alerts_per_hour", JList [])]
  | Severity => [("severity_breakdown", JList []); ("severity_summary", JDict [])]
  | TopRules => [("top_rules", JList [])]
  | TopAgents => [("top_agents", JList [])]
  | TopSourceIps => [("top_source_ips", JList [])]
  | AlertTrends => [("alert_trends", JList [])]
  | AgentHealth => [("agent_health", health_of 0 0 0)]
  end.

(** The empty value of a key of the statistics object: what it holds when
    the engine had nothing to report, and, for the severity summary, what
    it holds when the reduction raised. *)
Definition empty_value (raised : bool) (k : string) : json :=
  if String.eqb k "severity_summary" then
    if raised then JDict [] else JDict (summary_of 0 0 0 0)
  else if String.eqb k "agent_health" then health_of 0 0 0
  else if (String.eqb k "critical_alerts" || String.eqb k "total_alerts")%bool then JInt 0
  else JList [].

(** A band of a severity summary, read as the code reads it: 0 when the
    summary has no such band. *)
Definition band (summary : json) (name : string) : Z :=
  match summary with
  | JDict d =>
      match lookup name d with
      | Some (JInt n) => n
      | _ => 0
      end
  | _ => 0
  end.

(** The statistics object made of the values of the eight fragment keys
    and the two totals. *)
Definition statistics_of (alerts_per_hour severity_breakdown severity_summary
    top_rules top_agents top_source_ips alert_trends agent_health
    critical_alerts total_alerts : json) : dict :=
  [("alerts_per_hour", alerts_per_hour);
   ("severity_breakdown", severity_breakdown);
   ("severity_summary", severity_summary);
   ("top_rules", top_rules);
   ("top_agents", top_agents);
   ("top_source_ips", top_source_ips);
   ("alert_trends", alert_trends);
   ("agent_health", agent_health);
   ("critical_alerts", critical_alerts);
   ("total_alerts", total_alerts)].

(** The value of a key in what a fragment function returned. *)
Definition fragment_value (net : transport) (config : Config) (client : option string)
    (time_range : string) (f : fragment) (k : string) : json :=
  dict_get (run (fragment_call net config client time_range f)) k JNull.

(** The value a key of the statistics object takes, given what the
    function of its fragment returned. *)
Definition key_value (returned : dict) (k : string) : json :=
  let summary := dict_get returned "severity_summary" JNull in
  if String.eqb k "critical_alerts" then JInt (band summary "critical")
  else if String.eqb k "total_alerts" then
    JInt (band summary "critical" + band summary "high"
          + band summary "medium" + band summary "low")
  else dict_get returned k JNull.

(** ** The statistics shape in the words of the specification *)

Definition has_keys (d : dict) (ks : list string) : bool :=
  forallb (fun k => match lookup k d with Some _ => true | None => false end) ks.

Definition statistics_keys : list string :=
  ["alerts_per_hour"; "severity_breakdown"; "severity_summary"; "top_rules";
   "top_agents"; "top_source_ips"; "alert_trends"; "agent_health";
   "total_alerts"; "critical_alerts"].

Definition list_keys : list string :=
  ["alerts_per_hour"; "severity_breakdown"; "top_rules"; "top_agents";
   "top_source_ips"; "alert_trends"].

(** No key missing: the ten keys of the statistics object, the four bands
    of the severity summary and the three counters of the agent health. *)
Definition fixed_shape (stats : dict) : bool :=
  (has_keys stats statistics_keys
   && match lookup "severity_summary" stats with
      | Some (JDict s) => has_keys s ["critical"; "high"; "medium"; "low"]
      | _ => false
      end
   && match lookup "agent_health" stats with
      | Some (JDict h) => has_keys h ["total"; "online"; "offline"]
      | _ => false
      end)%bool.

(** ** Sample engines *)

(** An engine that answers every request with the same document. *)
Definition answering (document : json) : transport :=
  fun _ _ => Response 200 (Some document).

Definition aggregations_of (name : string) (buckets : list json) : json :=
  JDict [("took", JInt 3);
         ("aggregations", JDict [(name, JDict [("buckets", JList buckets)])])].

(** A severity response with a bucket that has no key. *)
Definition severity_without_key : json :=
  aggregations_of "severity_breakdown" [JDict [("doc_count", JInt 4)]].

(** The name of the aggregation a query asks for. *)
Definition aggregation_name (query : json) : string :=
  match query with
  | JDict d =>
      match lookup "aggs" d with
      | Some (JDict ((name, _) :: _)) => name
      | _ => ""
      end
  | _ => ""
  end.

Definition severity_bucket (level count : Z) : json :=
  JDict [("key", JInt level); ("doc_count", JInt count)].

Definition sample_severity : json :=
  aggregations_of "severity_breakdown"
    [severity_bucket 18 3; severity_bucket 12 5; severity_bucket 3 2].

Definition sample_rules : json :=
  aggregations_of "top_rules"
    [JDict [("key", JStr "sshd: authentication failed"); ("doc_count", JInt 41)];
     JDict [("key", JStr "PAM: login session opened"); ("doc_count", JInt 17)]].

(** An engine that answers the severity and the rule queries with the
    samples and every other query with a document without aggregations. *)
Definition sample_engine : transport :=
  fun r _ =>
    let name := aggregation_name (json_body r) in
    if String.eqb name "severity_breakdown" then Response 200 (Some sample_severity)
    else if String.eqb name "top_rules" then Response 200 (Some sample_rules)
    else Response 200 (Some (JDict [("took", JInt 1)])).


(** ** Severity bands in the words of the specification *)

Inductive severity_band := Critical | High | Medium | Low.

Definition in_band (b : severity_band) (level : Z) : bool :=
  match b with
  | Critical => 15 <=? level
  | High => (12 <=? level) && (level <? 15)
  | Medium => (7 <=? level) && (level <? 12)
  | Low => level <? 7
  end.

(** The counts of the buckets, given as pairs of a level and a count,
    whose level lies in a band. *)
Fixpoint band_total (b : severity_band) (buckets : list (Z * Z)) : Z :=
  match buckets with
  | [] => 0
  | (level, count) :: rest =>
      (if in_band b level then count else 0) + band_total b rest
  end.

Definition severity_response (buckets : list (Z * Z)) : json :=
  aggregations_of "severity_breakdown"
    (map (fun b => severity_bucket (fst b) (snd b)) buckets).

Definition severity_entry (b : Z * Z) : json :=
  JDict [("level", JInt (fst b)); ("count", JInt (snd b))].

(** ** Histogram buckets *)

(** [entry] is what a bucket of a date histogram maps to, its formatted
    key under [label]. *)
Definition histogram_entry (label : string) (bucket entry : json) : Prop :=
  exists d timestamp count,
    bucket = JDict d
    /\ lookup "key_as_string" d = Some timestamp
    /\ lookup "doc_count" d = Some count
    /\ entry = JDict [(label, timestamp); ("count", count)].

Definition histogram_bucket (key_as_string : string) (key doc_count : Z) : json :=
  JDict [("key_as_string", JStr key_as_string); ("key", JInt key);
         ("doc_count", JInt doc_count)].

Definition sample_days : list json :=
  [histogram_bucket "2024-05-01" 1714521600000 7;
   histogram_bucket "2024-05-02" 1714608000000 0;
   histogram_bucket "2024-05-03" 1714694400000 12].

(** ** Source address buckets *)

(** A bucket of the source address aggregation: the address, its count and
    the entries of its country sub-aggregation. *)
Definition source_ip_bucket (ip : string) (count : Z) (countries : list string) : json :=
  JDict [("key", JStr ip);
         ("doc_count", JInt count);
         ("country",
          JDict [("doc_count_error_upper_bound", JInt 0);
                 ("sum_other_doc_count", JInt 0);
                 ("buckets",
                  JList (map (fun c => JDict [("key", JStr c); ("doc_count", JInt count)])
                           countries))])].

Definition excluded_ip (ip : string) : bool :=
  (String.eqb ip "" || String.eqb ip "0.0.0.0")%bool.

(** Two addresses, the second without a country. *)
Definition two_addresses : json :=
  aggregations_of "top_source_ips"
    [source_ip_bucket "203.0.113.7" 4 ["Germany"];
     source_ip_bucket "198.51.100.2" 3 []].

(** ** Agent buckets *)

(** A bucket of the agent aggregation: the agent and the statuses of its
    latest records, [None] for a record without a status. *)
Record agent_bucket := {
  agent_id : string;
  latest : list (option string)
}.

Definition hit_json (a : agent_bucket) (status : option string) : json :=
  JDict [("_index", JStr "wazuh-monitoring-2024.18w");
         ("_source",
          JDict (match status with
                 | Some s => [("status", JStr s); ("name", JStr (agent_id a))]
                 | None => [("name", JStr (agent_id a))]
                 end))].

Definition agent_bucket_json (a : agent_bucket) : json :=
  JDict [("key", JStr (agent_id a));
         ("doc_count", JInt (Z.of_nat (List.length (latest a))));
         ("latest",
          JDict [("hits",
            JDict [("total", JDict [("value", JInt (Z.of_nat (List.length (latest a))))]);
                   ("hits", JList (map (hit_json a) (latest a)))])])].

Definition agents_response (agents : list agent_bucket) : json :=
  aggregations_of "agents" (map agent_bucket_json agents).

(** The status, lowercased, is "active" or "connected". *)
Definition status_online (status : string) : bool :=
  (String.eqb (lower_str status) "active" || String.eqb (lower_str status) "connected")%bool.

Definition has_hit (a : agent_bucket) : bool :=
  match latest a with
  | [] => false
  | _ :: _ => true
  end.

(** The status of the latest record of an agent that has one; a record
    without a status has the empty status. *)
Definition is_online (a : agent_bucket) : bool :=
  match latest a with
  | [] => false
  | Some s :: _ => status_online s
  | None :: _ => status_online ""
  end.

Definition is_offline (a : agent_bucket) : bool := (has_hit a && negb (is_online a))%bool.

Definition count (p : agent_bucket -> bool) (agents : list agent_bucket) : Z :=
  Z.of_nat (List.length (filter p agents)).

Definition sample_agents : list agent_bucket :=
  [{| agent_id := "001"; latest := [Some "Active"] |};
   {| agent_id := "002"; latest := [Some "disconnected"] |};
   {| agent_id := "003"; latest := [] |};
   {| agent_id := "004"; latest := [Some "connected"] |};
   {| agent_id := "005"; latest := [None] |}].

(** * The rest of the search client *)

(** The arguments of one [requests.get] call. *)
Record get_request := {
  get_url : string;
  get_params : list (string * string);
  get_auth : option (string * string);
  get_verify : bool;
  get_timeout : Q * Q
}.

(** What the engine answers to a [requests.get] call. *)
Definition get_transport := get_request -> outcome.

Definition connector_auth (self : ElasticsearchConnector) : option (string * string) :=
  if (truthy_str (username self) && truthy_str (password self))%bool
  then match username self, password self with
       | Some u, Some p => Some (u, p)
       | _, _ => None
       end
  else None.

Definition indices_request (self : ElasticsearchConnector) : get_request :=
  {| get_url := indexer_url self ++ "/_cat/indices";
     get_params := [("format", "json")];
     get_auth := connector_auth self;
     get_verify := verify_ssl self;
     get_timeout := timeout self |}.

(** One turn of the loop of [get_indices] over the rows of the index
    table; [filtered] is the list built so far. *)
Definition index_step (self : ElasticsearchConnector) (filtered : list json) (idx : json)
    : Py.result (list json) :=
  name <- get idx "index" (JStr "") ;;
  is_wazuh <- in_value "wazuh" name ;;
  if is_wazuh then
    if truthy_str (client_name self) then
      has_client <- in_value (format_optional (client_name self)) name ;;
      if has_client then ret (filtered ++ [name])%list
      else
        has_delimiter <- in_value ":" name ;;
        if negb has_delimiter then ret (filtered ++ [name])%list else ret filtered
    else ret (filtered ++ [name])%list
  else ret filtered.

(** [get_indices]: one GET; a status other than 200 and every exception,
    of the request, of [response.json()] or of the loop, give the empty
    list. *)
Definition get_indices (net : get_transport) (self : ElasticsearchConnector) : list json :=
  match net (indices_request self) with
  | Response status_code body =>
      if status_code =? 200 then
        match body with
        | Some indices =>
            try_except (rows <- iter indices ;; for_each (index_step self) rows [])
              (fun e => [])
        | None => []
        end
      else []
  | RequestException => []
  end.

Definition health_request (self : ElasticsearchConnector) : get_request :=
  {| get_url := indexer_url self ++ "/_cluster/health";
     get_params := [];
     get_auth := connector_auth self;
     get_verify := verify_ssl self;
     get_timeout := timeout self |}.

Definition ping (net : get_transport) (self : ElasticsearchConnector) : bool :=
  match net (health_request self) with
  | Response status_code _ => status_code =? 200
  | RequestException => false
  end.

(** * The tenants of the configuration ([core/config.py], [api.py]) *)

(** [mt_config] is the [mt_config] attribute of the configuration object:
    the value under "multi_tenant" of the YAML file, with string keys. *)
Definition get_client_names (mt_config : json) : Py.result (list string) :=
  configs <- get mt_config "client_configs" (JDict []) ;;
  if truthy configs then keys configs else ret [].

Definition get_default_client (mt_config : json) : Py.result (option string) :=
  clients <- get_client_names mt_config ;;
  match clients with
  | c :: _ => ret (Some c)
  | [] => ret None
  end.

Definition get_client_display_name (mt_config : json) (client_name : string) : Py.result json :=
  configs <- get mt_config "client_configs" (JDict []) ;;
  known <- in_value client_name configs ;;
  if known then
    client <- getitem configs client_name ;;
    get client "display_name" (JStr client_name)
  else ret (JStr client_name).

Definition get_client_config (mt_config : json) (client_name : option string) : Py.result json :=
  if negb (truthy_str client_name) then ret JNull
  else
    configs <- get mt_config "client_configs" (JDict []) ;;
    get configs (format_optional client_name) JNull.

(** What an endpoint answers: a body, or an HTTP error. *)
Inductive http_result :=
| HttpOk (body : json)
| HttpError (status_code : Z) (detail : string).

Definition optional_json (x : option string) : json :=
  match x with
  | Some s => JStr s
  | None => JNull
  end.

(** The endpoint [/clients]. *)
Definition get_clients (mt_config : json) : http_result :=
  match
    (clients <- get_client_names mt_config ;;
     default_client <- get_default_client mt_config ;;
     client_list <- comprehension (fun client_name =>
         display_name <- get_client_display_name mt_config client_name ;;
         ret (JDict [("name", JStr client_name); ("description", display_name)]))
       clients ;;
     ret (JDict [("clients", JList client_list);
                 ("default_client", optional_json default_client)]))
  with
  | inr body => HttpOk body
  | inl e => HttpError 500 ("Failed to load clients: " ++ str_of_exn e)
  end.

(** * The result formatter ([core/formatter.py]) *)

(** [x.get(k)], with the default [None]. *)
Definition get_or_none (x : json) (k : string) : Py.result json := get x k JNull.

Definition format_document (doc : json) : Py.result json :=
  source <- get doc "_source" (JDict []) ;;
  id <- get_or_none doc "_id" ;;
  index <- get_or_none doc "_index" ;;
  score <- get_or_none doc "_score" ;;
  timestamp <- get_or_none source "@timestamp" ;;
  agent <- get source "agent" (JDict []) ;;
  agent_id <- get_or_none agent "id" ;;
  agent <- get source "agent" (JDict []) ;;
  agent_name <- get_or_none agent "name" ;;
  agent <- get source "agent" (JDict []) ;;
  agent_ip <- get_or_none agent "ip" ;;
  rule <- get source "rule" (JDict []) ;;
  rule_id <- get_or_none rule "id" ;;
  rule <- get source "rule" (JDict []) ;;
  rule_level <- get_or_none rule "level" ;;
  rule <- get source "rule" (JDict []) ;;
  rule_description <- get_or_none rule "description" ;;
  rule <- get source "rule" (JDict []) ;;
  rule_groups <- get rule "groups" (JList []) ;;
  data <- get source "data" (JDict []) ;;
  full_log <- get_or_none source "full_log" ;;
  decoder <- get source "decoder" (JDict []) ;;
  ret (JDict [("id", id);
              ("index", index);
              ("score", score);
              ("timestamp", timestamp);
              ("agent", JDict [("id", agent_id); ("name", agent_name); ("ip", agent_ip)]);
              ("rule", JDict [("id", rule_id); ("level", rule_level);
                              ("description", rule_description);
                              ("groups", rule_groups)]);
              ("data", data);
              ("full_log", full_log);
              ("decoder", decoder)]).

(** The body of the [try] of [format_query_results]. *)
Definition format_reduce (raw_results : json) : Py.result dict :=
  hits <- get raw_results "hits" (JDict []) ;;
  total_value <- get_or_none hits "total" ;;
  total <- (if is_dict total_value
            then t <- get hits "total" (JDict []) ;; get t "value" (JInt 0)
            else get hits "total" (JInt 0)) ;;
  documents <- get hits "hits" (JList []) ;;
  max_score <- get_or_none hits "max_score" ;;
  documents <- iter documents ;;
  formatted_documents <- comprehension format_document documents ;;
  ret [("total_hits", total); ("max_score", max_score);
       ("documents", JList formatted_documents)].

Definition format_query_results (raw_results : json) : dict :=
  try_except (format_reduce raw_results)
    (fun e => [("error", JStr ("Failed to format results: " ++ str_of_exn e));
               ("raw_results", raw_results)]).

(** * The query endpoint ([api.py]) *)

(** Python's [str] on a decoded value, as an f-string applies it to an
    index that is not a string. *)
Variable str_of_json : json -> string.

Definition index_text (index : json) : string :=
  match index with
  | JStr s => s
  | _ => str_of_json index
  end.

(** The endpoint [/query] from the decoded body of the request on: the
    connector is made without a tenant. *)
Definition execute_query (net : transport) (config : Config) (client : option string)
    (body : json) : io http_result :=
  let failed := fun e => HttpError 500 ("Query execution failed: " ++ str_of_exn e) in
  let es_config := get_elasticsearch_config config client in
  let es_connector := ElasticsearchConnector_init config (Some es_config) None in
  match (index <- get body "index" (JStr "wazuh-alerts-*") ;;
         query_body <- get body "body" (JDict []) ;;
         ret (index, query_body)) with
  | inl e => io_ret (failed e)
  | inr (index, query_body) =>
      raw_results <~ search net es_connector (index_text index) query_body ;;
      let formatted_results := format_query_results raw_results in
      io_ret
        (match (hits <- get raw_results "hits" (JDict []) ;;
                total <- get hits "total" (JDict []) ;;
                get total "value" (JInt 0)) with
         | inl e => failed e
         | inr total_hits =>
             HttpOk (JDict [("success", JBool true);
                            ("data", JDict formatted_results);
                            ("total_hits", total_hits)])
         end)
  end.

(** * Definitions used to state the further properties *)

Definition all_fragments : list fragment :=
  [AlertsPerHour; Severity; TopRules; TopAgents; TopSourceIps; AlertTrends; AgentHealth].

(** The effects of a search that ends at attempt [n]: a post, and after
    each failed attempt a pause and another post. *)
Definition backoff_trace (req : request) (n : nat) : list effect :=
  match n with
  | 0%nat => [Post req]
  | 1%nat => [Post req; Sleep ((3 # 2) * 1); Post req]
  | _ => [Post req; Sleep ((3 # 2) * 1); Post req; Sleep ((3 # 2) * 2); Post req]
  end.

Definition posts (l : list effect) : nat := List.length (filter is_post l).

Definition pauses (l : list effect) : nat := List.length (filter (fun e => negb (is_post e)) l).

(** [entry] is what a bucket of a terms aggregation maps to, its key under
    [label]. *)
Definition terms_entry (label : string) (bucket entry : json) : Prop :=
  exists d key count,
    bucket = JDict d
    /\ lookup "key" d = Some key
    /\ lookup "doc_count" d = Some count
    /\ entry = JDict [(label, key); ("count", count)].

(** A bucket of the source address aggregation whose country
    sub-aggregation is absent, or present with a first entry. *)
Definition source_ip_bucket_with (ip : string) (count : Z)
    (country : option (string * list string)) : json :=
  match country with
  | Some (c, cs) => source_ip_bucket ip count (c :: cs)
  | None => JDict [("key", JStr ip); ("doc_count", JInt count)]
  end.

Definition country_of (country : option (string * list string)) : string :=
  match country with
  | Some (c, _) => c
  | None => "Unknown"
  end.

(** A row of the index table of the engine. *)
Definition index_row (name : string) : json :=
  JDict [("health", JStr "green"); ("status", JStr "open"); ("index", JStr name);
         ("docs.count", JStr "42")].

(** The index names [get_indices] keeps: those with "wazuh" in them and,
    for a tenant, with the tenant in them or without a delimiter. *)
Definition index_listed (client_name : option string) (name : string) : bool :=
  (contains "wazuh" name
   && (if truthy_str client_name
       then contains (format_optional client_name) name || negb (contains ":" name)
       else true))%bool.

(** A multi-tenant configuration with the given client configurations. *)
Definition mt_config_of (client_configs : list (string * dict)) : json :=
  JDict [("enabled", JBool true);
         ("client_configs", JDict (map (fun c => (fst c, JDict (snd c))) client_configs))].

Definition client_entry (c : string * dict) : json :=
  JDict [("name", JStr (fst c));
         ("description", dict_get (snd c) "display_name" (JStr (fst c)))].

Definition default_client_of (client_configs : list (string * dict)) : json :=
  match client_configs with
  | c :: _ => JStr (fst c)
  | [] => JNull
  end.

(** What [format_query_results] makes of a hit [hit] whose source, agent
    and rule are objects or missing. *)
Definition document_of (hit out : json) : Prop :=
  exists h s a r,
    hit = JDict h
    /\ dict_get h "_source" (JDict []) = JDict s
    /\ dict_get s "agent" (JDict []) = JDict a
    /\ dict_get s "rule" (JDict []) = JDict r
    /\ out = JDict
         [("id", dict_get h "_id" JNull);
          ("index", dict_get h "_index" JNull);
          ("score", dict_get h "_score" JNull);
          ("timestamp", dict_get s "@timestamp" JNull);
          ("agent", JDict [("id", dict_get a "id" JNull);
                           ("name", dict_get a "name" JNull);
                           ("ip", dict_get a "ip" JNull)]);
          ("rule", JDict [("id", dict_get r "id" JNull);
                          ("level", dict_get r "level" JNull);
                          ("description", dict_get r "description" JNull);
                          ("groups", dict_get r "groups" (JList []))]);
          ("data", dict_get s "data" (JDict []));
          ("full_log", dict_get s "full_log" JNull);
          ("decoder", dict_get s "decoder" (JDict []))].

(** The total of a hit list: the "value" of an object, 0 when it has none;
    else the total itself, 0 when there is none. *)
Definition total_of (hits : dict) : json :=
  match lookup "total" hits with
  | Some (JDict t) => dict_get t "value" (JInt 0)
  | Some total => total
  | None => JInt 0
  end.

(** The connector of the query endpoint and the request it posts. *)
Definition query_connector (config : Config) (client : option string) : ElasticsearchConnector :=
  ElasticsearchConnector_init config (Some (get_elasticsearch_config config client)) None.

Definition query_request (config : Config) (body : dict) : request :=
  let es_connector := query_connector config None in
  {| url := indexer_url es_connector ++ "/"
            ++ index_text (dict_get body "index" (JStr "wazuh-alerts-*")) ++ "/_search";
     json_body := dict_get body "body" (JDict []);
     auth := connector_auth es_connector;
     verify := verify_ssl es_connector;
     req_timeout := timeout es_connector |}.

Definition no_hits : dict :=
  [("total_hits", JInt 0); ("max_score", JNull); ("documents", JList [])].

Definition sample_hit : json :=
  JDict [("_index", JStr "wazuh-alerts-4.x-2024.05.01");
         ("_id", JStr "q1w2");
         ("_score", JNull);
         ("_source",
          JDict [("@timestamp", JStr "2024-05-01T10:00:00Z");
                 ("agent", JDict [("id", JStr "001"); ("name", JStr "web-1")]);
                 ("rule", JDict [("id", JStr "5710"); ("level", JInt 5);
                                 ("description", JStr "sshd: attempt to login")]);
                 ("full_log", JStr "sshd[1]: Invalid user admin")])].

(** A multi-tenant configuration whose client configurations are any
    values, as a YAML file can give them. *)
Definition mt_config_raw (client_configs : list (string * json)) : json :=
  JDict [("enabled", JBool true); ("client_configs", JDict client_configs)].

(** ** Further sample data *)

(** The sample engine, out of reach for the rule query. *)
Definition rules_unreachable : transport :=
  fun r n =>
    if String.eqb (aggregation_name (json_body r)) "top_rules"
    then RequestException
    else sample_engine r n.

(** An engine out of reach for the first attempts, answering a document
    afterwards. *)
Definition answering_after (failures : nat) (document : json) : transport :=
  fun _ attempt =>
    if (attempt <? failures)%nat then RequestException
    else Response 200 (Some document).

Definition sample_index_names : list string :=
  ["wazuh-alerts-4.x-2024.05.01"; "lab:wazuh-alerts-4.x-2024.05.01";
   "collab:wazuh-alerts-4.x-2024.05.01"; "prod:wazuh-alerts-4.x-2024.05.01";
   ".kibana_1"].

Definition sample_index_table : get_transport :=
  fun _ => Response 200 (Some (JList (map index_row sample_index_names))).

Definition sample_clients : list (string * dict) :=
  [("lab", [("display_name", JStr "Laboratory"); ("enabled", JBool true)]);
   ("homelab", [("enabled", JBool true)])].

Definition hits_of (total : json) (hits : list json) : dict :=
  [("total", total); ("max_score", JNull); ("hits", JList hits)].

Definition response_of (total : json) (hits : list json) : dict :=
  [("took", JInt 2); ("hits", JDict (hits_of total hits))].

Definition hits_response (total : json) (hits : list json) : json :=
  JDict (response_of total hits).

Definition sample_document : json :=
  JDict [("id", JStr "q1w2");
         ("index", JStr "wazuh-alerts-4.x-2024.05.01");
         ("score", JNull);
         ("timestamp", JStr "2024-05-01T10:00:00Z");
         ("agent", JDict [("id", JStr "001"); ("name", JStr "web-1"); ("ip", JNull)]);
         ("rule", JDict [("id", JStr "5710"); ("level", JInt 5);
                         ("description", JStr "sshd: attempt to login");
                         ("groups", JList [])]);
         ("data", JDict []);
         ("full_log", JStr "sshd[1]: Invalid user admin");
         ("decoder", JDict [])].

Definition sample_query : dict :=
  [("index", JStr "wazuh-alerts-*");
   ("body", JDict [("query", JDict [("match_all", JDict [])]); ("size", JInt 10)])].

(** * The sample endpoint ([api.py]) *)

Definition sample_query_body : json :=
  JDict [("size", JInt 1);
         ("sort", JList [JDict [("@timestamp", JDict [("order", JStr "desc")])]])].

(** The endpoint [/debug/sample]; the connector is made without a tenant. *)
Definition get_sample_document (net : transport) (config : Config) (index : string)
    (client : option string) : io http_result :=
  let es_config := get_elasticsearch_config config client in
  let es_connector := ElasticsearchConnector_init config (Some es_config) None in
  let query := sample_query_body in
  result <~ search net es_connector index query ;;
  io_ret
    (match (hits <- get result "hits" (JDict []) ;;
            hits <- get hits "hits" (JList []) ;;
            if truthy hits then
              first <- getitem0 hits ;;
              source <- getitem first "_source" ;;
              ret (JDict [("sample", source)])
            else ret (JDict [("sample", JNull); ("message", JStr "No documents found")]))
     with
     | inr body => HttpOk body
     | inl e => HttpError 500 ("Failed to fetch sample: " ++ str_of_exn e)
     end).

Definition no_sample : json :=
  JDict [("sample", JNull); ("message", JStr "No documents found")].

(** ** Connection parameters *)

Fixpoint ends_with_slash (s : string) : bool :=
  match s with
  | EmptyString => false
  | String c EmptyString => Ascii.eqb c "/"%char
  | String _ s' => ends_with_slash s'
  end.

Fixpoint slashes (n : nat) : string :=
  match n with
  | O => EmptyString
  | S n' => String "/"%char (slashes n')
  end.

(** A severity bucket with any key. *)
Definition severity_bucket_keyed (key : json) (count : Z) : json :=
  JDict [("key", key); ("doc_count", JInt count)].

(** ** Exceptions of other classes in a search *)

(** The handler of [_execute_search_request] names
    [requests.exceptions.RequestException]; [search] has no handler.  The
    transport above lets an attempt answer or raise a [RequestException].
    Here an attempt may also raise an exception of another class:
    [requests.post] raises [UnicodeEncodeError], a [ValueError], for a user
    name outside Latin-1, and [response.json()] raises a plain [ValueError]
    where the installed requests does not wrap it.  [Post] records the call
    of [requests.post], whether it returns or raises. *)
Inductive attempt_outcome :=
| Completes (o : outcome)
| Raises (e : exn).

Definition any_transport := request -> nat -> attempt_outcome.

(** The [for attempt in range(self.max_retries + 1)] loop over such a
    transport: an exception the [except] clause does not name leaves the
    loop and the function. *)
Fixpoint attempt_loop_any (net : any_transport) (self : ElasticsearchConnector)
    (req : request) (attempts : list nat) : io (Py.result json) :=
  match attempts with
  | [] => io_ret (ret (JDict []))
  | attempt :: rest =>
      _ <~ perform (Post req) ;;
      match net req attempt with
      | Raises e => io_ret (raise e)
      | Completes o =>
          match attempt_result o with
          | Some r => io_ret (ret r)
          | None =>
              if (attempt <? max_retries self)%nat then
                _ <~ perform (Sleep (retry_backoff self * inject_Z (Z.of_nat (attempt + 1)))) ;;
                attempt_loop_any net self req rest
              else io_ret (ret (JDict []))
          end
      end
  end.

Definition _execute_search_request_any (net : any_transport)
    (self : ElasticsearchConnector) (search_url : string) (query : json)
    (description : string) : io (Py.result json) :=
  attempt_loop_any net self (search_request self search_url query)
    (seq 0 (max_retries self + 1)).

Definition search_any (net : any_transport) (self : ElasticsearchConnector)
    (index : string) (body : json) : io (Py.result json) :=
  let scoped_index := _scope_index self index in
  let search_url := indexer_url self ++ "/" ++ scoped_index ++ "/_search" in
  _execute_search_request_any net self search_url body ("search " ++ scoped_index).

(** A transport of the first kind, seen as one of the second. *)
Definition completing (net : transport) : any_transport :=
  fun r n => Completes (net r n).

(** Every call of [requests.post] raises [e]. *)
Definition raising (e : exn) : any_transport := fun _ _ => Raises e.

(** [failures] request failures, then [e]. *)
Definition raising_after (failures : nat) (e : exn) : any_transport :=
  fun _ n => if (n <? failures)%nat then Completes RequestException else Raises e.

(** ** A time range of any type *)

(** The endpoint of [api.py] hands [body.get("time_range", "24h")] to
    [get_dashboard_statistics] as it comes, of any JSON type.  A list or a
    dictionary cannot be hashed. *)
Definition hashable (x : json) : bool :=
  match x with
  | JList _ | JDict _ => false
  | _ => true
  end.

(** [m.get(k, default)] on a table of strings, for a key of any type:
    [TypeError] for a key that cannot be hashed; a key that is not a
    string is no key of the table. *)
Definition table_get_any (m : list (string * string)) (k : json) (default : string)
    : Py.result string :=
  match k with
  | JStr s => ret (table_get m s default)
  | JList _ | JDict _ => raise TypeError
  | _ => ret default
  end.

(** The body of the [try] of [get_dashboard_statistics] for such a time
    range. *)
Definition statistics_body_any (net : transport) (config : Config)
    (client_name : option string) (time_range : json) : io (Py.result dict) :=
  let es_config := get_elasticsearch_config config client_name in
  let es_connector := ElasticsearchConnector_init config (Some es_config) client_name in
  let stats : dict := [] in
  let alert_index := alert_index_of client_name in
  let monitoring_index := monitoring_index_of client_name in
  match table_get_any time_map time_range "now-24h" with
  | inl e => io_ret (raise e)
  | inr es_time_range =>
  match table_get_any interval_map time_range "1h" with
  | inl e => io_ret (raise e)
  | inr histogram_interval =>
  fragment <~ _get_alerts_per_hour net es_connector alert_index es_time_range
                histogram_interval ;;
  let stats := update stats fragment in
  sev_result <~ _get_severity_breakdown net es_connector alert_index es_time_range ;;
  let stats := update stats
    [("severity_breakdown", dict_get sev_result "severity_breakdown" (JList []))] in
  let stats := update stats
    [("severity_summary", dict_get sev_result "severity_summary" (JDict []))] in
  fragment <~ _get_top_rules net es_connector alert_index es_time_range ;;
  let stats := update stats fragment in
  fragment <~ _get_top_agents net es_connector alert_index ;;
  let stats := update stats fragment in
  fragment <~ _get_top_source_ips net es_connector alert_index es_time_range ;;
  let stats := update stats fragment in
  fragment <~ _get_alert_trends net es_connector alert_index es_time_range ;;
  let stats := update stats fragment in
  fragment <~ _get_agent_status net es_connector monitoring_index ;;
  let stats := update stats fragment in
  io_ret (add_totals stats)
  end
  end.

Definition get_dashboard_statistics_any (net : transport) (config : Config)
    (client_name : option string) (time_range : json) : io dict :=
  outcome <~ statistics_body_any net config client_name time_range ;;
  io_ret (try_except outcome (fun e => pipeline_failure (str_of_exn e))).

(** The object returned by the [except] branch of the endpoint
    [get_dashboard_stats] of [api.py]. *)
Definition endpoint_failure (error : string) : dict :=
  [("error", JStr error);
   ("alerts_per_hour", JList []);
   ("severity_breakdown", JList []);
   ("severity_summary", JDict []);
   ("top_rules", JList []);
   ("top_agents", JList []);
   ("top_source_ips", JList []);
   ("alert_trends", JList []);
   ("agent_health", JDict [("total", JInt 0); ("online", JInt 0); ("offline", JInt 0)]);
   ("total_alerts", JInt 0);
   ("critical_alerts", JInt 0)].

(** The four bands, in the order of the literal of
    [_get_severity_breakdown]. *)
Definition band_names : list string := ["critical"; "high"; "medium"; "low"].

(** * Properties of the scoped search client *)

Lemma prefix_app (p s : string) : String.prefix p (p ++ s) = true.
Proof.
  induction p as [|c p IH]; simpl.
  - destruct s; reflexivity.
  - destruct (ascii_dec c c) as [_|Hc]; [exact IH | now elim Hc].
Qed.

Lemma contains_prefix (needle s : string) :
  String.prefix needle s = true -> contains needle s = true.
Proof.
  destruct s; simpl; intros ->; reflexivity.
Qed.

Lemma contains_app (needle a b : string) : contains needle (a ++ needle ++ b) = true.
Proof.
  induction a as [|c a IH].
  - simpl. apply contains_prefix, prefix_app.
  - simpl. rewrite IH. apply orb_true_r.
Qed.

Lemma truthy_str_false (x : option string) :
  truthy_str x = false <-> x = None \/ x = Some "".
Proof.
  destruct x as [s|]; simpl.
  - destruct (String.eqb_spec s ""); simpl; split; intros H; try discriminate.
    + right. now subst.
    + reflexivity.
    + destruct H as [H|H]; [discriminate|]. now inversion H.
  - split; auto.
Qed.

(** C2, as the code has it: the pattern is returned unchanged when there is
    no tenant or the tenant is the empty string, and when the pattern has
    the delimiter; otherwise it is prefixed with the tenant and the
    delimiter.  Scoping a scoped pattern again changes nothing. *)
Theorem scope_index_rule (self : ElasticsearchConnector) (index : string) :
  ((client_name self = None \/ client_name self = Some "") ->
     _scope_index self index = index)
  /\ (contains ":" index = true -> _scope_index self index = index)
  /\ (forall t, client_name self = Some t -> t <> "" -> contains ":" index = false ->
        _scope_index self index = t ++ ":" ++ index)
  /\ _scope_index self (_scope_index self index) = _scope_index self index.
Proof.
  unfold _scope_index.
  repeat split.
  - intros H. apply truthy_str_false in H. now rewrite H.
  - intros H. rewrite H. now destruct (truthy_str (client_name self)).
  - intros t Ht Hne Hc. rewrite Ht, Hc. simpl.
    destruct (String.eqb_spec t ""); [contradiction | reflexivity].
  - destruct (truthy_str (client_name self)) eqn:Et; simpl; [|reflexivity].
    destruct (contains ":" index) eqn:Ec.
    + now rewrite Ec.
    + destruct (client_name self) as [c|].
      * pose proof (contains_app ":" c index) as H. simpl in H. now rewrite H.
      * discriminate.
Qed.

(** Away from the empty tenant the code follows the rule as the
    specification words it. *)
Lemma scope_index_agrees (self : ElasticsearchConnector) (index : string) :
  client_name self <> Some "" ->
  _scope_index self index = scope_index_spec (client_name self) index.
Proof.
  intros Hne. unfold _scope_index, scope_index_spec.
  destruct (client_name self) as [t|]; simpl; [|reflexivity].
  destruct (String.eqb_spec t ""); simpl; [subst; now elim Hne|reflexivity].
Qed.

Lemma scope_index_rule_witness :
  let unscoped := connector_for sample_config (Some "") in
  (client_name unscoped = None \/ client_name unscoped = Some "")
  /\ _scope_index unscoped "wazuh-alerts-*" = "wazuh-alerts-*"
  /\ client_name lab_connector = Some "lab" /\ "lab" <> ""
  /\ contains ":" "wazuh-alerts-*" = false
  /\ _scope_index lab_connector "wazuh-alerts-*" = "lab:wazuh-alerts-*"
  /\ contains ":" "lab:wazuh-alerts-*" = true
  /\ _scope_index lab_connector "lab:wazuh-alerts-*" = "lab:wazuh-alerts-*".
Proof.
  intros unscoped.
  assert (H0 : client_name unscoped = None \/ client_name unscoped = Some "")
    by (right; reflexivity).
  assert (H1 : client_name lab_connector = Some "lab") by reflexivity.
  assert (H2 : "lab" <> "") by discriminate.
  assert (H3 : contains ":" "wazuh-alerts-*" = false) by reflexivity.
  assert (H4 : contains ":" "lab:wazuh-alerts-*" = true) by reflexivity.
  refine (conj H0 (conj _ (conj H1 (conj H2 (conj H3 (conj _ (conj H4 _))))))).
  - exact (proj1 (scope_index_rule unscoped "wazuh-alerts-*") H0).
  - exact (proj1 (proj2 (proj2 (scope_index_rule lab_connector "wazuh-alerts-*")))
             "lab" H1 H2 H3).
  - exact (proj1 (proj2 (scope_index_rule lab_connector "lab:wazuh-alerts-*")) H4).
Defined.

(** C2 as the specification words it fails for a tenant that is the empty
    string: the code returns the pattern, not the pattern prefixed. *)
Lemma scope_index_empty_tenant :
  let self := connector_for sample_config (Some "") in
  _scope_index self "wazuh-alerts-*" = "wazuh-alerts-*"
  /\ scope_index_spec (client_name self) "wazuh-alerts-*" = ":wazuh-alerts-*"
  /\ _scope_index self "wazuh-alerts-*" <> scope_index_spec (client_name self) "wazuh-alerts-*".
Proof.
  simpl. repeat split. discriminate.
Qed.


Lemma search_unfold (net : transport) (config : Config) (es_config : option EsConfig)
    (client : option string) (index : string) (body : json) :
  let self := ElasticsearchConnector_init config es_config client in
  search net self index body =
  attempt_loop net self (search_request self (search_url_of self index) body) [0; 1; 2]%nat.
Proof.
  destruct es_config; reflexivity.
Qed.

(** A status other than 200, at the first attempt or after failed ones,
    gives the empty response. *)
Lemma search_refused (net : transport) (config : Config) (es_config : option EsConfig)
    (client : option string) (index : string) (body : json)
    (n : nat) (status : Z) (b : option json) :
  let self := ElasticsearchConnector_init config es_config client in
  let req := search_request self (search_url_of self index) body in
  (n <= 2)%nat ->
  (forall m, (m < n)%nat -> net req m = RequestException) ->
  net req n = Response status b -> status <> 200 ->
  run (search net self index body) = JDict [].
Proof.
  intros self req Hn Hfail Hreply Hstatus.
  unfold self. rewrite search_unfold. fold self. fold req.
  assert (Hmax : max_retries self = 2%nat) by (unfold self; now destruct es_config).
  assert (Hr : attempt_result (net req n) = Some (JDict [])).
  { rewrite Hreply. simpl. destruct (Z.eqb_spec status 200); [contradiction|reflexivity]. }
  simpl attempt_loop. rewrite Hmax. simpl Nat.ltb.
  destruct n as [|[|[|n]]]; [| | |lia].
  - rewrite Hr. reflexivity.
  - rewrite (Hfail 0%nat) by lia. simpl attempt_result. rewrite Hr. reflexivity.
  - rewrite (Hfail 0%nat), (Hfail 1%nat) by lia. simpl attempt_result. rewrite Hr.
    reflexivity.
Qed.

(** Where every attempt answers or raises a [RequestException], [search]
    returns the decoded body of a 200 response or the empty response.  A
    status other than 200 gives the empty response at once, without another
    attempt.  A request failure is followed by at most two more attempts,
    after pauses of 1.5 s times the number of the attempt; when the third
    attempt fails too the empty response is returned. *)
Theorem search_absorbs_failures (net : transport) (config : Config)
    (es_config : option EsConfig) (client : option string) (index : string) (body : json) :
  let self := ElasticsearchConnector_init config es_config client in
  let req := search_request self (search_url_of self index) body in
  let out := search net self index body in
  (run out = JDict [] \/
   exists n j, (n <= 2)%nat /\ net req n = Response 200 (Some j) /\ run out = j)
  /\ (forall status b, net req 0%nat = Response status b -> status <> 200 ->
        out = (JDict [], [Post req]))
  /\ (forall status b, net req 0%nat = RequestException ->
        net req 1%nat = Response status b -> status <> 200 ->
        out = (JDict [], [Post req; Sleep ((3 # 2) * 1); Post req]))
  /\ (forall status b, net req 0%nat = RequestException ->
        net req 1%nat = RequestException ->
        net req 2%nat = Response status b -> status <> 200 ->
        out = (JDict [], [Post req; Sleep ((3 # 2) * 1); Post req;
                          Sleep ((3 # 2) * 2); Post req]))
  /\ (net req 0%nat = RequestException -> net req 1%nat = RequestException ->
      net req 2%nat = RequestException ->
        out = (JDict [], [Post req; Sleep ((3 # 2) * 1); Post req;
                          Sleep ((3 # 2) * 2); Post req]))
  /\ (List.length (filter is_post (effects out)) <= 3)%nat.
Proof.
  intros self req out.
  assert (Hout : out = attempt_loop net self req [0; 1; 2]%nat)
    by apply search_unfold.
  assert (Hmax : max_retries self = 2%nat) by (unfold self; now destruct es_config).
  assert (Hback : retry_backoff self = (3 # 2)%Q) by (unfold self; now destruct es_config).
  rewrite Hout. clear Hout out. simpl attempt_loop. rewrite Hmax, Hback. simpl Nat.ltb.
  assert (Hne : forall status b, status <> 200 ->
            attempt_result (Response status b) = Some (JDict [])).
  { intros status b Hs. simpl. destruct (Z.eqb_spec status 200); [contradiction|reflexivity]. }
  repeat split.
  - destruct (net req 0%nat) as [s0 b0|] eqn:E0; simpl.
    { destruct (Z.eqb_spec s0 200); [subst|now left].
      destruct b0 as [j|]; simpl.
      - right. exists 0%nat, j. auto.
      - destruct (net req 1%nat) as [s1 b1|] eqn:E1; simpl.
        + destruct (Z.eqb_spec s1 200); [subst|now left].
          destruct b1 as [j|]; simpl.
          * right. exists 1%nat, j. auto.
          * destruct (net req 2%nat) as [s2 b2|] eqn:E2; simpl; [|now left].
            destruct (Z.eqb_spec s2 200); [subst|now left].
            destruct b2 as [j|]; simpl; [|now left].
            right. exists 2%nat, j. auto.
        + destruct (net req 2%nat) as [s2 b2|] eqn:E2; simpl; [|now left].
          destruct (Z.eqb_spec s2 200); [subst|now left].
          destruct b2 as [j|]; simpl; [|now left].
          right. exists 2%nat, j. auto. }
    destruct (net req 1%nat) as [s1 b1|] eqn:E1; simpl.
    + destruct (Z.eqb_spec s1 200); [subst|now left].
      destruct b1 as [j|]; simpl.
      * right. exists 1%nat, j. auto.
      * destruct (net req 2%nat) as [s2 b2|] eqn:E2; simpl; [|now left].
        destruct (Z.eqb_spec s2 200); [subst|now left].
        destruct b2 as [j|]; simpl; [|now left].
        right. exists 2%nat, j. auto.
    + destruct (net req 2%nat) as [s2 b2|] eqn:E2; simpl; [|now left].
      destruct (Z.eqb_spec s2 200); [subst|now left].
      destruct b2 as [j|]; simpl; [|now left].
      right. exists 2%nat, j. auto.
  - intros status b E0 Hs. rewrite E0, (Hne _ _ Hs). reflexivity.
  - intros status b E0 E1 Hs. rewrite E0, E1, (Hne _ _ Hs). reflexivity.
  - intros status b E0 E1 E2 Hs. rewrite E0, E1, E2, (Hne _ _ Hs). reflexivity.
  - intros E0 E1 E2. rewrite E0, E1, E2. reflexivity.
  - destruct (attempt_result (net req 0%nat)); simpl; [lia|].
    destruct (attempt_result (net req 1%nat)); simpl; [lia|].
    destruct (attempt_result (net req 2%nat)); simpl; lia.
Qed.

Lemma search_absorbs_failures_witness :
  let req := search_request lab_connector
               (search_url_of lab_connector "wazuh-alerts-*") (JDict []) in
  let query := fun net => search net lab_connector "wazuh-alerts-*" (JDict []) in
  query (failing_then 0 500) = (JDict [], [Post req])
  /\ query (failing_then 1 503) = (JDict [], [Post req; Sleep ((3 # 2) * 1); Post req])
  /\ query (failing_then 2 404) =
     (JDict [], [Post req; Sleep ((3 # 2) * 1); Post req; Sleep ((3 # 2) * 2); Post req])
  /\ query unreachable =
     (JDict [], [Post req; Sleep ((3 # 2) * 1); Post req; Sleep ((3 # 2) * 2); Post req]).
Proof.
  intros req query.
  pose (es_config := Some (get_elasticsearch_config sample_config (Some "lab"))).
  assert (H500 : 500 <> 200) by discriminate.
  assert (H503 : 503 <> 200) by discriminate.
  assert (H404 : 404 <> 200) by discriminate.
  refine (conj _ (conj _ (conj _ _))).
  - exact (proj1 (proj2 (search_absorbs_failures (failing_then 0 500) sample_config
                           es_config (Some "lab") "wazuh-alerts-*" (JDict [])))
             500 None eq_refl H500).
  - exact (proj1 (proj2 (proj2 (search_absorbs_failures (failing_then 1 503) sample_config
                                  es_config (Some "lab") "wazuh-alerts-*" (JDict []))))
             503 None eq_refl eq_refl H503).
  - exact (proj1 (proj2 (proj2 (proj2
             (search_absorbs_failures (failing_then 2 404) sample_config
                es_config (Some "lab") "wazuh-alerts-*" (JDict [])))))
             404 None eq_refl eq_refl eq_refl H404).
  - exact (proj1 (proj2 (proj2 (proj2 (proj2
             (search_absorbs_failures unreachable sample_config
                es_config (Some "lab") "wazuh-alerts-*" (JDict []))))))
             eq_refl eq_refl eq_refl).
Defined.

(** * The shape of the fragments *)

Lemma bind_inr {A B} (m : Py.result A) (k : A -> Py.result B) (b : B) :
  bind m k = inr b -> exists a, m = inr a /\ k a = inr b.
Proof.
  destruct m as [e|a]; simpl; intros H; [discriminate|]. now exists a.
Qed.

Ltac bind_inv H :=
  repeat match type of H with
  | bind _ _ = inr _ =>
      let a := fresh "a" in
      let Ha := fresh "Ha" in
      apply bind_inr in H; destruct H as [a [Ha H]]
  | ret _ = inr _ => unfold ret in H; inversion H; clear H
  | inr _ = inr _ => inversion H; clear H
  end.

Lemma run_bind_ret {A B} (m : io A) (f : A -> B) :
  run (x <~ m ;; io_ret (f x)) = f (run m).
Proof.
  destruct m as [a l]. reflexivity.
Qed.

Lemma fragment_call_run (net : transport) (config : Config)
    (client : option string) (time_range : string) (f : fragment) :
  run (fragment_call net config client time_range f) =
  try_except (fragment_reduce f (fragment_response net config client time_range f))
    (fun _ => fragment_failed f).
Proof.
  destruct f; unfold fragment_call, fragment_response;
    [ unfold _get_alerts_per_hour | unfold _get_severity_breakdown
    | unfold _get_top_rules | unfold _get_top_agents | unfold _get_top_source_ips
    | unfold _get_alert_trends | unfold _get_agent_status ];
    cbv zeta; rewrite run_bind_ret; reflexivity.
Qed.

Lemma list_fragment_shape (name : string) (r : Py.result dict) :
  (forall d, r = inr d -> exists xs, d = [(name, JList xs)]) ->
  exists xs, try_except r (fun _ => [(name, JList [])]) = [(name, JList xs)].
Proof.
  intros H. destruct r as [e|d]; simpl.
  - now exists [].
  - destruct (H d eq_refl) as [xs ->]. now exists xs.
Qed.

Lemma alerts_per_hour_shape (r : json) :
  exists xs, try_except (alerts_per_hour_reduce r)
               (fun _ => [("alerts_per_hour", JList [])]) = [("alerts_per_hour", JList xs)].
Proof.
  apply list_fragment_shape. intros d H. unfold alerts_per_hour_reduce in H.
  bind_inv H. eauto.
Qed.

Lemma top_rules_shape (r : json) :
  exists xs, try_except (top_rules_reduce r)
               (fun _ => [("top_rules", JList [])]) = [("top_rules", JList xs)].
Proof.
  apply list_fragment_shape. intros d H. unfold top_rules_reduce in H.
  bind_inv H. eauto.
Qed.

Lemma top_agents_shape (r : json) :
  exists xs, try_except (top_agents_reduce r)
               (fun _ => [("top_agents", JList [])]) = [("top_agents", JList xs)].
Proof.
  apply list_fragment_shape. intros d H. unfold top_agents_reduce in H.
  bind_inv H. eauto.
Qed.

Lemma top_source_ips_shape (r : json) :
  exists xs, try_except (top_source_ips_reduce r)
               (fun _ => [("top_source_ips", JList [])]) = [("top_source_ips", JList xs)].
Proof.
  apply list_fragment_shape. intros d H. unfold top_source_ips_reduce in H.
  bind_inv H. eauto.
Qed.

Lemma alert_trends_shape (r : json) :
  exists xs, try_except (alert_trends_reduce r)
               (fun _ => [("alert_trends", JList [])]) = [("alert_trends", JList xs)].
Proof.
  apply list_fragment_shape. intros d H. unfold alert_trends_reduce in H.
  bind_inv H. eauto.
Qed.

Lemma agent_status_shape (r : json) :
  exists online offline,
    try_except (agent_status_reduce r) (fun _ => [("agent_health", health_of 0 0 0)]) =
    [("agent_health", health_of (online + offline) online offline)].
Proof.
  destruct (agent_status_reduce r) as [e|d] eqn:H; simpl.
  - now exists 0, 0.
  - unfold agent_status_reduce in H. bind_inv H. subst.
    now exists (fst a1), (snd a1).
Qed.

(** ** The severity summary *)

Lemma iadd_item_critical (c h m l : Z) (cnt : json) :
  iadd_item (summary_of c h m l) "critical" cnt =
  match as_number cnt with
  | Some n => inr (summary_of (c + n) h m l)
  | None => inl TypeError
  end.
Proof. destruct cnt as [| [|] | | | |]; reflexivity. Qed.

Lemma iadd_item_high (c h m l : Z) (cnt : json) :
  iadd_item (summary_of c h m l) "high" cnt =
  match as_number cnt with
  | Some n => inr (summary_of c (h + n) m l)
  | None => inl TypeError
  end.
Proof. destruct cnt as [| [|] | | | |]; reflexivity. Qed.

Lemma iadd_item_medium (c h m l : Z) (cnt : json) :
  iadd_item (summary_of c h m l) "medium" cnt =
  match as_number cnt with
  | Some n => inr (summary_of c h (m + n) l)
  | None => inl TypeError
  end.
Proof. destruct cnt as [| [|] | | | |]; reflexivity. Qed.

Lemma iadd_item_low (c h m l : Z) (cnt : json) :
  iadd_item (summary_of c h m l) "low" cnt =
  match as_number cnt with
  | Some n => inr (summary_of c h m (l + n))
  | None => inl TypeError
  end.
Proof. destruct cnt as [| [|] | | | |]; reflexivity. Qed.

Lemma severity_band_step_shape (c h m l : Z) (b : json) (s : dict) :
  severity_band_step (summary_of c h m l) b = inr s ->
  exists c' h' m' l', s = summary_of c' h' m' l'.
Proof.
  unfold severity_band_step. intros H.
  apply bind_inr in H. destruct H as [level [_ H]].
  apply bind_inr in H. destruct H as [cnt [_ H]].
  apply bind_inr in H. destruct H as [b15 [_ H]].
  destruct b15.
  { rewrite iadd_item_critical in H. destruct (as_number cnt); inversion H. eauto. }
  apply bind_inr in H. destruct H as [b12 [_ H]].
  destruct b12.
  { rewrite iadd_item_high in H. destruct (as_number cnt); inversion H. eauto. }
  apply bind_inr in H. destruct H as [b7 [_ H]].
  destruct b7.
  { rewrite iadd_item_medium in H. destruct (as_number cnt); inversion H. eauto. }
  rewrite iadd_item_low in H. destruct (as_number cnt); inversion H. eauto.
Qed.

Lemma severity_loop_shape (data : list json) :
  forall c h m l s,
    for_each severity_band_step data (summary_of c h m l) = inr s ->
    exists c' h' m' l', s = summary_of c' h' m' l'.
Proof.
  induction data as [|b data IH]; simpl; intros c h m l s H.
  - inversion H. eauto.
  - destruct (severity_band_step (summary_of c h m l) b) as [e|s1] eqn:E; [discriminate|].
    apply severity_band_step_shape in E. destruct E as (c1 & h1 & m1 & l1 & ->).
    eapply IH. exact H.
Qed.

Lemma severity_shape (r : json) :
  let d := try_except (severity_reduce r)
             (fun _ => [("severity_breakdown", JList []); ("severity_summary", JDict [])]) in
  exists xs s,
    d = [("severity_breakdown", JList xs); ("severity_summary", JDict s)]
    /\ (s = [] \/ exists c h m l, s = summary_of c h m l).
Proof.
  simpl. destruct (severity_reduce r) as [e|d] eqn:H; simpl.
  - exists [], []. auto.
  - unfold severity_reduce in H. bind_inv H. subst.
    apply severity_loop_shape in Ha2. destruct Ha2 as (c & h & m & l & ->).
    exists a1, (summary_of c h m l). split; [reflexivity|]. right. eauto.
Qed.

(** * The statistics object *)

(** The [try] body of [get_dashboard_statistics] merges the values the
    fragment functions return and adds the totals. *)
Lemma statistics_body_run (net : transport) (config : Config)
    (client : option string) (time_range : string) :
  let call := fun f => run (fragment_call net config client time_range f) in
  run (statistics_body net config client time_range) =
  add_totals
    (update (update (update (update (update (update (update (update []
       (call AlertsPerHour))
       [("severity_breakdown", dict_get (call Severity) "severity_breakdown" (JList []))])
       [("severity_summary", dict_get (call Severity) "severity_summary" (JDict []))])
       (call TopRules)) (call TopAgents)) (call TopSourceIps)) (call AlertTrends))
       (call AgentHealth)).
Proof.
  unfold statistics_body, fragment_call, connector_for, es_time_range_of,
    histogram_interval_of. cbv zeta.
  destruct (_get_alerts_per_hour _ _ _ _ _) as [f1 l1].
  destruct (_get_severity_breakdown _ _ _ _) as [f2 l2].
  destruct (_get_top_rules _ _ _ _) as [f3 l3].
  destruct (_get_top_agents _ _ _) as [f4 l4].
  destruct (_get_top_source_ips _ _ _ _) as [f5 l5].
  destruct (_get_alert_trends _ _ _ _) as [f6 l6].
  destruct (_get_agent_status _ _ _) as [f7 l7].
  reflexivity.
Qed.

Lemma add_totals_bands (a sb r g i t h : json) (c hi m l : Z) :
  add_totals [("alerts_per_hour", a); ("severity_breakdown", sb);
              ("severity_summary", JDict (summary_of c hi m l)); ("top_rules", r);
              ("top_agents", g); ("top_source_ips", i); ("alert_trends", t);
              ("agent_health", h)] =
  inr (statistics_of a sb (JDict (summary_of c hi m l)) r g i t h
         (JInt c) (JInt (c + hi + m + l))).
Proof. reflexivity. Qed.

Lemma add_totals_empty (a sb r g i t h : json) :
  add_totals [("alerts_per_hour", a); ("severity_breakdown", sb);
              ("severity_summary", JDict []); ("top_rules", r);
              ("top_agents", g); ("top_source_ips", i); ("alert_trends", t);
              ("agent_health", h)] =
  inr (statistics_of a sb (JDict []) r g i t h (JInt 0) (JInt 0)).
Proof. reflexivity. Qed.

(** The statistics object, key by key: each fragment key holds what the
    fragment's own function returned, and the totals are read off the
    severity summary.  With a time range that is a string and counts that
    are integers, the handler of [get_dashboard_statistics] is not
    entered. *)
Lemma statistics_result (net : transport) (config : Config)
    (client : option string) (time_range : string) :
  let value := fragment_value net config client time_range in
  let summary := value Severity "severity_summary" in
  run (get_dashboard_statistics net config client time_range) =
  statistics_of
    (value AlertsPerHour "alerts_per_hour")
    (value Severity "severity_breakdown")
    summary
    (value TopRules "top_rules")
    (value TopAgents "top_agents")
    (value TopSourceIps "top_source_ips")
    (value AlertTrends "alert_trends")
    (value AgentHealth "agent_health")
    (JInt (band summary "critical"))
    (JInt (band summary "critical" + band summary "high"
           + band summary "medium" + band summary "low")).
Proof.
  unfold get_dashboard_statistics. rewrite run_bind_ret, statistics_body_run.
  unfold fragment_value. cbv zeta.
  rewrite !fragment_call_run.
  destruct (alerts_per_hour_shape (fragment_response net config client time_range AlertsPerHour))
    as [x1 E1].
  destruct (severity_shape (fragment_response net config client time_range Severity))
    as (x2 & s & E2 & Hs).
  destruct (top_rules_shape (fragment_response net config client time_range TopRules))
    as [x3 E3].
  destruct (top_agents_shape (fragment_response net config client time_range TopAgents))
    as [x4 E4].
  destruct (top_source_ips_shape (fragment_response net config client time_range TopSourceIps))
    as [x5 E5].
  destruct (alert_trends_shape (fragment_response net config client time_range AlertTrends))
    as [x6 E6].
  destruct (agent_status_shape (fragment_response net config client time_range AgentHealth))
    as (on & off & E7).
  simpl fragment_reduce. simpl fragment_failed.
  rewrite E1, E2, E3, E4, E5, E6, E7.
  destruct Hs as [->|(c & h & m & l & ->)].
  - reflexivity.
  - reflexivity.
Qed.

(** What [severity_reduce] returns when it returns. *)
Lemma severity_reduce_shape (r : json) (d : dict) :
  severity_reduce r = inr d ->
  exists xs c h m l,
    d = [("severity_breakdown", JList xs); ("severity_summary", JDict (summary_of c h m l))].
Proof.
  intros H. unfold severity_reduce in H. bind_inv H. subst.
  apply severity_loop_shape in Ha2. destruct Ha2 as (c & h & m & l & ->).
  exists a1, c, h, m, l. reflexivity.
Qed.

(** A key of a fragment, the totals apart, is read from the object its
    reduction returned. *)
Lemma reduced_key (f : fragment) (r : json) (d : dict) (k : string) :
  fragment_reduce f r = inr d -> In k (fragment_keys f) ->
  k <> "critical_alerts" -> k <> "total_alerts" ->
  Some (key_value d k) = lookup k d.
Proof.
  intros E Hk Hc Ht.
  destruct f; simpl in E, Hk.
  - destruct (alerts_per_hour_shape r) as [xs Hx]. rewrite E in Hx. simpl in Hx. subst d.
    destruct Hk as [<-|[]]. reflexivity.
  - destruct (severity_reduce_shape _ _ E) as (xs & c & h & m & l & ->).
    destruct Hk as [<-|[<-|[<-|[<-|[]]]]]; try reflexivity; congruence.
  - destruct (top_rules_shape r) as [xs Hx]. rewrite E in Hx. simpl in Hx. subst d.
    destruct Hk as [<-|[]]. reflexivity.
  - destruct (top_agents_shape r) as [xs Hx]. rewrite E in Hx. simpl in Hx. subst d.
    destruct Hk as [<-|[]]. reflexivity.
  - destruct (top_source_ips_shape r) as [xs Hx]. rewrite E in Hx. simpl in Hx. subst d.
    destruct Hk as [<-|[]]. reflexivity.
  - destruct (alert_trends_shape r) as [xs Hx]. rewrite E in Hx. simpl in Hx. subst d.
    destruct Hk as [<-|[]]. reflexivity.
  - destruct (agent_status_shape r) as (on & off & Hx). rewrite E in Hx. simpl in Hx.
    subst d. destruct Hk as [<-|[]]. reflexivity.
Qed.

(** * Properties of the statistics pipeline *)

Lemma statistics_lookup (net : transport) (config : Config) (client : option string)
    (time_range : string) (f : fragment) (k : string) :
  In k (fragment_keys f) ->
  lookup k (run (get_dashboard_statistics net config client time_range)) =
  Some (key_value (run (fragment_call net config client time_range f)) k).
Proof.
  intros Hk. rewrite statistics_result. unfold fragment_value.
  destruct f; simpl in Hk;
    repeat (destruct Hk as [<-|Hk]; [reflexivity|]); contradiction.
Qed.


Lemma fragment_request_inj (config : Config) (client : option string)
    (time_range : string) (f g : fragment) :
  fragment_request config client time_range g = fragment_request config client time_range f ->
  g = f.
Proof.
  intros H. apply (f_equal json_body) in H. simpl in H.
  destruct f, g; try reflexivity; discriminate H.
Qed.

Lemma fragment_reduce_empty (f : fragment) (k : string) :
  In k (fragment_keys f) ->
  key_value (try_except (fragment_reduce f (JDict [])) (fun _ => fragment_failed f)) k =
  empty_value false k.
Proof.
  intros Hk. destruct f; simpl in Hk;
    repeat (destruct Hk as [<-|Hk]; [reflexivity|]); contradiction.
Qed.

Lemma fragment_failed_empty (f : fragment) (k : string) :
  In k (fragment_keys f) -> key_value (fragment_failed f) k = empty_value true k.
Proof.
  intros Hk. destruct f; simpl in Hk;
    repeat (destruct Hk as [<-|Hk]; [reflexivity|]); contradiction.
Qed.

(** The seven queries of a statistics call are pairwise distinct. *)
Remark fragment_requests_distinct (config : Config) (client : option string)
    (time_range : string) (f g : fragment) :
  g <> f ->
  fragment_request config client time_range g <> fragment_request config client time_range f.
Proof.
  intros Hg H. apply Hg. now apply fragment_request_inj in H.
Qed.


(** Where the [try] of [get_dashboard_statistics] returns, and the counts
    are integers: the total is the sum of the four bands of the severity
    summary and the critical count is its critical band, a band the summary
    does not have counting as 0; the summary has the four bands or none. *)
Theorem totals_follow_summary (net : transport) (config : Config)
    (client : option string) (time_range : string) :
  let stats := run (get_dashboard_statistics net config client time_range) in
  let summary := dict_get stats "severity_summary" JNull in
  lookup "total_alerts" stats =
    Some (JInt (band summary "critical" + band summary "high"
                + band summary "medium" + band summary "low"))
  /\ lookup "critical_alerts" stats = Some (JInt (band summary "critical"))
  /\ (summary = JDict [] \/ exists c h m l, summary = JDict (summary_of c h m l)).
Proof.
  cbv zeta. rewrite statistics_result. cbv zeta.
  split; [reflexivity|]. split; [reflexivity|].
  change (dict_get (statistics_of _ _ ?s _ _ _ _ _ _ _) "severity_summary" JNull)
    with s.
  unfold fragment_value. rewrite fragment_call_run.
  destruct (severity_shape (fragment_response net config client time_range Severity))
    as (xs & s & E & Hs).
  simpl fragment_reduce. simpl fragment_failed. rewrite E.
  destruct Hs as [->|(c & h & m & l & ->)]; [now left|right; now exists c, h, m, l].
Qed.

(** C4, as the code has it: an object returned by the [try] of
    [get_dashboard_statistics] has the ten keys, in this order; the six
    list fragments are lists; the severity summary has the four bands when
    the severity reduction returned and is the empty object when it raised;
    the agent health has its three counters; the two totals are present.
    A fragment key holds the value of its reduction or, when the reduction
    raised, the empty value of the handler.  The object of the [except]
    branch has the error message and the eight fragment keys at these
    empty values, the severity summary being the empty object. *)
Theorem statistics_shape (net : transport) (config : Config)
    (client : option string) (time_range : string) (stats : dict) :
  run (statistics_body net config client time_range) = inr stats ->
  map fst stats =
    ["alerts_per_hour"; "severity_breakdown"; "severity_summary"; "top_rules";
     "top_agents"; "top_source_ips"; "alert_trends"; "agent_health";
     "critical_alerts"; "total_alerts"]
  /\ (forall k, In k list_keys -> exists xs, lookup k stats = Some (JList xs))
  /\ match fragment_reduce Severity (fragment_response net config client time_range Severity)
     with
     | inr _ => exists summary, lookup "severity_summary" stats = Some (JDict summary)
                                /\ map fst summary = band_names
     | inl _ => lookup "severity_summary" stats = Some (JDict [])
     end
  /\ (exists online offline,
        lookup "agent_health" stats = Some (health_of (online + offline) online offline))
  /\ (exists critical total,
        lookup "critical_alerts" stats = Some critical
        /\ lookup "total_alerts" stats = Some total)
  /\ (forall f k, In k (fragment_keys f) ->
        k <> "critical_alerts" -> k <> "total_alerts" ->
        match fragment_reduce f (fragment_response net config client time_range f) with
        | inr d => lookup k stats = lookup k d
        | inl _ => lookup k stats = Some (empty_value true k)
        end)
  /\ (forall error,
        lookup "error" (pipeline_failure error) = Some (JStr error)
        /\ forall k, In k ("severity_summary" :: "agent_health" :: list_keys) ->
             lookup k (pipeline_failure error) = Some (empty_value true k)).
Proof.
  intros Hbody.
  assert (Hstats : run (get_dashboard_statistics net config client time_range) = stats).
  { unfold get_dashboard_statistics. rewrite run_bind_ret, Hbody. reflexivity. }
  clear Hbody. subst stats.
  assert (Hkeys : forall f k, In k (fragment_keys f) ->
            match fragment_reduce f (fragment_response net config client time_range f) with
            | inr d => lookup k (run (get_dashboard_statistics net config client time_range))
                       = Some (key_value d k)
            | inl _ => lookup k (run (get_dashboard_statistics net config client time_range))
                       = Some (empty_value true k)
            end).
  { intros f k Hk. rewrite (statistics_lookup _ _ _ _ f k Hk), fragment_call_run.
    destruct (fragment_reduce f _) as [e|d]; simpl try_except; [|reflexivity].
    f_equal. now apply fragment_failed_empty. }
  assert (Hown : forall f k, In k (fragment_keys f) ->
            k <> "critical_alerts" -> k <> "total_alerts" ->
            match fragment_reduce f (fragment_response net config client time_range f) with
            | inr d => lookup k (run (get_dashboard_statistics net config client time_range))
                       = lookup k d
            | inl _ => lookup k (run (get_dashboard_statistics net config client time_range))
                       = Some (empty_value true k)
            end).
  { intros f k Hk Hc Ht. specialize (Hkeys f k Hk).
    destruct (fragment_reduce f _) as [e|d] eqn:E; [exact Hkeys|].
    rewrite Hkeys. now apply (reduced_key f _ d k E). }
  assert (Hsummary :
            match fragment_reduce Severity
                    (fragment_response net config client time_range Severity) with
            | inr _ => exists summary,
                lookup "severity_summary"
                  (run (get_dashboard_statistics net config client time_range))
                = Some (JDict summary) /\ map fst summary = band_names
            | inl _ =>
                lookup "severity_summary"
                  (run (get_dashboard_statistics net config client time_range))
                = Some (JDict [])
            end).
  { assert (Hk : In "severity_summary" (fragment_keys Severity)) by (simpl; auto).
    specialize (Hkeys Severity "severity_summary" Hk).
    destruct (fragment_reduce Severity _) as [e|d] eqn:E; [exact Hkeys|].
    simpl fragment_reduce in E.
    destruct (severity_reduce_shape _ _ E) as (xs & c & h & m & l & ->).
    exists (summary_of c h m l). split; [exact Hkeys|reflexivity]. }
  split.
  { rewrite statistics_result. reflexivity. }
  split.
  { intros k Hk. rewrite statistics_result. cbv zeta. unfold fragment_value.
    rewrite !fragment_call_run.
    destruct (alerts_per_hour_shape
                (fragment_response net config client time_range AlertsPerHour)) as [x1 E1].
    destruct (severity_shape (fragment_response net config client time_range Severity))
      as (x2 & s & E2 & Hs).
    destruct (top_rules_shape (fragment_response net config client time_range TopRules))
      as [x3 E3].
    destruct (top_agents_shape (fragment_response net config client time_range TopAgents))
      as [x4 E4].
    destruct (top_source_ips_shape
                (fragment_response net config client time_range TopSourceIps)) as [x5 E5].
    destruct (alert_trends_shape
                (fragment_response net config client time_range AlertTrends)) as [x6 E6].
    simpl fragment_reduce. simpl fragment_failed.
    rewrite E1, E2, E3, E4, E5, E6.
    simpl in Hk.
    repeat (destruct Hk as [<-|Hk]; [eexists; reflexivity|]). contradiction. }
  split; [exact Hsummary|].
  split.
  { rewrite statistics_result. cbv zeta. unfold fragment_value.
    rewrite !fragment_call_run.
    destruct (agent_status_shape
                (fragment_response net config client time_range AgentHealth))
      as (on & off & E7).
    simpl fragment_reduce. simpl fragment_failed. rewrite E7.
    exists on, off. reflexivity. }
  split.
  { rewrite statistics_result. eexists; eexists; split; reflexivity. }
  split; [exact Hown|].
  intros error. split; [reflexivity|].
  intros k Hk. simpl in Hk.
  repeat (destruct Hk as [<-|Hk]; [reflexivity|]). contradiction.
Qed.

(** * Properties of the reductions *)

Lemma aggregation_buckets_of (name : string) (buckets : list json) :
  aggregation_buckets (aggregations_of name buckets) name = inr (JList buckets).
Proof.
  unfold aggregation_buckets, aggregations_of. simpl.
  unfold dict_get. simpl. rewrite String.eqb_refl. reflexivity.
Qed.

(** ** Severity *)

Lemma severity_band_step_entry (c h m l : Z) (b : Z * Z) :
  severity_band_step (summary_of c h m l) (severity_entry b) =
  inr (summary_of (c + (if in_band Critical (fst b) then snd b else 0))
                  (h + (if in_band High (fst b) then snd b else 0))
                  (m + (if in_band Medium (fst b) then snd b else 0))
                  (l + (if in_band Low (fst b) then snd b else 0))).
Proof.
  destruct b as [level n]. unfold severity_band_step, severity_entry. simpl.
  rewrite !Z.geb_leb.
  destruct (Z.leb_spec 15 level); simpl.
  { destruct (Z.ltb_spec level 15); [lia|]. destruct (Z.ltb_spec level 12); [lia|].
    destruct (Z.ltb_spec level 7); [lia|].
    rewrite !andb_false_r, !Z.add_0_r. reflexivity. }
  destruct (Z.ltb_spec level 15); [|lia].
  destruct (Z.leb_spec 12 level); simpl.
  { destruct (Z.ltb_spec level 12); [lia|]. destruct (Z.ltb_spec level 7); [lia|].
    rewrite !andb_false_r, !Z.add_0_r. reflexivity. }
  destruct (Z.ltb_spec level 12); [|lia].
  destruct (Z.leb_spec 7 level); simpl.
  { destruct (Z.ltb_spec level 7); [lia|]. rewrite !Z.add_0_r. reflexivity. }
  destruct (Z.ltb_spec level 7); [|lia].
  rewrite !Z.add_0_r. reflexivity.
Qed.

Lemma severity_loop_totals (buckets : list (Z * Z)) :
  forall c h m l,
    for_each severity_band_step (map severity_entry buckets) (summary_of c h m l) =
    inr (summary_of (c + band_total Critical buckets) (h + band_total High buckets)
                    (m + band_total Medium buckets) (l + band_total Low buckets)).
Proof.
  induction buckets as [|[level n] rest IH]; intros c h m l.
  - simpl. rewrite !Z.add_0_r. reflexivity.
  - cbn [map for_each]. rewrite severity_band_step_entry, IH.
    cbn [band_total fst snd]. rewrite !Z.add_assoc. reflexivity.
Qed.

Lemma severity_data_entries (buckets : list (Z * Z)) :
  comprehension (fun bucket =>
      key <- getitem bucket "key" ;;
      level <- int int_of_str key ;;
      count <- getitem bucket "doc_count" ;;
      ret (JDict [("level", JInt level); ("count", count)]))
    (map (fun b => severity_bucket (fst b) (snd b)) buckets) =
  inr (map severity_entry buckets).
Proof.
  induction buckets as [|[level n] rest IH]; [reflexivity|].
  cbn [map comprehension]. rewrite IH. reflexivity.
Qed.

(** C5: every level lies in exactly one of the four bands with boundaries
    15, 12 and 7, and the summary holds, band by band, the counts of the
    buckets whose level lies in the band.  The buckets (18, 3), (12, 5),
    (3, 2) give critical 3, high 5, medium 0, low 2. *)
Theorem severity_classification (buckets : list (Z * Z)) :
  (forall level, exists! b, in_band b level = true)
  /\ severity_reduce (severity_response buckets) =
     inr [("severity_breakdown", JList (map severity_entry buckets));
          ("severity_summary",
           JDict (summary_of (band_total Critical buckets) (band_total High buckets)
                             (band_total Medium buckets) (band_total Low buckets)))]
  /\ severity_reduce (severity_response [(18, 3); (12, 5); (3, 2)]) =
     inr [("severity_breakdown",
           JList [severity_entry (18, 3); severity_entry (12, 5); severity_entry (3, 2)]);
          ("severity_summary", JDict (summary_of 3 5 0 2))].
Proof.
  split; [|split].
  - intros level.
    destruct (Z.leb_spec 15 level) as [H15|H15].
    { exists Critical. split; [simpl; now apply Z.leb_le|].
      intros [] Hb; simpl in Hb; try reflexivity;
        rewrite ?andb_true_iff, ?Z.leb_le, ?Z.ltb_lt in Hb; lia. }
    destruct (Z.leb_spec 12 level) as [H12|H12].
    { exists High. split; [simpl; rewrite andb_true_iff, Z.leb_le, Z.ltb_lt; lia|].
      intros [] Hb; simpl in Hb; try reflexivity;
        rewrite ?andb_true_iff, ?Z.leb_le, ?Z.ltb_lt in Hb; lia. }
    destruct (Z.leb_spec 7 level) as [H7|H7].
    { exists Medium. split; [simpl; rewrite andb_true_iff, Z.leb_le, Z.ltb_lt; lia|].
      intros [] Hb; simpl in Hb; try reflexivity;
        rewrite ?andb_true_iff, ?Z.leb_le, ?Z.ltb_lt in Hb; lia. }
    exists Low. split; [simpl; now apply Z.ltb_lt|].
    intros [] Hb; simpl in Hb; try reflexivity;
      rewrite ?andb_true_iff, ?Z.leb_le, ?Z.ltb_lt in Hb; lia.
  - unfold severity_reduce, severity_response.
    rewrite aggregation_buckets_of. cbn [bind iter ret].
    rewrite severity_data_entries. cbn [bind].
    change [("critical", JInt 0); ("high", JInt 0); ("medium", JInt 0); ("low", JInt 0)]
      with (summary_of 0 0 0 0).
    rewrite (severity_loop_totals buckets 0 0 0 0). reflexivity.
  - reflexivity.
Qed.

(** ** Histograms *)

Lemma histogram_comprehension (label : string) (buckets entries : list json) :
  Forall2 (histogram_entry label) buckets entries ->
  comprehension (fun bucket =>
      timestamp <- getitem bucket "key_as_string" ;;
      count <- getitem bucket "doc_count" ;;
      ret (JDict [(label, timestamp); ("count", count)])) buckets =
  inr entries.
Proof.
  induction 1 as [|bucket entry buckets entries H _ IH]; [reflexivity|].
  destruct H as (d & timestamp & count & -> & Ht & Hc & ->).
  cbn [comprehension getitem]. rewrite Ht, Hc. cbn [bind ret]. rewrite IH. reflexivity.
Qed.

(** C9, as the code has it: the buckets of the histogram map, in order, to
    the entries of the fragment, an entry holding the formatted key of its
    bucket and its document count; the formatted key is under "timestamp"
    in [alerts_per_hour] and under "date" in [alert_trends]. *)
Theorem histogram_fragments (net : transport) (es_connector : ElasticsearchConnector)
    (index es_time_range interval : string) (buckets entries : list json) :
  (aggregation_buckets
     (run (search net es_connector index (alerts_per_hour_query es_time_range interval)))
     "alerts_per_hour" = inr (JList buckets) ->
   Forall2 (histogram_entry "timestamp") buckets entries ->
   run (_get_alerts_per_hour net es_connector index es_time_range interval) =
   [("alerts_per_hour", JList entries)])
  /\ (aggregation_buckets
        (run (search net es_connector index (alert_trends_query es_time_range)))
        "daily_trends" = inr (JList buckets) ->
      Forall2 (histogram_entry "date") buckets entries ->
      run (_get_alert_trends net es_connector index es_time_range) =
      [("alert_trends", JList entries)]).
Proof.
  split; intros Hb He.
  - unfold _get_alerts_per_hour. cbv zeta. rewrite run_bind_ret.
    unfold alerts_per_hour_reduce. rewrite Hb. cbn [bind iter ret].
    rewrite (histogram_comprehension "timestamp" _ _ He). reflexivity.
  - unfold _get_alert_trends. cbv zeta. rewrite run_bind_ret.
    unfold alert_trends_reduce. rewrite Hb. cbn [bind iter ret].
    rewrite (histogram_comprehension "date" _ _ He). reflexivity.
Qed.

(** ** Agent health *)

Lemma count_cons (p : agent_bucket -> bool) (a : agent_bucket) (agents : list agent_bucket) :
  count p (a :: agents) = (if p a then 1 else 0) + count p agents.
Proof.
  unfold count. simpl. destruct (p a); [|reflexivity].
  cbn [List.length]. lia.
Qed.

Lemma agent_status_step_bucket (online offline : Z) (a : agent_bucket) :
  agent_status_step (online, offline) (agent_bucket_json a) =
  inr (online + (if is_online a then 1 else 0), offline + (if is_offline a then 1 else 0)).
Proof.
  destruct a as [id [|[s|] rest]]; unfold is_offline, is_online, has_hit; simpl.
  - now rewrite !Z.add_0_r.
  - rewrite orb_false_r. fold (status_online s).
    destruct (status_online s); simpl; now rewrite Z.add_0_r.
  - now rewrite Z.add_0_r.
Qed.

Lemma agent_status_loop (agents : list agent_bucket) :
  forall online offline,
    for_each agent_status_step (map agent_bucket_json agents) (online, offline) =
    inr (online + count is_online agents, offline + count is_offline agents).
Proof.
  induction agents as [|a agents IH]; intros online offline.
  - simpl. unfold count. simpl. now rewrite !Z.add_0_r.
  - cbn [map for_each]. rewrite agent_status_step_bucket, IH, !count_cons.
    rewrite !Z.add_assoc. reflexivity.
Qed.

Lemma count_has_hit (agents : list agent_bucket) :
  count has_hit agents = count is_online agents + count is_offline agents.
Proof.
  induction agents as [|a agents IH]; [reflexivity|].
  rewrite !count_cons, IH.
  assert (H : (if has_hit a then 1 else 0) =
              (if is_online a then 1 else 0) + (if is_offline a then 1 else 0)).
  { unfold is_offline, is_online, has_hit.
    destruct (latest a) as [|[s|] rest]; try reflexivity.
    destruct (status_online s); reflexivity. }
  lia.
Qed.

Lemma count_le_length (p : agent_bucket -> bool) (agents : list agent_bucket) :
  count p agents <= Z.of_nat (List.length agents).
Proof.
  unfold count. apply Nat2Z.inj_le, filter_length_le.
Qed.

(** C10: the total of the agent health is the number of agent buckets that
    have a latest record, an agent bucket without one being counted in
    neither group; such a bucket is online exactly when the status of its
    latest record, lowercased, is "active" or "connected", and offline
    otherwise. *)
Theorem agent_health_counts (net : transport) (es_connector : ElasticsearchConnector)
    (index : string) (agents : list agent_bucket) :
  run (search net es_connector index agent_status_query) = agents_response agents ->
  run (_get_agent_status net es_connector index) =
    [("agent_health",
      health_of (count has_hit agents) (count is_online agents) (count is_offline agents))]
  /\ count has_hit agents = count is_online agents + count is_offline agents
  /\ count has_hit agents <= Z.of_nat (List.length agents)
  /\ (forall a, is_online a = true <->
        exists s rest, latest a = s :: rest
          /\ let status := match s with Some t => t | None => "" end in
             lower_str status = "active" \/ lower_str status = "connected")
  /\ (forall a, is_offline a = true <-> has_hit a = true /\ is_online a = false).
Proof.
  intros Hr. split; [|split; [|split; [|split]]].
  - unfold _get_agent_status. cbv zeta. rewrite run_bind_ret, Hr.
    unfold agent_status_reduce, agents_response.
    rewrite aggregation_buckets_of. cbn [bind iter ret].
    rewrite agent_status_loop. cbn [bind ret try_except fst snd Z.add].
    rewrite count_has_hit. reflexivity.
  - apply count_has_hit.
  - apply count_le_length.
  - intros a. unfold is_online, status_online.
    destruct (latest a) as [|[t|] rest]; simpl.
    + split; [discriminate|]. intros (s & r & H & _). discriminate.
    + rewrite orb_true_iff, !String.eqb_eq. split.
      * intros H. now exists (Some t), rest.
      * intros (s & r & H & Hs). inversion H; subst. exact Hs.
    + split; [discriminate|]. intros (s & r & H & Hs). inversion H; subst.
      simpl in Hs. destruct Hs; discriminate.
  - intros a. unfold is_offline. rewrite andb_true_iff, negb_true_iff. reflexivity.
Qed.

(** ** Source addresses *)

Lemma comprehension_if_raises {A B} (keep : A -> Py.result bool) (f : A -> Py.result B)
    (before after : list A) (x : A) (e : exn) :
  keep x = inr true -> f x = inl e ->
  exists e', comprehension_if keep f (before ++ x :: after) = inl e'.
Proof.
  intros Hk Hf. induction before as [|y before [e' IH]]; simpl.
  - rewrite Hk, Hf. now exists e.
  - destruct (keep y) as [ey|[|]]; [now exists ey| |now exists e'].
    destruct (f y) as [ey|v]; [now exists ey|]. rewrite IH. now exists e'.
Qed.

Lemma source_ip_kept_bucket (ip : string) (count : Z) (countries : list string) :
  source_ip_kept (source_ip_bucket ip count countries) = inr (negb (excluded_ip ip)).
Proof.
  unfold source_ip_kept, source_ip_bucket, excluded_ip, in_strs. simpl.
  now rewrite orb_false_r.
Qed.

(** C8 fails on the code: an address that is kept and has no entry in its
    country sub-aggregation does not get the country "Unknown"; its entry
    raises [IndexError], and the whole fragment is then the empty list of
    the handler, whatever the other buckets are. *)
Theorem country_without_entries (before after : list json) (ip : string) (count : Z) :
  excluded_ip ip = false ->
  let response :=
    aggregations_of "top_source_ips" (before ++ source_ip_bucket ip count [] :: after) in
  source_ip_entry (source_ip_bucket ip count []) = inl IndexError
  /\ (exists e, top_source_ips_reduce response = inl e)
  /\ try_except (top_source_ips_reduce response) (fun _ => [("top_source_ips", JList [])]) =
     [("top_source_ips", JList [])].
Proof.
  intros Hip response.
  assert (He : source_ip_entry (source_ip_bucket ip count []) = inl IndexError) by reflexivity.
  assert (Hr : exists e, top_source_ips_reduce response = inl e).
  { unfold top_source_ips_reduce, response. rewrite aggregation_buckets_of.
    cbn [bind iter ret].
    destruct (comprehension_if_raises source_ip_kept source_ip_entry before after
                (source_ip_bucket ip count []) IndexError) as [e' E]; [|exact He|].
    - rewrite source_ip_kept_bucket, Hip. reflexivity.
    - rewrite E. now exists e'. }
  split; [exact He|]. split; [exact Hr|].
  destruct Hr as [e ->]. reflexivity.
Qed.

Lemma answering_search (document : json) (config : Config) (client : option string)
    (index : string) (body : json) :
  run (search (answering document) (connector_for config client) index body) = document.
Proof.
  unfold connector_for. rewrite search_unfold. reflexivity.
Qed.

(** C7 fails on the code at this response: of two addresses, neither
    excluded, the first with a country and the second without, none is
    listed. *)
Theorem listed_address_dropped (config : Config) (client : option string)
    (index es_time_range : string) :
  excluded_ip "203.0.113.7" = false
  /\ excluded_ip "198.51.100.2" = false
  /\ top_source_ips_reduce two_addresses = inl IndexError
  /\ run (_get_top_source_ips (answering two_addresses) (connector_for config client)
            index es_time_range) = [("top_source_ips", JList [])].
Proof.
  split; [reflexivity|]. split; [reflexivity|]. split; [reflexivity|].
  unfold _get_top_source_ips. cbv zeta. rewrite run_bind_ret, answering_search.
  reflexivity.
Qed.

Lemma comprehension_if_kept (xs entries : list json) :
  comprehension_if source_ip_kept source_ip_entry xs = inr entries ->
  Forall (fun entry => exists ip count country,
            entry = JDict [("ip", ip); ("count", count); ("country", country)]
            /\ in_strs ip [""; "0.0.0.0"] = false) entries.
Proof.
  revert entries. induction xs as [|x xs IH]; simpl; intros entries Hc.
  - inversion Hc. constructor.
  - destruct (source_ip_kept x) as [e|[|]] eqn:Hk; [discriminate| |now apply IH].
    destruct (source_ip_entry x) as [e|y] eqn:Hy; [discriminate|].
    destruct (comprehension_if source_ip_kept source_ip_entry xs) as [e|ys];
      [discriminate|].
    inversion Hc; subst. constructor; [|now apply IH].
    unfold source_ip_kept in Hk. apply bind_inr in Hk. destruct Hk as [key [Hkey Hk]].
    unfold source_ip_entry in Hy.
    apply bind_inr in Hy. destruct Hy as [ip [Hip Hy]].
    apply bind_inr in Hy. destruct Hy as [cnt [_ Hy]].
    apply bind_inr in Hy. destruct Hy as [country [_ Hy]].
    rewrite Hkey in Hip. inversion Hip; subst. inversion Hy; subst.
    exists ip, cnt, country. split; [reflexivity|].
    unfold ret in Hk. injection Hk as Hn. now apply negb_true_iff.
Qed.

(** X11: the exclusion itself holds for every response: no entry of the
    fragment has the empty string or "0.0.0.0" as its address. *)
Lemma excluded_never_listed (response : json) (entries : list json) :
  try_except (top_source_ips_reduce response) (fun _ => [("top_source_ips", JList [])]) =
    [("top_source_ips", JList entries)] ->
  Forall (fun entry => exists ip count country,
            entry = JDict [("ip", ip); ("count", count); ("country", country)]
            /\ in_strs ip [""; "0.0.0.0"] = false) entries.
Proof.
  destruct (top_source_ips_reduce response) as [e|d] eqn:H; simpl; intros E.
  - inversion E. constructor.
  - subst d. unfold top_source_ips_reduce in H.
    apply bind_inr in H. destruct H as [b1 [_ H]].
    apply bind_inr in H. destruct H as [b2 [_ H]].
    apply bind_inr in H. destruct H as [ys [Hc H]].
    inversion H; subst. now apply comprehension_if_kept in Hc.
Qed.

(** When every address that is kept has an entry in its country
    sub-aggregation, the fragment lists the kept addresses in order, each
    with its count and its first country. *)
Lemma source_ips_with_country (buckets : list (string * Z * (string * list string))) :
  top_source_ips_reduce
    (aggregations_of "top_source_ips"
       (map (fun b => source_ip_bucket (fst (fst b)) (snd (fst b))
                        (fst (snd b) :: snd (snd b))) buckets)) =
  inr [("top_source_ips",
        JList (map (fun b => JDict [("ip", JStr (fst (fst b)));
                                    ("count", JInt (snd (fst b)));
                                    ("country", JStr (fst (snd b)))])
                 (filter (fun b => negb (excluded_ip (fst (fst b)))) buckets)))].
Proof.
  unfold top_source_ips_reduce. rewrite aggregation_buckets_of. cbn [bind iter ret].
  assert (H : comprehension_if source_ip_kept source_ip_entry
            (map (fun b => source_ip_bucket (fst (fst b)) (snd (fst b))
                             (fst (snd b) :: snd (snd b))) buckets) =
          inr (map (fun b => JDict [("ip", JStr (fst (fst b)));
                                    ("count", JInt (snd (fst b)));
                                    ("country", JStr (fst (snd b)))])
                 (filter (fun b => negb (excluded_ip (fst (fst b)))) buckets))).
  { induction buckets as [|[[ip n] [c cs]] rest IH]; [reflexivity|].
    cbn [map comprehension_if filter fst snd].
    rewrite source_ip_kept_bucket. destruct (excluded_ip ip); cbn [negb]; [exact IH|].
    rewrite IH. reflexivity. }
  rewrite H. reflexivity.
Qed.

(** * Further properties of the statistics pipeline *)

Lemma table_get_time_map (time_range : string) :
  time_range <> "24h" -> time_range <> "7d" -> time_range <> "30d" ->
  table_get time_map time_range "now-24h" = "now-24h"
  /\ table_get interval_map time_range "1h" = "1h".
Proof.
  intros H1 H2 H3. unfold time_map, interval_map. simpl.
  destruct (String.eqb_spec time_range "24h"); [contradiction|].
  destruct (String.eqb_spec time_range "7d"); [contradiction|].
  destruct (String.eqb_spec time_range "30d"); [contradiction|].
  split; reflexivity.
Qed.

(** X1: a time range other than "24h", "7d" and "30d" is served as "24h":
    the same queries are sent and the same statistics returned. *)
Theorem unknown_time_range_as_24h (net : transport) (config : Config)
    (client : option string) (time_range : string) :
  time_range <> "24h" -> time_range <> "7d" -> time_range <> "30d" ->
  get_dashboard_statistics net config client time_range =
  get_dashboard_statistics net config client "24h".
Proof.
  intros H1 H2 H3. destruct (table_get_time_map time_range H1 H2 H3) as [Ht Hi].
  unfold get_dashboard_statistics, statistics_body. cbv zeta. rewrite Ht, Hi.
  reflexivity.
Qed.

Lemma contains_delimiter (c rest : string) : contains ":" (c ++ ":" ++ rest) = true.
Proof. apply contains_app. Qed.

(** X2: the index a fragment is searched in is the pattern prefixed with
    the tenant when there is a tenant that is not the empty string, and the
    bare pattern otherwise; the connector leaves it as it is, so that no
    index is prefixed twice. *)
Theorem pipeline_index_scoped_once (config : Config) (client : option string) (f : fragment) :
  let pattern := match f with
                 | AgentHealth => "wazuh-monitoring-*"
                 | _ => "wazuh-alerts-*"
                 end in
  _scope_index (connector_for config client) (fragment_index client f) =
    fragment_index client f
  /\ (forall c, client = Some c -> c <> "" -> fragment_index client f = c ++ ":" ++ pattern)
  /\ (client = None \/ client = Some "" -> fragment_index client f = pattern).
Proof.
  cbv zeta. split; [|split].
  - unfold _scope_index. change (client_name (connector_for config client)) with client.
    destruct (truthy_str client) eqn:Ht; [|reflexivity]. cbn [negb].
    assert (Hc : contains ":" (fragment_index client f) = true).
    { destruct client as [c|]; [|discriminate].
      destruct f; unfold fragment_index, alert_index_of, monitoring_index_of;
        rewrite Ht; cbn [format_optional]; apply contains_delimiter. }
    now rewrite Hc.
  - intros c -> Hc.
    assert (Ht : truthy_str (Some c) = true).
    { simpl. destruct (String.eqb_spec c ""); [contradiction|reflexivity]. }
    destruct f; unfold fragment_index, alert_index_of, monitoring_index_of;
      rewrite Ht; reflexivity.
  - intros H. apply truthy_str_false in H.
    destruct f; unfold fragment_index, alert_index_of, monitoring_index_of;
      rewrite H; reflexivity.
Qed.

(** ** The requests of a statistics call *)

Lemma effects_bind {A B} (m : io A) (k : A -> io B) :
  effects (io_bind m k) = (effects m ++ effects (k (run m)))%list.
Proof.
  destruct m as [a l]. unfold io_bind, effects, run. simpl.
  destruct (k a) as [b l']. reflexivity.
Qed.

Lemma effects_bind_ret {A B} (m : io A) (f : A -> B) :
  effects (x <~ m ;; io_ret (f x)) = effects m.
Proof.
  rewrite effects_bind. simpl. apply app_nil_r.
Qed.

Lemma fragment_call_effects (net : transport) (config : Config)
    (client : option string) (time_range : string) (f : fragment) :
  effects (fragment_call net config client time_range f) =
  effects (search net (connector_for config client) (fragment_index client f)
             (fragment_query time_range f)).
Proof.
  destruct f; unfold fragment_call;
    [ unfold _get_alerts_per_hour | unfold _get_severity_breakdown
    | unfold _get_top_rules | unfold _get_top_agents | unfold _get_top_source_ips
    | unfold _get_alert_trends | unfold _get_agent_status ];
    cbv zeta; rewrite effects_bind_ret; reflexivity.
Qed.

Lemma statistics_effects (net : transport) (config : Config)
    (client : option string) (time_range : string) :
  effects (get_dashboard_statistics net config client time_range) =
  List.concat (map (fun f => effects (fragment_call net config client time_range f))
            all_fragments).
Proof.
  unfold get_dashboard_statistics. rewrite effects_bind_ret.
  unfold all_fragments, statistics_body, fragment_call, connector_for, es_time_range_of,
    histogram_interval_of. cbv zeta. cbn [map List.concat].
  destruct (_get_alerts_per_hour _ _ _ _ _) as [f1 l1].
  destruct (_get_severity_breakdown _ _ _ _) as [f2 l2].
  destruct (_get_top_rules _ _ _ _) as [f3 l3].
  destruct (_get_top_agents _ _ _) as [f4 l4].
  destruct (_get_top_source_ips _ _ _ _) as [f5 l5].
  destruct (_get_alert_trends _ _ _ _) as [f6 l6].
  destruct (_get_agent_status _ _ _) as [f7 l7].
  unfold io_bind, io_ret, effects. cbn [snd]. rewrite !app_nil_r. reflexivity.
Qed.

Lemma search_effects (net : transport) (config : Config) (es_config : option EsConfig)
    (client : option string) (index : string) (body : json) :
  let self := ElasticsearchConnector_init config es_config client in
  let req := search_request self (search_url_of self index) body in
  exists n, (n <= 2)%nat /\ effects (search net self index body) = backoff_trace req n.
Proof.
  intros self req. unfold self. rewrite search_unfold. fold self. fold req.
  assert (Hmax : max_retries self = 2%nat) by (unfold self; now destruct es_config).
  assert (Hback : retry_backoff self = (3 # 2)%Q) by (unfold self; now destruct es_config).
  simpl attempt_loop. rewrite Hmax, Hback. simpl Nat.ltb.
  destruct (attempt_result (net req 0%nat)); [exists 0%nat; split; [lia|reflexivity]|].
  destruct (attempt_result (net req 1%nat)); [exists 1%nat; split; [lia|reflexivity]|].
  exists 2%nat. split; [lia|].
  destruct (attempt_result (net req 2%nat)); reflexivity.
Qed.

(** X3: the effects of a statistics call are those of seven searches, in
    the order alerts per hour, severity, top rules, top agents, top source
    addresses, alert trends, agent health: each search posts the request of
    its fragment, at most three times, with a pause of 1.5 s and then of
    3 s between the posts.  Nothing else is sent. *)
Theorem statistics_requests_in_order (net : transport) (config : Config)
    (client : option string) (time_range : string) :
  exists attempts : fragment -> nat,
    (forall f, (attempts f <= 2)%nat)
    /\ effects (get_dashboard_statistics net config client time_range) =
       List.concat (map (fun f => backoff_trace (fragment_request config client time_range f)
                               (attempts f)) all_fragments).
Proof.
  assert (H : forall f, exists n, (n <= 2)%nat /\
            effects (fragment_call net config client time_range f) =
            backoff_trace (fragment_request config client time_range f) n).
  { intros f. rewrite fragment_call_effects. unfold connector_for, fragment_request.
    apply (search_effects net config (Some (get_elasticsearch_config config client))). }
  destruct (H AlertsPerHour) as (n1 & L1 & E1). destruct (H Severity) as (n2 & L2 & E2).
  destruct (H TopRules) as (n3 & L3 & E3). destruct (H TopAgents) as (n4 & L4 & E4).
  destruct (H TopSourceIps) as (n5 & L5 & E5). destruct (H AlertTrends) as (n6 & L6 & E6).
  destruct (H AgentHealth) as (n7 & L7 & E7).
  exists (fun f => match f with
                   | AlertsPerHour => n1 | Severity => n2 | TopRules => n3
                   | TopAgents => n4 | TopSourceIps => n5 | AlertTrends => n6
                   | AgentHealth => n7
                   end).
  split; [intros []; assumption|].
  rewrite statistics_effects. unfold all_fragments. cbn [map].
  now rewrite E1, E2, E3, E4, E5, E6, E7.
Qed.

Lemma posts_app (l1 l2 : list effect) : posts (l1 ++ l2) = (posts l1 + posts l2)%nat.
Proof. unfold posts. now rewrite filter_app, length_app. Qed.

Lemma pauses_app (l1 l2 : list effect) : pauses (l1 ++ l2) = (pauses l1 + pauses l2)%nat.
Proof. unfold pauses. now rewrite filter_app, length_app. Qed.

Lemma backoff_trace_counts (req : request) (n : nat) :
  (n <= 2)%nat ->
  posts (backoff_trace req n) = (n + 1)%nat /\ pauses (backoff_trace req n) = n.
Proof.
  intros Hn. destruct n as [|[|[|n]]]; [| | |lia]; split; reflexivity.
Qed.

(** X4: a statistics call posts at least 7 and at most 21 requests and
    pauses at most 14 times; it posts exactly 7 times more often than it
    pauses, a pause coming only between two posts of one search. *)
Theorem statistics_request_bounds (net : transport) (config : Config)
    (client : option string) (time_range : string) :
  let trace := effects (get_dashboard_statistics net config client time_range) in
  (7 <= posts trace <= 21)%nat
  /\ (pauses trace <= 14)%nat
  /\ posts trace = (pauses trace + 7)%nat.
Proof.
  cbv zeta.
  assert (H : forall f, exists n, (n <= 2)%nat /\
            posts (effects (fragment_call net config client time_range f)) = (n + 1)%nat /\
            pauses (effects (fragment_call net config client time_range f)) = n).
  { intros f. rewrite fragment_call_effects. unfold connector_for.
    destruct (search_effects net config (Some (get_elasticsearch_config config client))
                client (fragment_index client f) (fragment_query time_range f))
      as (n & Hn & E).
    cbv zeta in E. rewrite E. exists n. split; [exact Hn|].
    now apply backoff_trace_counts. }
  rewrite statistics_effects. unfold all_fragments. cbn [map List.concat].
  rewrite !posts_app, !pauses_app.
  destruct (H AlertsPerHour) as (n1 & L1 & P1 & S1). destruct (H Severity) as (n2 & L2 & P2 & S2).
  destruct (H TopRules) as (n3 & L3 & P3 & S3). destruct (H TopAgents) as (n4 & L4 & P4 & S4).
  destruct (H TopSourceIps) as (n5 & L5 & P5 & S5).
  destruct (H AlertTrends) as (n6 & L6 & P6 & S6).
  destruct (H AgentHealth) as (n7 & L7 & P7 & S7).
  rewrite P1, P2, P3, P4, P5, P6, P7, S1, S2, S3, S4, S5, S6, S7.
  change (posts []) with 0%nat. change (pauses []) with 0%nat. lia.
Qed.

Lemma search_unreachable (net : transport) (config : Config) (es_config : option EsConfig)
    (client : option string) (index : string) (body : json) :
  let self := ElasticsearchConnector_init config es_config client in
  let req := search_request self (search_url_of self index) body in
  (forall n, (n <= 2)%nat -> net req n = RequestException) ->
  search net self index body = (JDict [], backoff_trace req 2).
Proof.
  intros self req H. unfold self. rewrite search_unfold. fold self. fold req.
  assert (Hmax : max_retries self = 2%nat) by (unfold self; now destruct es_config).
  assert (Hback : retry_backoff self = (3 # 2)%Q) by (unfold self; now destruct es_config).
  simpl attempt_loop. rewrite Hmax, Hback. simpl Nat.ltb.
  rewrite (H 0%nat), (H 1%nat), (H 2%nat) by lia. reflexivity.
Qed.

(** X5: when the three attempts of the query of one fragment all end in a
    request failure, the keys of that fragment are at their empty values,
    as after a refusal; the other fragments are served. *)
Theorem transport_failure_isolation (net : transport) (config : Config)
    (client : option string) (time_range : string) (f : fragment) :
  (forall n, (n <= 2)%nat ->
     net (fragment_request config client time_range f) n = RequestException) ->
  forall k, In k (fragment_keys f) ->
    lookup k (run (get_dashboard_statistics net config client time_range)) =
    Some (empty_value false k).
Proof.
  intros Hfail k Hk.
  rewrite (statistics_lookup _ _ _ _ f k Hk), fragment_call_run.
  assert (Hr : fragment_response net config client time_range f = JDict []).
  { unfold fragment_response, connector_for.
    rewrite (search_unreachable net config (Some (get_elasticsearch_config config client))
               client (fragment_index client f) (fragment_query time_range f) Hfail).
    reflexivity. }
  rewrite Hr. f_equal. now apply fragment_reduce_empty.
Qed.

(** X6: a response with status 200 and a JSON body, at the first attempt
    or after one or two request failures, is returned as it is, after one
    post for each attempt and the pauses between them. *)
Theorem search_returns_body (net : transport) (config : Config)
    (es_config : option EsConfig) (client : option string) (index : string) (body : json)
    (n : nat) (document : json) :
  let self := ElasticsearchConnector_init config es_config client in
  let req := search_request self (search_url_of self index) body in
  (n <= 2)%nat ->
  (forall m, (m < n)%nat -> net req m = RequestException) ->
  net req n = Response 200 (Some document) ->
  search net self index body = (document, backoff_trace req n).
Proof.
  intros self req Hn Hfail Hreply. unfold self. rewrite search_unfold. fold self. fold req.
  assert (Hmax : max_retries self = 2%nat) by (unfold self; now destruct es_config).
  assert (Hback : retry_backoff self = (3 # 2)%Q) by (unfold self; now destruct es_config).
  simpl attempt_loop. rewrite Hmax, Hback. simpl Nat.ltb.
  destruct n as [|[|[|n]]]; [| | |lia].
  - rewrite Hreply. reflexivity.
  - rewrite (Hfail 0%nat) by lia. simpl attempt_result. rewrite Hreply. reflexivity.
  - rewrite (Hfail 0%nat), (Hfail 1%nat) by lia. simpl attempt_result. rewrite Hreply.
    reflexivity.
Qed.

(** ** Further properties of the reductions *)

Lemma terms_comprehension (label : string) (buckets entries : list json) :
  Forall2 (terms_entry label) buckets entries ->
  comprehension (fun bucket =>
      key <- getitem bucket "key" ;;
      count <- getitem bucket "doc_count" ;;
      ret (JDict [(label, key); ("count", count)])) buckets =
  inr entries.
Proof.
  induction 1 as [|bucket entry buckets entries H _ IH]; [reflexivity|].
  destruct H as (d & key & count & -> & Hk & Hc & ->).
  cbn [comprehension getitem]. rewrite Hk, Hc. cbn [bind ret]. rewrite IH. reflexivity.
Qed.

(** X8: the buckets of the rule and of the agent aggregation map, in
    order, to the entries of [top_rules] and [top_agents]: an entry holds
    the key of its bucket, under "description" or "agent_name", and its
    document count. *)
Theorem terms_fragments (net : transport) (es_connector : ElasticsearchConnector)
    (index es_time_range : string) (buckets entries : list json) :
  (aggregation_buckets
     (run (search net es_connector index (top_rules_query es_time_range)))
     "top_rules" = inr (JList buckets) ->
   Forall2 (terms_entry "description") buckets entries ->
   run (_get_top_rules net es_connector index es_time_range) =
   [("top_rules", JList entries)])
  /\ (aggregation_buckets
        (run (search net es_connector index top_agents_query))
        "top_agents" = inr (JList buckets) ->
      Forall2 (terms_entry "agent_name") buckets entries ->
      run (_get_top_agents net es_connector index) = [("top_agents", JList entries)]).
Proof.
  split; intros Hb He.
  - unfold _get_top_rules. cbv zeta. rewrite run_bind_ret.
    unfold top_rules_reduce. rewrite Hb. cbn [bind iter ret].
    rewrite (terms_comprehension "description" _ _ He). reflexivity.
  - unfold _get_top_agents. cbv zeta. rewrite run_bind_ret.
    unfold top_agents_reduce. rewrite Hb. cbn [bind iter ret].
    rewrite (terms_comprehension "agent_name" _ _ He). reflexivity.
Qed.

Lemma agent_status_step_counts (online offline : Z) (bucket : json) (counts : Z * Z) :
  agent_status_step (online, offline) bucket = inr counts ->
  online <= fst counts /\ offline <= snd counts
  /\ fst counts + snd counts <= online + offline + 1.
Proof.
  unfold agent_status_step. intros H.
  apply bind_inr in H. destruct H as [latest [_ H]].
  apply bind_inr in H. destruct H as [hits [_ H]].
  apply bind_inr in H. destruct H as [latest_hits [_ H]].
  destruct (truthy latest_hits).
  - apply bind_inr in H. destruct H as [hit [_ H]].
    apply bind_inr in H. destruct H as [source [_ H]].
    apply bind_inr in H. destruct H as [status [_ H]].
    apply bind_inr in H. destruct H as [lowered [_ H]].
    destruct (in_strs lowered ["active"; "connected"]);
      unfold ret in H; injection H as <-; simpl; lia.
  - unfold ret in H. injection H as <-. simpl. lia.
Qed.

Lemma agent_status_loop_counts (buckets : list json) :
  forall online offline counts,
    for_each agent_status_step buckets (online, offline) = inr counts ->
    online <= fst counts /\ offline <= snd counts
    /\ fst counts + snd counts <= online + offline + Z.of_nat (List.length buckets).
Proof.
  induction buckets as [|b buckets IH]; intros online offline counts H.
  - simpl in H. unfold ret in H. injection H as <-. simpl. lia.
  - cbn [for_each] in H.
    destruct (agent_status_step (online, offline) b) as [e|[on off]] eqn:E; [discriminate|].
    apply agent_status_step_counts in E. apply IH in H.
    cbn [fst snd] in E. cbn [List.length]. lia.
Qed.

(** X9: for every response of the engine, well formed or not, the agent
    health has a total that is the sum of its online and offline counts,
    neither of them negative; when the response has a list of agent
    buckets, the total is at most their number. *)
Theorem agent_health_invariant (net : transport) (es_connector : ElasticsearchConnector)
    (index : string) :
  exists online offline,
    run (_get_agent_status net es_connector index) =
      [("agent_health", health_of (online + offline) online offline)]
    /\ 0 <= online /\ 0 <= offline
    /\ forall buckets,
         aggregation_buckets (run (search net es_connector index agent_status_query))
           "agents" = inr (JList buckets) ->
         online + offline <= Z.of_nat (List.length buckets).
Proof.
  unfold _get_agent_status. cbv zeta. rewrite run_bind_ret.
  set (r := run (search net es_connector index agent_status_query)).
  destruct (agent_status_reduce r) as [e|d] eqn:H; cbn [try_except].
  - exists 0, 0. split; [reflexivity|]. split; [lia|]. split; [lia|].
    intros buckets _. lia.
  - unfold agent_status_reduce in H.
    apply bind_inr in H. destruct H as [bs [Hb H]].
    apply bind_inr in H. destruct H as [items [Hi H]].
    apply bind_inr in H. destruct H as [counts [Hc H]].
    unfold ret in H. injection H as <-.
    pose proof (agent_status_loop_counts items 0 0 counts Hc) as (H1 & H2 & H3).
    exists (fst counts), (snd counts). split; [reflexivity|].
    split; [exact H1|]. split; [exact H2|].
    intros buckets Hbuckets. rewrite Hb in Hbuckets. injection Hbuckets as ->.
    simpl in Hi. unfold ret in Hi. injection Hi as <-. lia.
Qed.

Lemma comprehension_length {A B} (f : A -> Py.result B) (xs : list A) (ys : list B) :
  comprehension f xs = inr ys -> List.length ys = List.length xs.
Proof.
  revert ys. induction xs as [|x xs IH]; simpl; intros ys H.
  - unfold ret in H. injection H as <-. reflexivity.
  - destruct (f x) as [e|y]; [discriminate|].
    destruct (comprehension f xs) as [e|ys']; [discriminate|].
    injection H as <-. simpl. f_equal. now apply IH.
Qed.

Lemma comprehension_if_length {A B} (keep : A -> Py.result bool) (f : A -> Py.result B)
    (xs : list A) (ys : list B) :
  comprehension_if keep f xs = inr ys -> (List.length ys <= List.length xs)%nat.
Proof.
  revert ys. induction xs as [|x xs IH]; simpl; intros ys H.
  - unfold ret in H. injection H as <-. simpl. lia.
  - destruct (keep x) as [e|[|]]; [discriminate| |].
    + destruct (f x) as [e|y]; [discriminate|].
      destruct (comprehension_if keep f xs) as [e|ys']; [discriminate|].
      injection H as <-. simpl. specialize (IH ys' eq_refl). lia.
    + specialize (IH ys H). lia.
Qed.

(** X10: a list fragment is never filled in part.  When the response has a
    list of buckets, the fragments made of one entry for each bucket
    (alerts per hour, top rules, top agents, alert trends) have as many
    entries as there are buckets, or none; the source addresses, which are
    filtered, have at most as many. *)
Theorem list_fragments_whole_or_empty (net : transport)
    (es_connector : ElasticsearchConnector) (index es_time_range interval : string)
    (buckets : list json) :
  let whole_or_empty := fun (fragment : dict) (name : string) =>
    exists entries, fragment = [(name, JList entries)]
      /\ (entries = [] \/ List.length entries = List.length buckets) in
  (aggregation_buckets
     (run (search net es_connector index (alerts_per_hour_query es_time_range interval)))
     "alerts_per_hour" = inr (JList buckets) ->
   whole_or_empty (run (_get_alerts_per_hour net es_connector index es_time_range interval))
     "alerts_per_hour")
  /\ (aggregation_buckets
        (run (search net es_connector index (top_rules_query es_time_range)))
        "top_rules" = inr (JList buckets) ->
      whole_or_empty (run (_get_top_rules net es_connector index es_time_range)) "top_rules")
  /\ (aggregation_buckets
        (run (search net es_connector index top_agents_query))
        "top_agents" = inr (JList buckets) ->
      whole_or_empty (run (_get_top_agents net es_connector index)) "top_agents")
  /\ (aggregation_buckets
        (run (search net es_connector index (alert_trends_query es_time_range)))
        "daily_trends" = inr (JList buckets) ->
      whole_or_empty (run (_get_alert_trends net es_connector index es_time_range))
        "alert_trends")
  /\ (aggregation_buckets
        (run (search net es_connector index (top_source_ips_query es_time_range)))
        "top_source_ips" = inr (JList buckets) ->
      exists entries,
        run (_get_top_source_ips net es_connector index es_time_range) =
          [("top_source_ips", JList entries)]
        /\ (List.length entries <= List.length buckets)%nat).
Proof.
  cbv zeta. repeat split; intros Hb.
  - unfold _get_alerts_per_hour. cbv zeta. rewrite run_bind_ret.
    unfold alerts_per_hour_reduce. rewrite Hb. cbn [bind iter ret].
    destruct (comprehension _ buckets) as [e|ys] eqn:E; cbn [bind try_except].
    + exists []. auto.
    + exists ys. split; [reflexivity|]. right. now apply comprehension_length in E.
  - unfold _get_top_rules. cbv zeta. rewrite run_bind_ret.
    unfold top_rules_reduce. rewrite Hb. cbn [bind iter ret].
    destruct (comprehension _ buckets) as [e|ys] eqn:E; cbn [bind try_except].
    + exists []. auto.
    + exists ys. split; [reflexivity|]. right. now apply comprehension_length in E.
  - unfold _get_top_agents. cbv zeta. rewrite run_bind_ret.
    unfold top_agents_reduce. rewrite Hb. cbn [bind iter ret].
    destruct (comprehension _ buckets) as [e|ys] eqn:E; cbn [bind try_except].
    + exists []. auto.
    + exists ys. split; [reflexivity|]. right. now apply comprehension_length in E.
  - unfold _get_alert_trends. cbv zeta. rewrite run_bind_ret.
    unfold alert_trends_reduce. rewrite Hb. cbn [bind iter ret].
    destruct (comprehension _ buckets) as [e|ys] eqn:E; cbn [bind try_except].
    + exists []. auto.
    + exists ys. split; [reflexivity|]. right. now apply comprehension_length in E.
  - unfold _get_top_source_ips. cbv zeta. rewrite run_bind_ret.
    unfold top_source_ips_reduce. rewrite Hb. cbn [bind iter ret].
    destruct (comprehension_if _ _ buckets) as [e|ys] eqn:E; cbn [bind try_except].
    + exists []. split; [reflexivity|]. simpl. lia.
    + exists ys. split; [reflexivity|]. now apply comprehension_if_length in E.
Qed.

Lemma source_ip_kept_with (ip : string) (count : Z) (country : option (string * list string)) :
  source_ip_kept (source_ip_bucket_with ip count country) = inr (negb (excluded_ip ip)).
Proof.
  destruct country as [[c cs]|]; [apply source_ip_kept_bucket|].
  unfold source_ip_kept, source_ip_bucket_with, excluded_ip, in_strs. simpl.
  now rewrite orb_false_r.
Qed.

(** X12: when every address has no country sub-aggregation at all or one
    with a first entry, the fragment lists, in order, the addresses other
    than "" and "0.0.0.0", each with its count and with its first country,
    or "Unknown" when it has no country sub-aggregation. *)
Theorem source_ips_country_default
    (buckets : list (string * Z * option (string * list string))) :
  top_source_ips_reduce
    (aggregations_of "top_source_ips"
       (map (fun b => source_ip_bucket_with (fst (fst b)) (snd (fst b)) (snd b)) buckets)) =
  inr [("top_source_ips",
        JList (map (fun b => JDict [("ip", JStr (fst (fst b)));
                                    ("count", JInt (snd (fst b)));
                                    ("country", JStr (country_of (snd b)))])
                 (filter (fun b => negb (excluded_ip (fst (fst b)))) buckets)))].
Proof.
  unfold top_source_ips_reduce. rewrite aggregation_buckets_of. cbn [bind iter ret].
  assert (H : comprehension_if source_ip_kept source_ip_entry
            (map (fun b => source_ip_bucket_with (fst (fst b)) (snd (fst b)) (snd b))
               buckets) =
          inr (map (fun b => JDict [("ip", JStr (fst (fst b)));
                                    ("count", JInt (snd (fst b)));
                                    ("country", JStr (country_of (snd b)))])
                 (filter (fun b => negb (excluded_ip (fst (fst b)))) buckets))).
  { induction buckets as [|[[ip n] country] rest IH]; [reflexivity|].
    cbn [map comprehension_if filter fst snd].
    rewrite source_ip_kept_with. destruct (excluded_ip ip); cbn [negb]; [exact IH|].
    rewrite IH. destruct country as [[c cs]|]; reflexivity. }
  rewrite H. reflexivity.
Qed.

(** * Properties of the index list *)

Lemma index_step_row (self : ElasticsearchConnector) (filtered : list json) (name : string) :
  index_step self filtered (index_row name) =
  inr (if index_listed (client_name self) name
       then (filtered ++ [JStr name])%list else filtered).
Proof.
  unfold index_step, index_row, index_listed. cbn [get dict_get lookup String.eqb
    Ascii.eqb Bool.eqb in_value bind ret].
  destruct (contains "wazuh" name); cbn [andb]; [|reflexivity].
  destruct (truthy_str (client_name self)); [|reflexivity].
  destruct (contains (format_optional (client_name self)) name); cbn [orb]; [reflexivity|].
  destruct (contains ":" name); reflexivity.
Qed.

Lemma index_loop_rows (self : ElasticsearchConnector) (names : list string) :
  forall filtered,
    for_each (index_step self) (map index_row names) filtered =
    inr (filtered ++ map JStr (filter (index_listed (client_name self)) names))%list.
Proof.
  induction names as [|name names IH]; intros filtered.
  - simpl. now rewrite app_nil_r.
  - cbn [map for_each]. rewrite index_step_row.
    cbn [filter]. destruct (index_listed (client_name self) name).
    + rewrite IH. cbn [map]. now rewrite <- app_assoc.
    + apply IH.
Qed.

(** X13: from an index table with the given names, [get_indices] returns,
    in the order of the table, the names that have "wazuh" in them and,
    when the connector has a tenant, have the tenant somewhere in them or
    have no ":"; without a tenant every name with "wazuh" is returned. *)
Theorem get_indices_names (net : get_transport) (self : ElasticsearchConnector)
    (names : list string) :
  net (indices_request self) = Response 200 (Some (JList (map index_row names))) ->
  get_indices net self = map JStr (filter (index_listed (client_name self)) names).
Proof.
  intros H. unfold get_indices. rewrite H. cbn [Z.eqb Pos.eqb iter bind ret].
  rewrite index_loop_rows. reflexivity.
Qed.

Lemma index_step_invariant (self : ElasticsearchConnector) (P : json -> Prop)
    (filtered : list json) (idx : json) (out : list json) :
  (forall name,
     in_value "wazuh" name = inr true ->
     (truthy_str (client_name self) = true ->
        in_value (format_optional (client_name self)) name = inr true
        \/ in_value ":" name = inr false) ->
     P name) ->
  Forall P filtered ->
  index_step self filtered idx = inr out ->
  Forall P out.
Proof.
  intros HP Hf H. unfold index_step in H.
  apply bind_inr in H. destruct H as [name [_ H]].
  apply bind_inr in H. destruct H as [is_wazuh [Hw H]].
  destruct is_wazuh; [|unfold ret in H; now injection H as <-].
  destruct (truthy_str (client_name self)) eqn:Ht.
  - apply bind_inr in H. destruct H as [has_client [Hc H]].
    destruct has_client.
    + unfold ret in H. injection H as <-. apply Forall_app. split; [exact Hf|].
      constructor; [|constructor]. apply HP; [exact Hw|]. intros _. now left.
    + apply bind_inr in H. destruct H as [has_delimiter [Hd H]].
      destruct has_delimiter; cbn [negb] in H; unfold ret in H; injection H as <-;
        [exact Hf|].
      apply Forall_app. split; [exact Hf|].
      constructor; [|constructor]. apply HP; [exact Hw|]. intros _. now right.
  - unfold ret in H. injection H as <-. apply Forall_app. split; [exact Hf|].
    constructor; [|constructor]. apply HP; [exact Hw|]. discriminate.
Qed.

(** X14: whatever the engine answers, every name [get_indices] returns has
    "wazuh" in it and, when the connector has a tenant, has the tenant in
    it or has no ":". *)
Theorem get_indices_only_listed (net : get_transport) (self : ElasticsearchConnector) :
  Forall (fun name =>
            in_value "wazuh" name = inr true
            /\ (truthy_str (client_name self) = true ->
                  in_value (format_optional (client_name self)) name = inr true
                  \/ in_value ":" name = inr false))
    (get_indices net self).
Proof.
  unfold get_indices.
  destruct (net (indices_request self)) as [status body|]; [|constructor].
  destruct (status =? 200); [|constructor].
  destruct body as [indices|]; [|constructor].
  destruct (iter indices) as [e|rows]; cbn [bind try_except]; [constructor|].
  assert (H : forall filtered out,
            Forall (fun name =>
                      in_value "wazuh" name = inr true
                      /\ (truthy_str (client_name self) = true ->
                            in_value (format_optional (client_name self)) name = inr true
                            \/ in_value ":" name = inr false)) filtered ->
            for_each (index_step self) rows filtered = inr out ->
            Forall (fun name =>
                      in_value "wazuh" name = inr true
                      /\ (truthy_str (client_name self) = true ->
                            in_value (format_optional (client_name self)) name = inr true
                            \/ in_value ":" name = inr false)) out).
  { induction rows as [|row rows IH]; intros filtered out Hf Hl.
    - simpl in Hl. unfold ret in Hl. now injection Hl as <-.
    - cbn [for_each] in Hl.
      destruct (index_step self filtered row) as [e|next] eqn:E; [discriminate|].
      apply (IH next out); [|exact Hl].
      eapply index_step_invariant; [|exact Hf|exact E].
      intros name Hw Hc. now split. }
  destruct (for_each (index_step self) rows []) as [e|out] eqn:E; cbn [try_except];
    [constructor|].
  now apply (H [] out).
Qed.

Lemma index_loop_raises (self : ElasticsearchConnector) (rows : list json) (row : json) :
  In row rows -> is_dict row = false ->
  forall filtered, exists e, for_each (index_step self) rows filtered = inl e.
Proof.
  intros Hin Hrow. induction rows as [|r rows IH]; [contradiction|].
  intros filtered. cbn [for_each].
  destruct Hin as [->|Hin].
  - destruct row; try discriminate; now exists AttributeError.
  - destruct (index_step self filtered r) as [e|next]; [now exists e|].
    now apply IH.
Qed.

(** X15: one row of the index table that is not an object makes
    [get_indices] return the empty list, whatever the other rows are. *)
Theorem get_indices_malformed_row (net : get_transport) (self : ElasticsearchConnector)
    (rows : list json) (row : json) :
  net (indices_request self) = Response 200 (Some (JList rows)) ->
  In row rows -> is_dict row = false ->
  get_indices net self = [].
Proof.
  intros H Hin Hrow. unfold get_indices. rewrite H. cbn [Z.eqb Pos.eqb iter bind ret].
  destruct (index_loop_raises self rows row Hin Hrow []) as [e ->]. reflexivity.
Qed.

(** * Properties of the tenant list *)

Lemma lookup_client (client_configs : list (string * dict)) (c : string * dict) :
  NoDup (map fst client_configs) -> In c client_configs ->
  lookup (fst c) (map (fun c => (fst c, JDict (snd c))) client_configs) = Some (JDict (snd c)).
Proof.
  induction client_configs as [|[k' v'] rest IH]; intros Hnd Hin; [contradiction|].
  simpl in Hnd. inversion Hnd as [|? ? Hnotin Hnd']; subst.
  simpl. destruct Hin as [<-|Hin].
  - simpl. now rewrite String.eqb_refl.
  - assert (E : fst c <> k').
    { intros E. apply Hnotin. rewrite <- E. now apply in_map. }
    apply String.eqb_neq in E. rewrite E. now apply IH.
Qed.

Lemma lookup_existsb (k : string) (d : dict) (v : json) :
  lookup k d = Some v -> existsb (fun kv => String.eqb (fst kv) k) d = true.
Proof.
  induction d as [|[k' v'] d IH]; simpl; [discriminate|].
  rewrite (String.eqb_sym k' k).
  destruct (String.eqb k k'); [reflexivity|exact IH].
Qed.

Lemma display_name_of_client (client_configs : list (string * dict)) (c : string * dict) :
  NoDup (map fst client_configs) -> In c client_configs ->
  get_client_display_name (mt_config_of client_configs) (fst c) =
  inr (dict_get (snd c) "display_name" (JStr (fst c))).
Proof.
  intros Hnd Hin. pose proof (lookup_client client_configs c Hnd Hin) as Hl.
  unfold get_client_display_name, mt_config_of.
  cbn [get dict_get lookup String.eqb Ascii.eqb Bool.eqb bind ret in_value].
  rewrite (lookup_existsb _ _ _ Hl). cbn [getitem]. rewrite Hl. reflexivity.
Qed.

Lemma client_names_of (client_configs : list (string * dict)) :
  get_client_names (mt_config_of client_configs) = inr (map fst client_configs).
Proof.
  unfold get_client_names, mt_config_of.
  cbn [get dict_get lookup String.eqb Ascii.eqb Bool.eqb bind ret].
  destruct client_configs as [|c rest]; [reflexivity|].
  cbn [map truthy keys]. unfold ret. f_equal. cbn [fst]. f_equal.
  rewrite map_map. reflexivity.
Qed.

(** X16: for a configuration whose clients have distinct names, the
    endpoint [/clients] lists the clients in the order of the
    configuration, each with its display name or, when it has none, with
    its own name as description; the default client is the first one, and
    null when there is no client. *)
Theorem get_clients_listing (client_configs : list (string * dict)) :
  NoDup (map fst client_configs) ->
  get_clients (mt_config_of client_configs) =
  HttpOk (JDict [("clients", JList (map client_entry client_configs));
                 ("default_client", default_client_of client_configs)]).
Proof.
  intros Hnd. unfold get_clients, get_default_client.
  rewrite !client_names_of. cbn [bind].
  assert (Hc : forall some, incl some client_configs ->
            comprehension (fun client_name =>
                display_name <- get_client_display_name (mt_config_of client_configs)
                                  client_name ;;
                ret (JDict [("name", JStr client_name); ("description", display_name)]))
              (map fst some) = inr (map client_entry some)).
  { induction some as [|c some IH]; intros Hincl; [reflexivity|].
    cbn [map comprehension].
    rewrite (display_name_of_client client_configs c Hnd (Hincl c (or_introl eq_refl))).
    cbn [bind ret]. rewrite IH; [reflexivity|].
    intros x Hx. apply Hincl. now right. }
  destruct client_configs as [|c rest].
  - reflexivity.
  - cbn [map bind ret]. 
    change (fst c :: map fst rest) with (map fst (c :: rest)).
    rewrite (Hc (c :: rest) (incl_refl _)). reflexivity.
Qed.

Lemma display_name_raw (client_configs : list (string * json)) (name : string) (v : json) :
  lookup name client_configs = Some v ->
  get_client_display_name (mt_config_raw client_configs) name =
  get v "display_name" (JStr name).
Proof.
  intros Hl. unfold get_client_display_name, mt_config_raw.
  cbn [get dict_get lookup String.eqb Ascii.eqb Bool.eqb bind ret in_value].
  rewrite (lookup_existsb _ _ _ Hl). cbn [getitem]. rewrite Hl. reflexivity.
Qed.

Lemma lookup_raw (client_configs : list (string * json)) (name : string) (v : json) :
  NoDup (map fst client_configs) -> In (name, v) client_configs ->
  lookup name client_configs = Some v.
Proof.
  induction client_configs as [|[k' v'] rest IH]; intros Hnd Hin; [contradiction|].
  simpl in Hnd. inversion Hnd as [|? ? Hnotin Hnd']; subst.
  simpl. destruct Hin as [E|Hin].
  - injection E as -> ->. now rewrite String.eqb_refl.
  - assert (E : name <> k').
    { intros E. apply Hnotin. rewrite <- E.
      change name with (fst (name, v)). now apply in_map. }
    apply String.eqb_neq in E. rewrite E. now apply IH.
Qed.

(** X17: one client whose configuration is not an object, such as a
    client left empty in the YAML file, makes the endpoint [/clients] fail
    with status 500 for all clients. *)
Theorem get_clients_broken_client (client_configs : list (string * json))
    (name : string) (v : json) :
  NoDup (map fst client_configs) ->
  In (name, v) client_configs -> is_dict v = false ->
  get_clients (mt_config_raw client_configs) =
  HttpError 500 ("Failed to load clients: " ++ str_of_exn AttributeError).
Proof.
  intros Hnd Hin Hv. unfold get_clients, get_default_client, get_client_names, mt_config_raw.
  cbn [get dict_get lookup String.eqb Ascii.eqb Bool.eqb bind ret].
  destruct client_configs as [|c0 rest0] eqn:Ecs; [contradiction|].
  rewrite <- Ecs in *. assert (Ht : truthy (JDict client_configs) = true) by now rewrite Ecs.
  rewrite Ht. cbn [keys bind ret].
  assert (Hnames : exists n0 names0, map fst client_configs = n0 :: names0)
    by (rewrite Ecs; simpl; eauto).
  destruct Hnames as (n0 & names0 & Hnames). rewrite Hnames. cbn [bind ret].
  rewrite <- Hnames.
  assert (Hc : forall some, incl some client_configs -> In (name, v) some ->
            comprehension (fun client_name =>
                display_name <- get_client_display_name (mt_config_raw client_configs)
                                  client_name ;;
                ret (JDict [("name", JStr client_name); ("description", display_name)]))
              (map fst some) = inl AttributeError).
  { induction some as [|[k w] some IH]; intros Hincl Hsome; [contradiction|].
    cbn [map comprehension fst].
    rewrite (display_name_raw client_configs k w
               (lookup_raw _ _ _ Hnd (Hincl _ (or_introl eq_refl)))).
    destruct Hsome as [E|Hsome].
    - injection E as -> ->. destruct v; try discriminate; reflexivity.
    - assert (Hrest : incl some client_configs) by (intros x Hx; apply Hincl; now right).
      rewrite (IH Hrest Hsome).
      destruct w; reflexivity. }
  unfold mt_config_raw in Hc.
  rewrite (Hc client_configs (incl_refl _) Hin). reflexivity.
Qed.

(** * Properties of the result formatter and of the query endpoint *)

Lemma format_document_of (hit out : json) :
  document_of hit out -> format_document hit = inr out.
Proof.
  intros (h & s & a & r & -> & Hs & Ha & Hr & ->).
  unfold format_document, get_or_none. cbn [get bind ret].
  rewrite Hs. cbn [get bind ret]. rewrite Ha, Hr. reflexivity.
Qed.

Lemma format_documents_of (docs outs : list json) :
  Forall2 document_of docs outs -> comprehension format_document docs = inr outs.
Proof.
  induction 1 as [|hit out docs outs H _ IH]; [reflexivity|].
  cbn [comprehension]. rewrite (format_document_of _ _ H), IH. reflexivity.
Qed.

Lemma format_total (hs : dict) :
  (if is_dict (dict_get hs "total" JNull)
   then t <- get (JDict hs) "total" (JDict []) ;; get t "value" (JInt 0)
   else get (JDict hs) "total" (JInt 0)) = inr (total_of hs).
Proof.
  unfold total_of, dict_get. cbn [get]. unfold dict_get.
  destruct (lookup "total" hs) as [[| | | | |t]|]; reflexivity.
Qed.

Lemma format_reduce_documents (r hs : dict) (docs outs : list json) :
  dict_get r "hits" (JDict []) = JDict hs ->
  dict_get hs "hits" (JList []) = JList docs ->
  Forall2 document_of docs outs ->
  format_reduce (JDict r) =
  inr [("total_hits", total_of hs);
       ("max_score", dict_get hs "max_score" JNull);
       ("documents", JList outs)].
Proof.
  intros Hh Hd Ho. unfold format_reduce, get_or_none.
  cbn [get bind ret]. rewrite Hh. cbn [get bind ret].
  pose proof (format_total hs) as Ht. cbn [get bind ret] in Ht. rewrite Ht. cbn [bind].
  rewrite Hd. cbn [iter bind ret]. rewrite (format_documents_of _ _ Ho). reflexivity.
Qed.

(** X18: from a response whose hits are objects with a source, an agent
    and a rule that are objects or missing, [format_query_results] makes
    one document for each hit, in order, a field the hit does not have
    being null; the total is the "value" of the total of the hit list when
    that is an object, and the total itself otherwise. *)
Theorem format_documents_in_order (r hs : dict) (docs outs : list json) :
  dict_get r "hits" (JDict []) = JDict hs ->
  dict_get hs "hits" (JList []) = JList docs ->
  Forall2 document_of docs outs ->
  format_query_results (JDict r) =
  [("total_hits", total_of hs);
   ("max_score", dict_get hs "max_score" JNull);
   ("documents", JList outs)].
Proof.
  intros Hh Hd Ho. unfold format_query_results.
  rewrite (format_reduce_documents r hs docs outs Hh Hd Ho). reflexivity.
Qed.

Lemma comprehension_raises {A B} (f : A -> Py.result B) (xs : list A) (x : A) (e : exn) :
  In x xs -> f x = inl e -> exists e', comprehension f xs = inl e'.
Proof.
  intros Hin Hf. induction xs as [|y xs IH]; [contradiction|].
  cbn [comprehension]. destruct Hin as [->|Hin].
  - rewrite Hf. now exists e.
  - destruct (f y) as [ey|v]; [now exists ey|].
    destruct (IH Hin) as [e' ->]. now exists e'.
Qed.

(** X19: one hit that is not an object makes [format_query_results]
    return, instead of any document, the error object, which carries the
    response as it was received. *)
Theorem format_malformed_hit (r hs : dict) (docs : list json) (hit : json) :
  dict_get r "hits" (JDict []) = JDict hs ->
  dict_get hs "hits" (JList []) = JList docs ->
  In hit docs -> is_dict hit = false ->
  exists e,
    format_query_results (JDict r) =
    [("error", JStr ("Failed to format results: " ++ str_of_exn e));
     ("raw_results", JDict r)].
Proof.
  intros Hh Hd Hin Hhit. unfold format_query_results, format_reduce, get_or_none.
  cbn [get bind ret]. rewrite Hh. cbn [get bind ret].
  pose proof (format_total hs) as Ht. cbn [get bind ret] in Ht. rewrite Ht. cbn [bind].
  rewrite Hd. cbn [iter bind ret].
  destruct (comprehension_raises format_document docs hit AttributeError Hin) as [e ->].
  - destruct hit; try discriminate; reflexivity.
  - now exists e.
Qed.

Lemma query_request_eq (config : Config) (client : option string) (body : dict) :
  search_request (query_connector config client)
    (search_url_of (query_connector config client)
       (index_text (dict_get body "index" (JStr "wazuh-alerts-*"))))
    (dict_get body "body" (JDict [])) =
  query_request config body.
Proof. reflexivity. Qed.

Lemma execute_query_run (net : transport) (config : Config) (client : option string)
    (body : dict) :
  let raw := run (search net (query_connector config client)
                    (index_text (dict_get body "index" (JStr "wazuh-alerts-*")))
                    (dict_get body "body" (JDict []))) in
  run (execute_query net config client (JDict body)) =
  match (hits <- get raw "hits" (JDict []) ;;
         total <- get hits "total" (JDict []) ;;
         get total "value" (JInt 0)) with
  | inl e => HttpError 500 ("Query execution failed: " ++ str_of_exn e)
  | inr total_hits =>
      HttpOk (JDict [("success", JBool true);
                     ("data", JDict (format_query_results raw));
                     ("total_hits", total_hits)])
  end.
Proof.
  unfold execute_query, query_connector. cbn [get bind ret]. cbv zeta.
  rewrite run_bind_ret. reflexivity.
Qed.

(** X20: the query endpoint does not use its tenant: the connector has no
    tenant and the index of the request is searched as it is given,
    without a prefix, so the answer and the requests are the same for
    every tenant; the requests go to the address made of the index as
    given. *)
Theorem execute_query_without_tenant (net : transport) (config : Config)
    (client : option string) (body : dict) :
  execute_query net config client (JDict body) = execute_query net config None (JDict body)
  /\ exists n, (n <= 2)%nat
       /\ effects (execute_query net config client (JDict body)) =
          backoff_trace (query_request config body) n.
Proof.
  split; [reflexivity|].
  unfold execute_query. cbn [get bind ret]. cbv zeta. rewrite effects_bind_ret.
  destruct (search_effects net config (Some (get_elasticsearch_config config client)) None
              (index_text (dict_get body "index" (JStr "wazuh-alerts-*")))
              (dict_get body "body" (JDict []))) as (n & Hn & E).
  exists n. split; [exact Hn|]. exact E.
Qed.

(** X21: when the search fails, the engine being out of reach at the three
    attempts or refusing with a status other than 200, the query endpoint
    does not answer with an error: it answers success with no hit. *)
Theorem execute_query_failed_search (net : transport) (config : Config)
    (client : option string) (body : dict) :
  let req := query_request config body in
  (forall n, (n <= 2)%nat -> net req n = RequestException)
  \/ (exists n status b, (n <= 2)%nat
        /\ (forall m, (m < n)%nat -> net req m = RequestException)
        /\ net req n = Response status b /\ status <> 200) ->
  run (execute_query net config client (JDict body)) =
  HttpOk (JDict [("success", JBool true); ("data", JDict no_hits); ("total_hits", JInt 0)]).
Proof.
  intros req H. rewrite execute_query_run. cbv zeta.
  assert (Hr : run (search net (query_connector config client)
                      (index_text (dict_get body "index" (JStr "wazuh-alerts-*")))
                      (dict_get body "body" (JDict []))) = JDict []).
  { destruct H as [H|(n & status & b & Hn & Hfail & Hreply & Hs)].
    - unfold query_connector.
      rewrite (search_unreachable net config
                 (Some (get_elasticsearch_config config client)) None _ _ H).
      reflexivity.
    - exact (search_refused net config (Some (get_elasticsearch_config config client)) None
               _ _ n status b Hn Hfail Hreply Hs). }
  rewrite Hr. reflexivity.
Qed.

(** X22: a response whose total is a number, not an object with a
    "value", is formatted with that number as its total, but the query
    endpoint, reading the "value" of the total itself, fails on it with
    status 500. *)
Theorem execute_query_integer_total (net : transport) (config : Config)
    (client : option string) (body r hs : dict) (docs outs : list json) (total : Z) :
  run (search net (query_connector config client)
         (index_text (dict_get body "index" (JStr "wazuh-alerts-*")))
         (dict_get body "body" (JDict []))) = JDict r ->
  dict_get r "hits" (JDict []) = JDict hs ->
  lookup "total" hs = Some (JInt total) ->
  dict_get hs "hits" (JList []) = JList docs ->
  Forall2 document_of docs outs ->
  lookup "total_hits" (format_query_results (JDict r)) = Some (JInt total)
  /\ run (execute_query net config client (JDict body)) =
     HttpError 500 ("Query execution failed: " ++ str_of_exn AttributeError).
Proof.
  intros Hr Hh Ht Hd Ho. split.
  - unfold format_query_results.
    rewrite (format_reduce_documents r hs docs outs Hh Hd Ho).
    unfold total_of. rewrite Ht. reflexivity.
  - rewrite execute_query_run. cbv zeta. rewrite Hr. cbn [get bind ret]. rewrite Hh.
    cbn [get bind ret]. unfold dict_get. rewrite Ht. reflexivity.
Qed.

(** X23: the sample endpoint answers with the source of the first hit;
    when the search fails or finds nothing it answers "No documents
    found", not an error; a first hit without a source is a failure with
    status 500. *)
Theorem get_sample_document_cases (net : transport) (config : Config) (index : string)
    (client : option string) :
  let raw := run (search net (query_connector config client) index sample_query_body) in
  let answer := run (get_sample_document net config index client) in
  (raw = JDict [] -> answer = HttpOk no_sample)
  /\ (forall r hs, raw = JDict r -> dict_get r "hits" (JDict []) = JDict hs ->
        dict_get hs "hits" (JList []) = JList [] -> answer = HttpOk no_sample)
  /\ (forall r hs first rest,
        raw = JDict r -> dict_get r "hits" (JDict []) = JDict hs ->
        dict_get hs "hits" (JList []) = JList (JDict first :: rest) ->
        match lookup "_source" first with
        | Some source => answer = HttpOk (JDict [("sample", source)])
        | None => answer = HttpError 500 ("Failed to fetch sample: " ++ str_of_exn KeyError)
        end).
Proof.
  cbv zeta. unfold get_sample_document, query_connector. cbv zeta. rewrite run_bind_ret.
  split; [|split].
  - intros ->. reflexivity.
  - intros r hs -> Hh Hd. cbn [get bind ret]. rewrite Hh. cbn [get bind ret].
    rewrite Hd. reflexivity.
  - intros r hs first rest -> Hh Hd. cbn [get bind ret]. rewrite Hh. cbn [get bind ret].
    rewrite Hd. cbn [truthy getitem0 bind ret getitem].
    destruct (lookup "_source" first); reflexivity.
Qed.

(** ** Connection parameters *)

Lemma rstrip_slash_spec (s : string) :
  ends_with_slash (rstrip_slash s) = false
  /\ exists n, s = rstrip_slash s ++ slashes n.
Proof.
  induction s as [|c s [IH1 [n IH2]]]; simpl.
  - split; [reflexivity|]. now exists 0%nat.
  - destruct (rstrip_slash s) as [|c' t] eqn:E.
    + destruct (Ascii.eqb_spec c "/"%char) as [->|Hc]; simpl.
      * split; [reflexivity|]. exists (S n). rewrite IH2 at 1. reflexivity.
      * split; [now apply Ascii.eqb_neq|]. exists n. rewrite IH2 at 1. reflexivity.
    + split; [exact IH1|]. exists n. rewrite IH2 at 1. reflexivity.
Qed.

(** X24: the connection parameters made from the configured host have the
    scheme "https" or "http", "https" exactly when the host starts with
    "https://" or, having no scheme in front, has "https" somewhere in it;
    the host has no "/" at its end and, when the configured host has no
    scheme in front, is that host without the "/" at its end; the port
    and the credentials are those of the configuration, whatever the
    tenant. *)
Theorem connection_parameters (config : Config) (client : option string) :
  let es_config := get_elasticsearch_config config client in
  let configured := dashboard_host config in
  (cfg_scheme es_config = "https" \/ cfg_scheme es_config = "http")
  /\ (cfg_scheme es_config = "https" <->
        startswith configured "https://" = true
        \/ (startswith configured "http://" = false /\ contains "https" configured = true))
  /\ ends_with_slash (cfg_host es_config) = false
  /\ (startswith configured "https://" = false -> startswith configured "http://" = false ->
        exists n, configured = cfg_host es_config ++ slashes n)
  /\ cfg_port es_config = dashboard_port config
  /\ cfg_username es_config = dashboard_user config
  /\ cfg_password es_config = dashboard_pass config
  /\ es_config = get_elasticsearch_config config None.
Proof.
  cbv zeta. unfold get_elasticsearch_config.
  destruct (startswith (dashboard_host config) "https://") eqn:Hs.
  { cbn [cfg_scheme cfg_host cfg_port cfg_username cfg_password].
    split; [now left|]. split; [split; auto|].
    split; [apply rstrip_slash_spec|]. split; [discriminate|]. repeat split. }
  destruct (startswith (dashboard_host config) "http://") eqn:Hh.
  { cbn [cfg_scheme cfg_host cfg_port cfg_username cfg_password].
    split; [now right|].
    split; [split; [discriminate|intros [H|[H _]]; discriminate]|].
    split; [apply rstrip_slash_spec|]. split; [discriminate|]. repeat split. }
  destruct (contains "https" (dashboard_host config)) eqn:Hc;
    cbn [cfg_scheme cfg_host cfg_port cfg_username cfg_password].
  - split; [now left|]. split; [split; auto|].
    split; [apply rstrip_slash_spec|].
    split; [intros _ _; apply rstrip_slash_spec|]. repeat split.
  - split; [now right|].
    split; [split; [discriminate|intros [H|[_ H]]; discriminate]|].
    split; [apply rstrip_slash_spec|].
    split; [intros _ _; apply rstrip_slash_spec|]. repeat split.
Qed.

(** ** Tenant configurations and severity keys *)

(** X25: for a configuration whose clients have distinct names,
    [get_client_config] returns the configuration of a client by its name;
    it returns null for a name that is not configured, for no name and for
    the empty name, even when a client is configured under the empty
    name. *)
Theorem get_client_config_lookup (client_configs : list (string * dict)) :
  NoDup (map fst client_configs) ->
  (forall c, In c client_configs -> fst c <> "" ->
     get_client_config (mt_config_of client_configs) (Some (fst c)) = inr (JDict (snd c)))
  /\ (forall name, ~ In name (map fst client_configs) ->
        get_client_config (mt_config_of client_configs) (Some name) = inr JNull)
  /\ get_client_config (mt_config_of client_configs) None = inr JNull
  /\ get_client_config (mt_config_of client_configs) (Some "") = inr JNull.
Proof.
  intros Hnd. split; [|split; [|split; reflexivity]].
  - intros c Hin Hne. unfold get_client_config, mt_config_of.
    cbn [truthy_str negb]. apply String.eqb_neq in Hne. rewrite Hne.
    cbn [negb get dict_get lookup String.eqb Ascii.eqb Bool.eqb bind ret format_optional].
    unfold dict_get. now rewrite (lookup_client client_configs c Hnd Hin).
  - intros name Hnot. unfold get_client_config, mt_config_of.
    destruct (truthy_str (Some name)); cbn [negb]; [|reflexivity].
    cbn [get dict_get lookup String.eqb Ascii.eqb Bool.eqb bind ret format_optional].
    unfold dict_get.
    assert (Hl : lookup name (map (fun c => (fst c, JDict (snd c))) client_configs) = None).
    { clear Hnd. induction client_configs as [|[k v] rest IH]; [reflexivity|].
      simpl. simpl in Hnot.
      destruct (String.eqb_spec name k) as [->|_]; [exfalso; apply Hnot; now left|].
      apply IH. intros H. apply Hnot. now right. }
    now rewrite Hl.
Qed.

Lemma severity_data_keyed (buckets : list (json * (Z * Z))) :
  Forall (fun b => int int_of_str (fst b) = inr (fst (snd b))) buckets ->
  comprehension (fun bucket =>
      key <- getitem bucket "key" ;;
      level <- int int_of_str key ;;
      count <- getitem bucket "doc_count" ;;
      ret (JDict [("level", JInt level); ("count", count)]))
    (map (fun b => severity_bucket_keyed (fst b) (snd (snd b))) buckets) =
  inr (map severity_entry (map snd buckets)).
Proof.
  induction 1 as [|[key [level n]] rest Hk _ IH]; [reflexivity|].
  cbn [map comprehension fst snd] in *.
  unfold severity_bucket_keyed at 1. cbn [getitem lookup String.eqb Ascii.eqb Bool.eqb bind ret].
  rewrite Hk. cbn [bind ret]. rewrite IH. reflexivity.
Qed.

(** X26: the key of a severity bucket goes through [int]: buckets whose
    keys [int] accepts, numbers or strings alike, are banded by the
    integers it makes of them; one bucket whose key [int] rejects leaves
    the severity breakdown empty and the summary without bands, whatever
    the other buckets are. *)
Theorem severity_keys_through_int :
  (forall buckets : list (json * (Z * Z)),
     Forall (fun b => int int_of_str (fst b) = inr (fst (snd b))) buckets ->
     severity_reduce
       (aggregations_of "severity_breakdown"
          (map (fun b => severity_bucket_keyed (fst b) (snd (snd b))) buckets)) =
     inr [("severity_breakdown", JList (map severity_entry (map snd buckets)));
          ("severity_summary",
           JDict (summary_of (band_total Critical (map snd buckets))
                             (band_total High (map snd buckets))
                             (band_total Medium (map snd buckets))
                             (band_total Low (map snd buckets))))])
  /\ (forall (before after : list json) (key : json) (count : Z) (e : exn),
        int int_of_str key = inl e ->
        try_except
          (severity_reduce
             (aggregations_of "severity_breakdown"
                (before ++ severity_bucket_keyed key count :: after)))
          (fun _ => [("severity_breakdown", JList []); ("severity_summary", JDict [])]) =
        [("severity_breakdown", JList []); ("severity_summary", JDict [])]).
Proof.
  split.
  - intros buckets Hk. unfold severity_reduce.
    rewrite aggregation_buckets_of. cbn [bind iter ret].
    rewrite (severity_data_keyed buckets Hk). cbn [bind].
    change [("critical", JInt 0); ("high", JInt 0); ("medium", JInt 0); ("low", JInt 0)]
      with (summary_of 0 0 0 0).
    rewrite (severity_loop_totals (map snd buckets) 0 0 0 0). reflexivity.
  - intros before after key count e He. unfold severity_reduce.
    rewrite aggregation_buckets_of. cbn [bind iter ret].
    edestruct (comprehension_raises
                 (fun bucket =>
                    key <- getitem bucket "key" ;;
                    level <- int int_of_str key ;;
                    count <- getitem bucket "doc_count" ;;
                    ret (JDict [("level", JInt level); ("count", count)]))
                 (before ++ severity_bucket_keyed key count :: after)
                 (severity_bucket_keyed key count) e) as [e' E].
    + apply in_or_app. right. now left.
    + unfold severity_bucket_keyed.
      cbn [getitem lookup String.eqb Ascii.eqb Bool.eqb bind ret]. now rewrite He.
    + rewrite E. reflexivity.
Qed.

(** * Exceptions that leave [search], and the [except] branch of the statistics *)

Lemma search_any_unfold (net : any_transport) (config : Config)
    (es_config : option EsConfig) (client : option string) (index : string) (body : json) :
  let self := ElasticsearchConnector_init config es_config client in
  search_any net self index body =
  attempt_loop_any net self (search_request self (search_url_of self index) body)
    [0; 1; 2]%nat.
Proof.
  destruct es_config; reflexivity.
Qed.

Lemma attempt_loop_any_completing (net : transport) (self : ElasticsearchConnector)
    (req : request) (attempts : list nat) :
  attempt_loop_any (completing net) self req attempts =
  (inr (run (attempt_loop net self req attempts)),
   effects (attempt_loop net self req attempts)).
Proof.
  induction attempts as [|a rest IH]; [reflexivity|].
  cbn [attempt_loop_any attempt_loop]. rewrite IH.
  unfold completing, io_bind, perform, io_ret, run, effects.
  destruct (attempt_result (net req a)) as [r|]; [reflexivity|].
  destruct (a <? max_retries self)%nat; [|reflexivity].
  destruct (attempt_loop net self req rest) as [v l]. reflexivity.
Qed.

(** Where no attempt raises an exception of another class, [search] over
    the wider transport returns what [search] returns, after the same
    effects. *)
Lemma search_any_completing (net : transport) (self : ElasticsearchConnector)
    (index : string) (body : json) :
  search_any (completing net) self index body =
  (inr (run (search net self index body)), effects (search net self index body)).
Proof.
  unfold search_any, _execute_search_request_any, search, _execute_search_request.
  apply attempt_loop_any_completing.
Qed.

(** C3: [search] does raise to its caller.  When [requests.post] or
    [response.json()] raises an exception that is not a
    [RequestException], at the first attempt or after one or two request
    failures, [search] ends with that exception: after one post per attempt
    so far and the pauses between them, without another attempt and without
    the empty response. *)
Theorem search_raises_other_exceptions (net : any_transport) (config : Config)
    (es_config : option EsConfig) (client : option string) (index : string) (body : json)
    (n : nat) (e : exn) :
  let self := ElasticsearchConnector_init config es_config client in
  let req := search_request self (search_url_of self index) body in
  (n <= 2)%nat ->
  (forall m, (m < n)%nat -> net req m = Completes RequestException) ->
  net req n = Raises e ->
  search_any net self index body = (inl e, backoff_trace req n).
Proof.
  intros self req Hn Hfail Hraise.
  unfold self. rewrite search_any_unfold. fold self. fold req.
  assert (Hmax : max_retries self = 2%nat) by (unfold self; now destruct es_config).
  assert (Hback : retry_backoff self = (3 # 2)%Q) by (unfold self; now destruct es_config).
  simpl attempt_loop_any. rewrite Hmax, Hback. simpl Nat.ltb.
  destruct n as [|[|[|n]]]; [| | |lia].
  - rewrite Hraise. reflexivity.
  - rewrite (Hfail 0%nat) by lia. simpl attempt_result. rewrite Hraise. reflexivity.
  - rewrite (Hfail 0%nat), (Hfail 1%nat) by lia. simpl attempt_result. rewrite Hraise.
    reflexivity.
Qed.

(** For a time range that is a string, the statistics are those of the
    typed function. *)
Lemma get_dashboard_statistics_any_str (net : transport) (config : Config)
    (client : option string) (time_range : string) :
  get_dashboard_statistics_any net config client (JStr time_range) =
  get_dashboard_statistics net config client time_range.
Proof. reflexivity. Qed.

(** A time range that can be hashed and is not a string gives the
    statistics of the last 24 hours. *)
Lemma get_dashboard_statistics_any_default (net : transport) (config : Config)
    (client : option string) (time_range : json) :
  hashable time_range = true -> (forall s, time_range <> JStr s) ->
  get_dashboard_statistics_any net config client time_range =
  get_dashboard_statistics net config client "24h".
Proof.
  intros Hh Hs. destruct time_range; try reflexivity; try discriminate Hh.
  now elim (Hs s).
Qed.

(** C6: a statistics result without the totals.  A time range that is a
    list or a dictionary, which the endpoint passes on as it receives it,
    makes [time_map.get] raise [TypeError] before any query is sent; the
    result is the object of the [except] branch, where "total_alerts" and
    "critical_alerts" are missing beside an empty severity summary.  The
    handler of the endpoint, for the same failure, sets both to 0. *)
Theorem statistics_failure_without_totals (net : transport) (config : Config)
    (client : option string) (time_range : json) :
  hashable time_range = false ->
  let out := get_dashboard_statistics_any net config client time_range in
  out = (pipeline_failure (str_of_exn TypeError), [])
  /\ lookup "total_alerts" (run out) = None
  /\ lookup "critical_alerts" (run out) = None
  /\ lookup "severity_summary" (run out) = Some (JDict [])
  /\ (forall error,
        lookup "total_alerts" (endpoint_failure error) = Some (JInt 0)
        /\ lookup "critical_alerts" (endpoint_failure error) = Some (JInt 0)).
Proof.
  intros Hh out.
  assert (E : out = (pipeline_failure (str_of_exn TypeError), [])).
  { unfold out. destruct time_range; try discriminate Hh; reflexivity. }
  rewrite E. repeat split.
Qed.
End Pipeline.

(** * The properties at sample inputs *)


Lemma statistics_shape_witness :
  let stats :=
    run (get_dashboard_statistics int_of_decimal exn_name sample_engine
           sample_config (Some "lab") "7d") in
  run (statistics_body int_of_decimal sample_engine sample_config (Some "lab") "7d") =
    inr stats
  /\ In "top_rules" list_keys
  /\ (exists xs, lookup "top_rules" stats = Some (JList xs))
  /\ In "top_rules" (fragment_keys TopRules)
  /\ lookup "top_rules" stats =
     Some (JList [JDict [("description", JStr "sshd: authentication failed");
                         ("count", JInt 41)];
                  JDict [("description", JStr "PAM: login session opened");
                         ("count", JInt 17)]])
  /\ (exists summary, lookup "severity_summary" stats = Some (JDict summary)
                      /\ map fst summary = band_names)
  /\ lookup "agent_health" (pipeline_failure "unavailable") = Some (health_of 0 0 0).
Proof.
  intros stats.
  assert (Hbody : run (statistics_body int_of_decimal sample_engine sample_config
                         (Some "lab") "7d") = inr stats) by reflexivity.
  assert (Hin : In "top_rules" list_keys) by (simpl; auto).
  assert (Hkey : In "top_rules" (fragment_keys TopRules)) by (simpl; auto).
  assert (Hc : "top_rules" <> "critical_alerts") by discriminate.
  assert (Ht : "top_rules" <> "total_alerts") by discriminate.
  assert (Hin' : In "agent_health" ("severity_summary" :: "agent_health" :: list_keys))
    by (simpl; auto).
  pose proof (statistics_shape int_of_decimal exn_name sample_engine sample_config
                (Some "lab") "7d" stats Hbody) as H.
  destruct H as (_ & Hlists & Hsummary & _ & _ & Hvalues & Hfailure).
  refine (conj Hbody (conj Hin (conj (Hlists "top_rules" Hin) (conj Hkey (conj _ (conj _ _)))))).
  - exact (Hvalues TopRules "top_rules" Hkey Hc Ht).
  - exact Hsummary.
  - exact (proj2 (Hfailure "unavailable") "agent_health" Hin').
Defined.

(** C4 as the specification words it fails: when the severity reduction
    raises, the severity summary of the result is the empty object, without
    its four bands; and the object of the [except] branch has neither the
    bands nor the two totals. *)
Lemma severity_failure_drops_bands :
  let stats :=
    run (get_dashboard_statistics int_of_decimal exn_name (answering severity_without_key)
           sample_config (Some "lab") "24h") in
  severity_reduce int_of_decimal severity_without_key = inl KeyError
  /\ lookup "severity_summary" stats = Some (JDict [])
  /\ fixed_shape stats = false
  /\ fixed_shape (pipeline_failure "unavailable") = false.
Proof.
  repeat split.
Qed.

Lemma country_without_entries_witness :
  excluded_ip "198.51.100.2" = false
  /\ try_except
       (top_source_ips_reduce
          (aggregations_of "top_source_ips"
             ([source_ip_bucket "203.0.113.7" 4 ["Germany"]]
              ++ source_ip_bucket "198.51.100.2" 3 [] :: [])))
       (fun _ => [("top_source_ips", JList [])]) =
     [("top_source_ips", JList [])].
Proof.
  assert (Hip : excluded_ip "198.51.100.2" = false) by reflexivity.
  refine (conj Hip _).
  exact (proj2 (proj2 (country_without_entries
                         [source_ip_bucket "203.0.113.7" 4 ["Germany"]] []
                         "198.51.100.2" 3 Hip))).
Defined.

Lemma histogram_fragments_witness :
  let hours := answering (aggregations_of "alerts_per_hour" sample_days) in
  let days := answering (aggregations_of "daily_trends" sample_days) in
  run (_get_alerts_per_hour hours lab_connector "wazuh-alerts-*" "now-7d" "6h") =
  [("alerts_per_hour",
    JList [JDict [("timestamp", JStr "2024-05-01"); ("count", JInt 7)];
           JDict [("timestamp", JStr "2024-05-02"); ("count", JInt 0)];
           JDict [("timestamp", JStr "2024-05-03"); ("count", JInt 12)]])]
  /\ run (_get_alert_trends days lab_connector "wazuh-alerts-*" "now-7d") =
  [("alert_trends",
    JList [JDict [("date", JStr "2024-05-01"); ("count", JInt 7)];
           JDict [("date", JStr "2024-05-02"); ("count", JInt 0)];
           JDict [("date", JStr "2024-05-03"); ("count", JInt 12)]])].
Proof.
  intros hours days. split.
  - refine (proj1 (histogram_fragments hours lab_connector "wazuh-alerts-*" "now-7d" "6h"
                     sample_days _) eq_refl _).
    repeat (constructor; [do 3 eexists; repeat split; reflexivity|]).
    constructor.
  - refine (proj2 (histogram_fragments days lab_connector "wazuh-alerts-*" "now-7d" "6h"
                     sample_days _) eq_refl _).
    repeat (constructor; [do 3 eexists; repeat split; reflexivity|]).
    constructor.
Defined.

(** C9 as the specification words it fails for the trends: the formatted
    key of a bucket is under "date", and the entry has no "timestamp". *)
Lemma alert_trends_key_is_date :
  let response := aggregations_of "daily_trends" [histogram_bucket "2024-05-01" 1714521600000 7] in
  alert_trends_reduce response =
    inr [("alert_trends", JList [JDict [("date", JStr "2024-05-01"); ("count", JInt 7)]])]
  /\ alert_trends_reduce response <>
    inr [("alert_trends",
          JList [JDict [("timestamp", JStr "2024-05-01"); ("count", JInt 7)]])].
Proof.
  split; [reflexivity|discriminate].
Qed.

Lemma agent_health_counts_witness :
  let engine := answering (agents_response sample_agents) in
  run (_get_agent_status engine lab_connector "wazuh-monitoring-*") =
    [("agent_health", health_of 4 2 2)]
  /\ 4 < Z.of_nat (List.length sample_agents).
Proof.
  intros engine. split; [|reflexivity].
  exact (proj1 (agent_health_counts engine lab_connector "wazuh-monitoring-*"
                  sample_agents eq_refl)).
Defined.

(** The severity example of the specification through the whole pipeline:
    the totals are 10 and 3. *)
Example sample_totals :
  let stats :=
    run (get_dashboard_statistics int_of_decimal exn_name sample_engine
           sample_config (Some "lab") "24h") in
  lookup "severity_summary" stats = Some (JDict (summary_of 3 5 0 2))
  /\ lookup "total_alerts" stats = Some (JInt 10)
  /\ lookup "critical_alerts" stats = Some (JInt 3).
Proof. repeat split. Qed.

(** An engine that refuses every query, or cannot be reached, gives the
    statistics object with every key at its empty value. *)
Example refused_statistics :
  let zero :=
    statistics_of (JList []) (JList []) (JDict (summary_of 0 0 0 0)) (JList [])
      (JList []) (JList []) (JList []) (health_of 0 0 0) (JInt 0) (JInt 0) in
  run (get_dashboard_statistics int_of_decimal exn_name (failing_then 0 500)
         sample_config None "30d") = zero
  /\ run (get_dashboard_statistics int_of_decimal exn_name unreachable
            sample_config None "30d") = zero.
Proof. split; reflexivity. Qed.

(** The agent example of the specification: three agents whose latest
    statuses are "active", "disconnected" and "connected". *)
Example agent_health_of_three :
  agent_status_reduce
    (agents_response
       [{| agent_id := "001"; latest := [Some "active"] |};
        {| agent_id := "002"; latest := [Some "disconnected"] |};
        {| agent_id := "003"; latest := [Some "connected"] |}]) =
  inr [("agent_health", health_of 3 2 1)].
Proof. reflexivity. Qed.

(** An unknown time range falls back to the last 24 hours by the hour. *)
Example unknown_time_range :
  es_time_range_of "90d" = "now-24h" /\ histogram_interval_of "90d" = "1h".
Proof. split; reflexivity. Qed.

(** * The further properties at sample inputs *)

Lemma unknown_time_range_as_24h_witness :
  "90d" <> "24h" /\ "90d" <> "7d" /\ "90d" <> "30d"
  /\ get_dashboard_statistics int_of_decimal exn_name sample_engine sample_config
       (Some "lab") "90d" =
     get_dashboard_statistics int_of_decimal exn_name sample_engine sample_config
       (Some "lab") "24h".
Proof.
  assert (H1 : "90d" <> "24h") by discriminate.
  assert (H2 : "90d" <> "7d") by discriminate.
  assert (H3 : "90d" <> "30d") by discriminate.
  refine (conj H1 (conj H2 (conj H3 _))).
  exact (unknown_time_range_as_24h int_of_decimal exn_name sample_engine sample_config
           (Some "lab") "90d" H1 H2 H3).
Defined.

Lemma pipeline_index_scoped_once_witness :
  "lab" <> ""
  /\ fragment_index (Some "lab") AgentHealth = "lab:wazuh-monitoring-*"
  /\ (Some "" = None \/ Some "" = Some "")
  /\ fragment_index (Some "") Severity = "wazuh-alerts-*".
Proof.
  assert (H1 : "lab" <> "") by discriminate.
  assert (H2 : Some "" = None \/ Some "" = Some "") by (right; reflexivity).
  refine (conj H1 (conj _ (conj H2 _))).
  - exact (proj1 (proj2 (pipeline_index_scoped_once sample_config (Some "lab") AgentHealth))
             "lab" eq_refl H1).
  - exact (proj2 (proj2 (pipeline_index_scoped_once sample_config (Some "") Severity)) H2).
Defined.

Lemma transport_failure_isolation_witness :
  let stats :=
    run (get_dashboard_statistics int_of_decimal exn_name rules_unreachable sample_config
           (Some "lab") "24h") in
  lookup "top_rules" stats = Some (JList [])
  /\ lookup "total_alerts" stats = Some (JInt 10).
Proof.
  split; [|reflexivity].
  refine (transport_failure_isolation int_of_decimal exn_name rules_unreachable
            sample_config (Some "lab") "24h" TopRules _ "top_rules" (or_introl eq_refl)).
  intros n _. reflexivity.
Defined.

Lemma search_returns_body_witness :
  let req := search_request lab_connector
               (search_url_of lab_connector "wazuh-alerts-*") top_agents_query in
  search (answering_after 1 sample_rules) lab_connector "wazuh-alerts-*" top_agents_query =
  (sample_rules, [Post req; Sleep ((3 # 2) * 1); Post req]).
Proof.
  refine (search_returns_body (answering_after 1 sample_rules) sample_config
            (Some (get_elasticsearch_config sample_config (Some "lab"))) (Some "lab")
            "wazuh-alerts-*" top_agents_query 1%nat sample_rules _ _ eq_refl).
  - lia.
  - intros m Hm. assert (m = 0%nat) as -> by lia. reflexivity.
Defined.

Lemma terms_fragments_witness :
  run (_get_top_rules sample_engine lab_connector "lab:wazuh-alerts-*" "now-24h") =
  [("top_rules",
    JList [JDict [("description", JStr "sshd: authentication failed"); ("count", JInt 41)];
           JDict [("description", JStr "PAM: login session opened"); ("count", JInt 17)]])]
  /\ run (_get_top_agents
            (answering (aggregations_of "top_agents"
                          [JDict [("key", JStr "web-1"); ("doc_count", JInt 9)]]))
            lab_connector "lab:wazuh-alerts-*") =
     [("top_agents", JList [JDict [("agent_name", JStr "web-1"); ("count", JInt 9)]])].
Proof.
  split.
  - refine (proj1 (terms_fragments sample_engine lab_connector "lab:wazuh-alerts-*"
                     "now-24h"
                     [JDict [("key", JStr "sshd: authentication failed");
                             ("doc_count", JInt 41)];
                      JDict [("key", JStr "PAM: login session opened");
                             ("doc_count", JInt 17)]] _) eq_refl _).
    repeat (constructor; [do 3 eexists; repeat split; reflexivity|]).
    constructor.
  - refine (proj2 (terms_fragments
                     (answering (aggregations_of "top_agents"
                                   [JDict [("key", JStr "web-1"); ("doc_count", JInt 9)]]))
                     lab_connector "lab:wazuh-alerts-*" "now-24h"
                     [JDict [("key", JStr "web-1"); ("doc_count", JInt 9)]] _)
              eq_refl _).
    repeat (constructor; [do 3 eexists; repeat split; reflexivity|]).
    constructor.
Defined.

Lemma list_fragments_whole_or_empty_witness :
  let engine :=
    answering (aggregations_of "top_rules"
                 [JDict [("key", JStr "sshd: authentication failed"); ("doc_count", JInt 41)];
                  JDict [("key", JStr "no count")]]) in
  exists entries,
    run (_get_top_rules engine lab_connector "lab:wazuh-alerts-*" "now-24h") =
      [("top_rules", JList entries)]
    /\ (entries = [] \/ List.length entries = 2%nat).
Proof.
  intros engine.
  exact (proj1 (proj2 (list_fragments_whole_or_empty engine lab_connector
                         "lab:wazuh-alerts-*" "now-24h" "1h"
                         [JDict [("key", JStr "sshd: authentication failed");
                                 ("doc_count", JInt 41)];
                          JDict [("key", JStr "no count")]])) eq_refl).
Defined.

Lemma excluded_never_listed_witness :
  Forall (fun entry => exists ip count country,
            entry = JDict [("ip", ip); ("count", count); ("country", country)]
            /\ in_strs ip [""; "0.0.0.0"] = false)
    [JDict [("ip", JStr "203.0.113.7"); ("count", JInt 4); ("country", JStr "Germany")]].
Proof.
  exact (excluded_never_listed
           (aggregations_of "top_source_ips"
              [source_ip_bucket "0.0.0.0" 9 ["Nowhere"];
               source_ip_bucket "203.0.113.7" 4 ["Germany"];
               source_ip_bucket "" 2 ["Nowhere"]])
           _ eq_refl).
Defined.

Lemma get_indices_names_witness :
  get_indices sample_index_table lab_connector =
    [JStr "wazuh-alerts-4.x-2024.05.01"; JStr "lab:wazuh-alerts-4.x-2024.05.01";
     JStr "collab:wazuh-alerts-4.x-2024.05.01"]
  /\ get_indices sample_index_table (connector_for sample_config None) =
    [JStr "wazuh-alerts-4.x-2024.05.01"; JStr "lab:wazuh-alerts-4.x-2024.05.01";
     JStr "collab:wazuh-alerts-4.x-2024.05.01"; JStr "prod:wazuh-alerts-4.x-2024.05.01"].
Proof.
  split.
  - exact (get_indices_names sample_index_table lab_connector sample_index_names eq_refl).
  - exact (get_indices_names sample_index_table (connector_for sample_config None)
             sample_index_names eq_refl).
Defined.

Lemma get_indices_malformed_row_witness :
  get_indices
    (fun _ => Response 200 (Some (JList [index_row "wazuh-alerts-1"; JStr "wazuh-alerts-2"])))
    lab_connector = [].
Proof.
  refine (get_indices_malformed_row _ lab_connector
            [index_row "wazuh-alerts-1"; JStr "wazuh-alerts-2"] (JStr "wazuh-alerts-2")
            eq_refl _ eq_refl).
  right. left. reflexivity.
Defined.

Lemma get_clients_listing_witness :
  get_clients exn_name (mt_config_of sample_clients) =
  HttpOk (JDict [("clients",
                  JList [JDict [("name", JStr "lab"); ("description", JStr "Laboratory")];
                         JDict [("name", JStr "homelab"); ("description", JStr "homelab")]]);
                 ("default_client", JStr "lab")]).
Proof.
  refine (get_clients_listing exn_name sample_clients _).
  repeat constructor; simpl; intuition discriminate.
Defined.

Lemma get_clients_broken_client_witness :
  get_clients exn_name
    (mt_config_raw [("lab", JDict [("display_name", JStr "Laboratory")]); ("prod", JNull)]) =
  HttpError 500 "Failed to load clients: AttributeError".
Proof.
  refine (get_clients_broken_client exn_name
            [("lab", JDict [("display_name", JStr "Laboratory")]); ("prod", JNull)]
            "prod" JNull _ _ eq_refl).
  - repeat constructor; simpl; intuition discriminate.
  - right. left. reflexivity.
Defined.

Lemma format_documents_in_order_witness :
  format_query_results exn_name
    (hits_response (JDict [("value", JInt 1); ("relation", JStr "eq")]) [sample_hit]) =
  [("total_hits", JInt 1); ("max_score", JNull); ("documents", JList [sample_document])].
Proof.
  refine (format_documents_in_order exn_name
            (response_of (JDict [("value", JInt 1); ("relation", JStr "eq")]) [sample_hit])
            (hits_of (JDict [("value", JInt 1); ("relation", JStr "eq")]) [sample_hit])
            [sample_hit] [sample_document] eq_refl eq_refl _).
  constructor; [|constructor].
  do 4 eexists. repeat split; reflexivity.
Defined.

Lemma format_malformed_hit_witness :
  exists e,
    format_query_results exn_name (hits_response (JInt 2) [sample_hit; JNull]) =
    [("error", JStr ("Failed to format results: " ++ exn_name e));
     ("raw_results", hits_response (JInt 2) [sample_hit; JNull])].
Proof.
  refine (format_malformed_hit exn_name
            (response_of (JInt 2) [sample_hit; JNull])
            (hits_of (JInt 2) [sample_hit; JNull])
            [sample_hit; JNull] JNull eq_refl eq_refl _ eq_refl).
  right. left. reflexivity.
Defined.

Lemma execute_query_failed_search_witness :
  run (execute_query exn_name plain_text unreachable sample_config (Some "lab")
         (JDict sample_query)) =
  HttpOk (JDict [("success", JBool true); ("data", JDict no_hits); ("total_hits", JInt 0)])
  /\ run (execute_query exn_name plain_text (failing_then 1 403) sample_config (Some "lab")
            (JDict sample_query)) =
  HttpOk (JDict [("success", JBool true); ("data", JDict no_hits); ("total_hits", JInt 0)]).
Proof.
  split.
  - refine (execute_query_failed_search exn_name plain_text unreachable sample_config
              (Some "lab") sample_query (or_introl _)).
    intros n _. reflexivity.
  - refine (execute_query_failed_search exn_name plain_text (failing_then 1 403)
              sample_config (Some "lab") sample_query (or_intror _)).
    exists 1%nat, 403, None. split; [lia|]. split; [|split; [reflexivity|discriminate]].
    intros m Hm. assert (m = 0%nat) as -> by lia. reflexivity.
Defined.

Lemma execute_query_integer_total_witness :
  let raw := hits_response (JInt 1) [sample_hit] in
  lookup "total_hits" (format_query_results exn_name raw) = Some (JInt 1)
  /\ run (execute_query exn_name plain_text (answering raw) sample_config (Some "lab")
            (JDict sample_query)) =
     HttpError 500 "Query execution failed: AttributeError".
Proof.
  intros raw.
  refine (execute_query_integer_total exn_name plain_text (answering raw) sample_config
            (Some "lab") sample_query (response_of (JInt 1) [sample_hit])
            (hits_of (JInt 1) [sample_hit]) [sample_hit] [sample_document] 1
            eq_refl eq_refl eq_refl eq_refl _).
  constructor; [|constructor].
  do 4 eexists. repeat split; reflexivity.
Defined.

Lemma get_sample_document_cases_witness :
  run (get_sample_document exn_name unreachable sample_config "wazuh-alerts-*" (Some "lab")) =
    HttpOk no_sample
  /\ run (get_sample_document exn_name (answering (hits_response (JInt 1) [sample_hit]))
            sample_config "wazuh-alerts-*" None) =
     HttpOk (JDict [("sample",
       JDict [("@timestamp", JStr "2024-05-01T10:00:00Z");
              ("agent", JDict [("id", JStr "001"); ("name", JStr "web-1")]);
              ("rule", JDict [("id", JStr "5710"); ("level", JInt 5);
                              ("description", JStr "sshd: attempt to login")]);
              ("full_log", JStr "sshd[1]: Invalid user admin")])])
  /\ run (get_sample_document exn_name (answering (hits_response (JInt 0) []))
            sample_config "wazuh-alerts-*" None) = HttpOk no_sample.
Proof.
  refine (conj _ (conj _ _)).
  - exact (proj1 (get_sample_document_cases exn_name unreachable sample_config
                    "wazuh-alerts-*" (Some "lab")) eq_refl).
  - pose proof (proj2 (proj2 (get_sample_document_cases exn_name
                    (answering (hits_response (JInt 1) [sample_hit])) sample_config
                    "wazuh-alerts-*" None))
                  (response_of (JInt 1) [sample_hit]) (hits_of (JInt 1) [sample_hit])
                  _ [] eq_refl eq_refl eq_refl) as H.
    exact H.
  - exact (proj1 (proj2 (get_sample_document_cases exn_name
                    (answering (hits_response (JInt 0) [])) sample_config
                    "wazuh-alerts-*" None))
             (response_of (JInt 0) []) (hits_of (JInt 0) []) eq_refl eq_refl eq_refl).
Defined.

Lemma connection_parameters_witness :
  let es_config := get_elasticsearch_config sample_config (Some "lab") in
  startswith "https://indexer.example/" "https://" = true
  /\ cfg_scheme es_config = "https"
  /\ cfg_host es_config = "indexer.example"
  /\ (exists n, "indexer.example//" =
                cfg_host (get_elasticsearch_config
                            {| dashboard_host := "indexer.example//";
                               dashboard_port := 9200;
                               dashboard_user := None;
                               dashboard_pass := None;
                               env_verify_ssl := false |} None) ++ slashes n).
Proof.
  intros es_config.
  assert (H : startswith "https://indexer.example/" "https://" = true) by reflexivity.
  refine (conj H (conj _ (conj eq_refl _))).
  - exact (proj2 (proj1 (proj2 (connection_parameters sample_config (Some "lab"))))
             (or_introl H)).
  - exact (proj1 (proj2 (proj2 (proj2 (connection_parameters
                    {| dashboard_host := "indexer.example//";
                       dashboard_port := 9200;
                       dashboard_user := None;
                       dashboard_pass := None;
                       env_verify_ssl := false |} None))))
             eq_refl eq_refl).
Defined.

Lemma get_client_config_lookup_witness :
  get_client_config (mt_config_of sample_clients) (Some "homelab") =
    inr (JDict [("enabled", JBool true)])
  /\ get_client_config (mt_config_of sample_clients) (Some "production") = inr JNull.
Proof.
  assert (Hnd : NoDup (map fst sample_clients))
    by (repeat constructor; simpl; intuition discriminate).
  split.
  - refine (proj1 (get_client_config_lookup sample_clients Hnd)
              ("homelab", [("enabled", JBool true)]) _ _).
    + right. left. reflexivity.
    + discriminate.
  - refine (proj1 (proj2 (get_client_config_lookup sample_clients Hnd)) "production" _).
    simpl. intuition discriminate.
Defined.

Lemma severity_keys_through_int_witness :
  severity_reduce int_of_decimal
    (aggregations_of "severity_breakdown"
       [severity_bucket_keyed (JStr "15") 2; severity_bucket_keyed (JInt 3) 7]) =
    inr [("severity_breakdown", JList [severity_entry (15, 2); severity_entry (3, 7)]);
         ("severity_summary", JDict (summary_of 2 0 0 7))]
  /\ try_except
       (severity_reduce int_of_decimal
          (aggregations_of "severity_breakdown"
             ([severity_bucket_keyed (JInt 3) 7]
              ++ severity_bucket_keyed (JStr "high") 1 :: [])))
       (fun _ => [("severity_breakdown", JList []); ("severity_summary", JDict [])]) =
     [("severity_breakdown", JList []); ("severity_summary", JDict [])].
Proof.
  split.
  - refine (proj1 (severity_keys_through_int int_of_decimal)
              [(JStr "15", (15, 2)); (JInt 3, (3, 7))] _).
    repeat constructor.
  - exact (proj2 (severity_keys_through_int int_of_decimal)
             [severity_bucket_keyed (JInt 3) 7] [] (JStr "high") 1 ValueError eq_refl).
Defined.

Lemma search_raises_other_exceptions_witness :
  let req := search_request lab_connector
               (search_url_of lab_connector "wazuh-alerts-*") (JDict []) in
  search_any (raising ValueError) lab_connector "wazuh-alerts-*" (JDict []) =
    (inl ValueError, [Post req])
  /\ search_any (raising_after 2 ValueError) lab_connector "wazuh-alerts-*" (JDict []) =
    (inl ValueError,
     [Post req; Sleep ((3 # 2) * 1); Post req; Sleep ((3 # 2) * 2); Post req]).
Proof.
  intros req.
  pose (es_config := Some (get_elasticsearch_config sample_config (Some "lab"))).
  assert (H0 : forall m, (m < 0)%nat ->
            raising ValueError req m = Completes RequestException)
    by (intros m Hm; inversion Hm).
  assert (H2 : forall m, (m < 2)%nat ->
            raising_after 2 ValueError req m = Completes RequestException).
  { intros m Hm. unfold raising_after.
    destruct (Nat.ltb_spec m 2); [reflexivity|lia]. }
  refine (conj _ _).
  - exact (search_raises_other_exceptions (raising ValueError) sample_config es_config
             (Some "lab") "wazuh-alerts-*" (JDict []) 0%nat ValueError
             (Nat.le_0_l 2) H0 eq_refl).
  - exact (search_raises_other_exceptions (raising_after 2 ValueError) sample_config
             es_config (Some "lab") "wazuh-alerts-*" (JDict []) 2%nat ValueError
             (Nat.le_refl 2) H2 eq_refl).
Defined.

Lemma statistics_failure_without_totals_witness :
  let out := get_dashboard_statistics_any int_of_decimal exn_name sample_engine
               sample_config (Some "lab") (JList []) in
  hashable (JList []) = false
  /\ out = (pipeline_failure "TypeError", [])
  /\ lookup "total_alerts" (run out) = None
  /\ lookup "critical_alerts" (run out) = None.
Proof.
  intros out.
  assert (Hh : hashable (JList []) = false) by reflexivity.
  pose proof (statistics_failure_without_totals int_of_decimal exn_name sample_engine
                sample_config (Some "lab") (JList []) Hh) as H.
  cbv zeta in H. destruct H as (Hout & Htotal & Hcritical & _).
  exact (conj Hh (conj Hout (conj Htotal Hcritical))).
Defined.
